(** * Cart-to-order pipeline of the supermarket customer backend

    A shallow embedding of [src/controllers/orders.ts] (createOrder,
    getOrders and getOrder with their vocabulary maps), of the cart
    controller (getCart, addToCart, updateCartItem, removeFromCart,
    clearCart, syncGuestCart, populateCartProducts) and of the parts of
    the Cart, Product and AdminOrder models they rely on.  The two
    Razorpay handlers of orders.ts are left out: they consist of a call
    to the payment gateway, binary64 rounding of the amount and an HMAC.

    Modelling decisions, fixed once for the whole development:
    - a stored MongoDB ObjectId is an opaque number, compared like its
      [toString()]; an id in a request is a string, which Mongoose casts
      to an ObjectId whatever the case of its hex digits and which the
      cart controller compares with [toString()] as it was sent;
    - quantities and stock are integers, and a sum of two of them is the
      JavaScript sum, rounded to a number from 2^53 on;
    - a JS number holding money is an exact rational ([Q]); the binary64
      rounding of prices and amounts is outside the model, and no
      property below states the value of a computed amount (at most
      that the amounts of an order are not negative, which rounding
      keeps);
    - every store round trip is one atomic step on a [World]; the failures
      that are modelled are the ones the sources themselves tell apart:
      the readiness of the admin connection, the lazily bound Product
      model, schema validation on writes, the unique index on the order
      number and an external fault of the order write;
    - [obj[key]] on an object literal also sees the members inherited from
      [Object.prototype]. *)

From Stdlib Require Import Ascii QArith.
From stdpp Require Import gmap strings list pretty.

Local Open Scope string_scope.
Local Open Scope list_scope.
Local Open Scope Z_scope.

#[local] Set Warnings "-clear-no-such-hyp".

(** ** JavaScript values and object literals used as lookup tables *)

Module JS.

(** What [obj[key]] can evaluate to for the tables of the controllers: an
  own string entry, a member inherited from [Object.prototype] (a
  function or an object, never a string), or [undefined]. *)
Inductive value :=
| VStr (s : string)
| VProto (k : string)
| VUndefined.

(** Property names every object literal inherits (Node / V8). *)
Definition objectPrototypeKeys : list string :=
[ "constructor"; "__proto__"; "hasOwnProperty"; "isPrototypeOf";
  "propertyIsEnumerable"; "toLocaleString"; "toString"; "valueOf";
  "__defineGetter__"; "__defineSetter__"; "__lookupGetter__";
  "__lookupSetter__" ].

Fixpoint ownProperty (table : list (string * string)) (k : string) : option string :=
match table with
| [] => None
| (k', v) :: rest => if String.eqb k' k then Some v else ownProperty rest k
end.

(** [table[k]] *)
Definition get (table : list (string * string)) (k : string) : value :=
match ownProperty table k with
| Some v => VStr v
| None => if bool_decide (k ∈ objectPrototypeKeys) then VProto k else VUndefined
end.

Definition truthy (v : value) : bool :=
match v with
| VStr s => negb (String.eqb s "")
| VProto _ => true
| VUndefined => false
end.

(** [a || b] *)
Definition or (a b : value) : value := if truthy a then a else b.

(** [s.substr(start, len)] for non-negative arguments. *)
Definition substr (start len : nat) (s : string) : string :=
String.substring start len s.

Definition upperAscii (c : Ascii.ascii) : Ascii.ascii :=
let n := Ascii.nat_of_ascii c in
if (Nat.leb 97 n && Nat.leb n 122)%bool then Ascii.ascii_of_nat (n - 32) else c.

Definition lowerAscii (c : Ascii.ascii) : Ascii.ascii :=
let n := Ascii.nat_of_ascii c in
if (Nat.leb 65 n && Nat.leb n 90)%bool then Ascii.ascii_of_nat (n + 32) else c.

(** [s.toLowerCase()] on ASCII text. *)
Fixpoint toLowerCase (s : string) : string :=
match s with
| EmptyString => EmptyString
| String c rest => String (lowerAscii c) (toLowerCase rest)
end.

(** [s.toUpperCase()] on ASCII text. *)
Fixpoint toUpperCase (s : string) : string :=
match s with
| EmptyString => EmptyString
| String c rest => String (upperAscii c) (toUpperCase rest)
end.

(** The number (binary64) nearest to an integer, ties to even.  Every
  integer below 2^53 in size is a number; from there on the numbers are
  the multiples of the power of two that leaves 53 bits.  (Beyond the
  largest finite number, near 1.8e308, JavaScript has [Infinity]; here
  the result stays an integer above every finite number, which is all
  that the comparisons of the handlers see of it.) *)
Definition roundInteger (z : Z) : Z :=
let a := Z.abs z in
if a <? 2 ^ 53 then z
else
  let e := Z.log2 a - 52 in
  let q := Z.shiftr a e in
  let r := Z.land a (Z.ones e) in
  let half := Z.shiftl 1 (e - 1) in
  let up := (half <? r) || ((r =? half) && Z.odd q) in
  Z.sgn z * Z.shiftl (if up then q + 1 else q) e.

(** [a + b] on numbers that hold integers. *)
Definition addIntegers (a b : Z) : Z := roundInteger (a + b).

End JS.

Arguments JS.roundInteger : simpl never.
Arguments JS.addIntegers : simpl never.

(** ** EnumTranslator: the vocabulary tables of orders.ts *)

Module Enum.

(** createOrder, lines 128-131. *)
Definition createOrder_paymentMethodMap : list (string * string) :=
[ ("cod", "CASH"); ("razorpay", "ONLINE") ].

(** createOrder, lines 134-139. *)
Definition createOrder_paymentStatusMap : list (string * string) :=
[ ("pending", "PENDING"); ("paid", "PAID"); ("failed", "FAILED");
  ("refunded", "REFUNDED") ].

(** getOrders, lines 254-261. *)
Definition getOrders_statusMap : list (string * string) :=
[ ("PLACED", "placed"); ("PROCESSING", "processing"); ("PACKED", "processing");
  ("OUT_FOR_DELIVERY", "shipped"); ("DELIVERED", "delivered");
  ("CANCELLED", "cancelled") ].

(** getOrder, lines 331-338. *)
Definition getOrder_statusMap : list (string * string) :=
[ ("PLACED", "placed"); ("PROCESSING", "processing"); ("PACKED", "processing");
  ("OUT_FOR_DELIVERY", "shipped"); ("DELIVERED", "delivered");
  ("CANCELLED", "cancelled") ].

(** getOrders, lines 264-269 (getOrder, lines 341-346, is the same table). *)
Definition getOrders_paymentMethodMap : list (string * string) :=
[ ("CASH", "cod"); ("CARD", "card"); ("ONLINE", "razorpay"); ("OTHER", "other") ].

(** getOrders, lines 272-277. *)
Definition getOrders_paymentStatusMap : list (string * string) :=
[ ("PENDING", "pending"); ("PAID", "paid"); ("FAILED", "failed");
  ("REFUNDED", "refunded") ].

(** [paymentMethodMap[paymentMethod] || 'OTHER'] (line 179). *)
Definition paymentMethodToShared (paymentMethod : string) : JS.value :=
JS.or (JS.get createOrder_paymentMethodMap paymentMethod) (JS.VStr "OTHER").

(** [paymentStatusMap[paymentMethod === "cod" ? "pending" : "paid"] || 'PENDING']
  (line 180). *)
Definition paymentStatusToShared (paymentMethod : string) : JS.value :=
JS.or (JS.get createOrder_paymentStatusMap
         (if String.eqb paymentMethod "cod" then "pending" else "paid"))
      (JS.VStr "PENDING").

(** [paymentMethodMap[orderObj.paymentMethod] || 'other'] (lines 295, 372). *)
Definition paymentMethodToCustomer (shared : string) : JS.value :=
JS.or (JS.get getOrders_paymentMethodMap shared) (JS.VStr "other").

(** [paymentStatusMap[orderObj.paymentStatus] || 'pending'] (lines 296, 373). *)
Definition paymentStatusToCustomer (shared : string) : JS.value :=
JS.or (JS.get getOrders_paymentStatusMap shared) (JS.VStr "pending").

(** [statusMap[orderObj.status] || 'placed'] in getOrders (line 297). *)
Definition getOrders_orderStatus (shared : string) : JS.value :=
JS.or (JS.get getOrders_statusMap shared) (JS.VStr "placed").

(** [statusMap[orderObj.status] || 'placed'] in getOrder (line 374). *)
Definition getOrder_orderStatus (shared : string) : JS.value :=
JS.or (JS.get getOrder_statusMap shared) (JS.VStr "placed").

(** Modelled from the spec: the customer-to-shared direction of the order
  status table of section 4.5.  The sources hold no such function:
  createOrder writes the literal ['PLACED'] and later transitions belong
  to the operator system.  Where the table lists two shared values for
  "processing", section 8 fixes the one the translation yields:
  PROCESSING. *)
Definition spec_orderStatusToShared (customer : string) : option string :=
if String.eqb customer "placed" then Some "PLACED"
else if String.eqb customer "processing" then Some "PROCESSING"
else if String.eqb customer "shipped" then Some "OUT_FOR_DELIVERY"
else if String.eqb customer "delivered" then Some "DELIVERED"
else if String.eqb customer "cancelled" then Some "CANCELLED"
else None.

End Enum.

(** ** Data model: the documents of the two databases *)

Definition ObjectId := N.

(** An id as a request carries it: a string.  Mongoose casts the string
    to an ObjectId wherever a query or a stored document takes it
    ([objectId]).  The cart controller also compares the string itself
    with the [toString()] of stored ids, and the two are equal only when
    the request spells the id as [toString()] does, in lower-case hex
    ([canonical]); the same id in upper-case hex casts to the same
    ObjectId and is a different string.  (A string that casts to no
    ObjectId is no id of a request here.) *)
Module RequestId.

Record t := {
  objectId : ObjectId;
  canonical : bool;
}.

(** The id spelled as [toString()] spells it. *)
Definition ofObjectId (id : ObjectId) : t := {| objectId := id; canonical := true |}.

(** The id in another spelling that casts to it. *)
Definition respelled (id : ObjectId) : t := {| objectId := id; canonical := false |}.

(** [stored.toString() === sent] *)
Definition sameString (stored : ObjectId) (sent : t) : bool :=
  canonical sent && N.eqb stored (objectId sent).

End RequestId.

Module Product.

(** [IProduct.status]: "ACTIVE" | "INACTIVE" | "UNAVAILABLE". *)
Inductive Status := ACTIVE | INACTIVE | UNAVAILABLE.

(** [IProduct], with the fields the cart and order controllers read. *)
Record t := {
  _id : ObjectId;
  name : string;
  price : Q;
  stock : Z;
  images : list string;
  status : Status;
}.

(** [ProductSchema.virtual("stockQuantity")]: returns [this.stock]. *)
Definition stockQuantity (p : t) : Z := stock p.

Definition isActive (p : t) : bool :=
  match status p with ACTIVE => true | _ => false end.

End Product.

Module CartItem.

(** [ICartItem]; the schema admits no quantity below 1 ([min: 1]), which
    the type of stored lines records. *)
Record t := {
  product : ObjectId;
  quantity : positive;
}.

End CartItem.

Module Address.

Record t := {
  _id : ObjectId;
  user : ObjectId;
  name : string;
  phone : string;
  addressLine1 : string;
  addressLine2 : option string;
  city : string;
  state : string;
  pincode : string;
  isDefault : bool;
}.

End Address.

Module AdminOrder.

(** [IAdminOrderItem]; [itemSubtotal] is its [subtotal]. *)
Record Item := {
  product : ObjectId;
  name : string;
  quantity : Z;
  price : Q;
  itemSubtotal : Q;
}.

Record ShippingAddress := {
  street : string;
  city : string;
  state : string;
  zipCode : string;
  country : string;
}.

(** The argument of [AdminOrder.create]: the two enumerated fields are
    whatever the table lookups of the controller produced. *)
Record Draft := {
  d_orderNumber : string;
  d_customer : ObjectId;
  d_items : list Item;
  d_subtotal : Q;
  d_tax : Q;
  d_shipping : Q;
  d_total : Q;
  d_status : string;
  d_paymentMethod : JS.value;
  d_paymentStatus : JS.value;
  d_shippingAddress : ShippingAddress;
}.

(** [IAdminOrder], a stored order document. *)
Record t := {
  orderNumber : string;
  customer : ObjectId;
  items : list Item;
  subtotal : Q;
  tax : Q;
  shipping : Q;
  total : Q;
  status : string;
  paymentMethod : string;
  paymentStatus : string;
  shippingAddress : ShippingAddress;
}.

Definition statusEnum : list string :=
  [ "PLACED"; "PROCESSING"; "PACKED"; "OUT_FOR_DELIVERY"; "DELIVERED"; "CANCELLED" ].
Definition paymentMethodEnum : list string := [ "CASH"; "CARD"; "ONLINE"; "OTHER" ].
Definition paymentStatusEnum : list string := [ "PENDING"; "PAID"; "FAILED"; "REFUNDED" ].

(** [required: true] on a String path refuses the empty string. *)
Definition requiredString (s : string) : bool := negb (String.eqb s "").

Definition nonNegative (q : Q) : bool := Qle_bool 0 q.

(** [orderItemSchema]: quantity [min: 1], price and subtotal [min: 0]. *)
Definition itemValid (i : Item) : bool :=
  requiredString (name i) && (1 <=? quantity i) && nonNegative (price i)
  && nonNegative (itemSubtotal i).

(** An enumerated String path accepts a string of its enum only. *)
Definition enumString (enum : list string) (v : JS.value) : option string :=
  match v with
  | JS.VStr s => if bool_decide (s ∈ enum) then Some s else None
  | _ => None
  end.

(** Schema validation of [orderSchema]; [None] is a ValidationError. *)
Definition validate (d : Draft) : option t :=
  if requiredString (d_orderNumber d) && forallb itemValid (d_items d)
     && nonNegative (d_subtotal d) && nonNegative (d_tax d)
     && nonNegative (d_shipping d) && nonNegative (d_total d)
     && bool_decide (d_status d ∈ statusEnum)
  then
    pm ← enumString paymentMethodEnum (d_paymentMethod d);
    ps ← enumString paymentStatusEnum (d_paymentStatus d);
    Some {| orderNumber := d_orderNumber d; customer := d_customer d;
            items := d_items d; subtotal := d_subtotal d; tax := d_tax d;
            shipping := d_shipping d; total := d_total d; status := d_status d;
            paymentMethod := pm; paymentStatus := ps;
            shippingAddress := d_shippingAddress d |}
  else None.

End AdminOrder.

(** ** Responses *)

(** What a handler can throw into its [catch]. *)
Inductive Exception :=
  | ProductModelNotEstablished   (* getProductModel: admin connection not ready *)
  | CartValidationError          (* Cart schema: quantity below 1 *)
  | OrderValidationError         (* AdminOrder schema *)
  | DuplicateOrderNumber         (* unique index on orderNumber *)
  | OrderStoreFault (message : string).

Inductive ErrorText :=
  | Literal (text : string)
  | Message (e : Exception)                       (* error.message *)
  | MessageOr (e : Exception) (fallback : string). (* error.message || fallback *)

(** A cart line of a response, after populateCartProducts. *)
Record PopulatedItem := {
  pi_product : Product.t;
  pi_quantity : positive;
}.

Record OrderResponseItem := {
  ri_product : ObjectId;
  ri_name : string;
  ri_price : Q;
  ri_quantity : Z;
  ri_image : option string;
}.

(** [orderResponse] of createOrder (lines 195-216), without the fields the
    database generates ([_id], [createdAt], [updatedAt]). *)
Record OrderResponse := {
  r_orderNumber : string;
  r_customerId : ObjectId;
  r_items : list OrderResponseItem;
  r_subtotal : Q;
  r_tax : Q;
  r_deliveryFee : Q;
  r_total : Q;
  r_address : Address.t;
  r_paymentMethod : string;
  r_paymentStatus : string;
  r_orderStatus : string;
}.

Inductive Body :=
  | Failure (error : ErrorText)                          (* success: false *)
  | CartBody (user : ObjectId) (items : list PopulatedItem)  (* success: true, cart *)
  | OrderBody (order : OrderResponse).                   (* success: true, order *)

Record Response := {
  statusCode : nat;
  body : Body;
}.

Definition fail (code : nat) (text : string) : Response :=
  {| statusCode := code; body := Failure (Literal text) |}.

(** ** The world a request runs in *)

Record World := {
  carts : gmap ObjectId (list CartItem.t);   (* customer DB, one cart per user *)
  addresses : list Address.t;                (* customer DB *)
  products : list Product.t;                 (* admin DB *)
  orders : list AdminOrder.t;                (* admin DB, in insertion order *)
  adminReady : bool;          (* adminDbConnection && readyState === 1 *)
  productModelBound : bool;   (* ProductModel !== null *)
}.

(** What createOrder reads from outside the stores. *)
Record Env := {
  now : N;                           (* Date.now() *)
  random36 : string;                 (* Math.random().toString(36) *)
  orderWriteFault : option string;   (* the order write fails for an outside reason *)
}.

Definition setCarts (c : gmap ObjectId (list CartItem.t)) (w : World) : World :=
  {| carts := c; addresses := addresses w; products := products w;
     orders := orders w; adminReady := adminReady w;
     productModelBound := productModelBound w |}.

Definition setOrders (o : list AdminOrder.t) (w : World) : World :=
  {| carts := carts w; addresses := addresses w; products := products w;
     orders := o; adminReady := adminReady w;
     productModelBound := productModelBound w |}.

Definition bindProductModel (w : World) : World :=
  {| carts := carts w; addresses := addresses w; products := products w;
     orders := orders w; adminReady := adminReady w;
     productModelBound := true |}.

(** ** Handlers: state, early replies and exceptions *)

Inductive Outcome (A : Type) :=
  | Done (a : A)
  | Reply (r : Response)      (* res.status(..).json(..); return *)
  | Throw (e : Exception).
Arguments Done {A} a.
Arguments Reply {A} r.
Arguments Throw {A} e.

Definition Handler (A : Type) : Type := World → Outcome A * World.

#[global] Instance handler_ret : MRet Handler := λ A a w, (Done a, w).
#[global] Instance handler_bind : MBind Handler := λ A B f m w,
  match m w with
  | (Done a, w') => f a w'
  | (Reply r, w') => (Reply r, w')
  | (Throw e, w') => (Throw e, w')
  end.

Definition reply {A} (r : Response) : Handler A := λ w, (Reply r, w).
Definition throw {A} (e : Exception) : Handler A := λ w, (Throw e, w).
Definition getWorld : Handler World := λ w, (Done w, w).
Definition modifyWorld (f : World → World) : Handler unit := λ w, (Done tt, f w).

(** [try { body } catch (e) { onError(e) }] *)
Definition tryCatch {A} (body : Handler A) (onError : Exception → Handler A) : Handler A :=
  λ w, match body w with
       | (Throw e, w') => onError e w'
       | other => other
       end.

(** Runs a handler whose body ends in a response.  Every handler wraps
    its body in a [catch], so the last case is never taken. *)
Definition respond (h : Handler Response) (w : World) : Response * World :=
  match h w with
  | (Done r, w') => (r, w')
  | (Reply r, w') => (r, w')
  | (Throw e, w') => ({| statusCode := 500; body := Failure (Message e) |}, w')
  end.

(** ** CatalogReader: the Product model on the admin connection *)

(** [getProductModel] behind the exported proxy: the model is bound on its
    first use, and binding needs the admin connection to be ready.  Once
    the model is bound, a query is answered from the catalog. *)
Definition getProductModel : Handler unit := λ w,
  if productModelBound w then (Done tt, w)
  else if adminReady w then (Done tt, bindProductModel w)
  else (Throw ProductModelNotEstablished, w).

(** [Product.findById(productId)] *)
Definition Product_findById (productId : ObjectId) : Handler (option Product.t) :=
  _ ← getProductModel;
  w ← getWorld;
  mret (List.find (λ p, N.eqb (Product._id p) productId) (products w)).

(** The documents matching [{ _id: { $in: productIds }, status: "ACTIVE" }]. *)
Definition activeProducts (productIds : list ObjectId) (catalog : list Product.t)
  : list Product.t :=
  List.filter (λ p, bool_decide (Product._id p ∈ productIds) && Product.isActive p)
    catalog.

(** [Product.find({ _id: { $in: productIds }, status: "ACTIVE" })] *)
Definition Product_findActive (productIds : list ObjectId) : Handler (list Product.t) :=
  _ ← getProductModel;
  w ← getWorld;
  mret (activeProducts productIds (products w)).

(** [new Map()] filled by [products.forEach(p => productMap.set(id, p))]. *)
Definition buildProductMap (found : list Product.t) : gmap ObjectId Product.t :=
  foldl (λ m p, <[Product._id p := p]> m) ∅ found.

(** [product.stock || product.stockQuantity || 0] *)
Definition availableStock (p : Product.t) : Z :=
  if negb (Product.stock p =? 0) then Product.stock p
  else if negb (Product.stockQuantity p =? 0) then Product.stockQuantity p
  else 0.

(** ** CartStore: the cart controller *)

Module Cart.

(** A cart document in memory, before [save()] validates it. *)
Record Line := {
  product : ObjectId;
  quantity : Z;
}.

Definition ofItem (i : CartItem.t) : Line :=
  {| product := CartItem.product i; quantity := Z.pos (CartItem.quantity i) |}.

(** CartItemSchema: [quantity] has [min: 1]. *)
Definition validateLine (l : Line) : option CartItem.t :=
  match quantity l with
  | Z.pos q => Some {| CartItem.product := product l; CartItem.quantity := q |}
  | _ => None
  end.

Definition validate (lines : list Line) : option (list CartItem.t) :=
  mapM validateLine lines.

(** [Cart.findOne({ user })] *)
Definition findOne (user : ObjectId) : Handler (option (list CartItem.t)) :=
  w ← getWorld; mret (carts w !! user).

(** [Cart.create({ user, items })] and [cart.save()]: validate, then write. *)
Definition save (user : ObjectId) (lines : list Line) : Handler (list CartItem.t) :=
  match validate lines with
  | Some items =>
      _ ← modifyWorld (λ w, setCarts (<[user := items]> (carts w)) w);
      mret items
  | None => throw CartValidationError
  end.

End Cart.

(** The [map] and [filter] of populateCartProducts (lines 31-63): each
    line gets its product from the map; a line without one is dropped.
    The presentation fields added to the product ([slug], [stockQuantity])
    are left out. *)
Definition attachProducts (productMap : gmap ObjectId Product.t)
    (items : list CartItem.t) : list PopulatedItem :=
  omap (λ item,
          p ← productMap !! CartItem.product item;
          Some {| pi_product := p; pi_quantity := CartItem.quantity item |})
       items.

(** [populateCartProducts]: an empty cart is returned as it is; otherwise
    the active products of the lines are fetched and attached. *)
Definition populateCartProducts (items : list CartItem.t) : Handler (list PopulatedItem) :=
  match items with
  | [] => mret []
  | _ =>
      found ← Product_findActive (CartItem.product <$> items);
      let productMap := buildProductMap found in
      mret (attachProducts productMap items)
  end.

(** What populateCartProducts answers for a cart, given the catalog of a
    world. *)
Definition populated (w : World) (items : list CartItem.t) : list PopulatedItem :=
  attachProducts
    (buildProductMap (activeProducts (CartItem.product <$> items) (products w))) items.

(** The [catch] of the cart handlers: [res.status(500).json({ error: error.message })]. *)
Definition cartCatch (e : Exception) : Handler Response :=
  reply {| statusCode := 500; body := Failure (Message e) |}.

Record AddToCartBody := {
  atc_productId : RequestId.t;
  atc_quantity : option Z;     (* [quantity = 1] when absent *)
}.

(** The body of the [try] of addToCart (cart controller, lines 98-145). *)
Definition addToCart_body (user : ObjectId) (req : AddToCartBody) : Handler Response :=
  let productId := atc_productId req in
  let quantity := default 1 (atc_quantity req) in
  product ← Product_findById (RequestId.objectId productId);
  match product with
  | None => reply (fail 404 "Product not found")
  | Some product =>
      if availableStock product <? quantity
      then reply (fail 400 "Insufficient stock")
      else
        cart ← Cart.findOne user;
        saved ←
          match cart with
          | None =>
              Cart.save user [ {| Cart.product := RequestId.objectId productId;
                                  Cart.quantity := quantity |} ]
          | Some items =>
              match list_find
                      (λ item, RequestId.sameString (CartItem.product item) productId
                               = true) items with
              | Some (existingItemIndex, existing) =>
                  let newQuantity :=
                    JS.addIntegers (Z.pos (CartItem.quantity existing)) quantity in
                  if availableStock product <? newQuantity
                  then reply (fail 400 "Insufficient stock")
                  else
                    Cart.save user
                      (<[existingItemIndex :=
                           {| Cart.product := CartItem.product existing;
                              Cart.quantity := newQuantity |}]>
                         (Cart.ofItem <$> items))
              | None =>
                  Cart.save user
                    ((Cart.ofItem <$> items)
                       ++ [ {| Cart.product := RequestId.objectId productId;
                               Cart.quantity := quantity |} ])
              end
          end;
        shown ← populateCartProducts saved;
        mret {| statusCode := 200; body := CartBody user shown |}
  end.

Definition addToCart (user : ObjectId) (req : AddToCartBody) (w : World) : Response * World :=
  respond (tryCatch (addToCart_body user req) cartCatch) w.

(** The body of the [try] of removeFromCart (cart controller, lines 212-229). *)
Definition removeFromCart_body (user : ObjectId) (productId : RequestId.t)
  : Handler Response :=
  cart ← Cart.findOne user;
  match cart with
  | None => reply (fail 404 "Cart not found")
  | Some items =>
      let kept :=
        List.filter
          (λ item, negb (RequestId.sameString (CartItem.product item) productId))
          items in
      saved ← Cart.save user (Cart.ofItem <$> kept);
      shown ← populateCartProducts saved;
      mret {| statusCode := 200; body := CartBody user shown |}
  end.

Definition removeFromCart (user : ObjectId) (productId : RequestId.t) (w : World)
  : Response * World :=
  respond (tryCatch (removeFromCart_body user productId) cartCatch) w.

(** ** Order creation: orders.ts, createOrder *)

Definition TAX_RATE : Q := 0.18.       (* 18% GST *)
Definition DELIVERY_FEE : Q := 50.     (* 50 rupees delivery fee *)

Record CreateOrderBody := {
  addressId : option ObjectId;
  paymentMethod : option string;
  razorpayOrderId : option string;
  razorpayPaymentId : option string;
}.

(** [!x] for an optional string of the request body. *)
Definition missing (x : option string) : bool :=
  match x with
  | None => true
  | Some s => String.eqb s ""
  end.

(** An entry of [orderItems] (lines 109-115). *)
Record OrderItem := {
  oi_product : ObjectId;
  oi_name : string;
  oi_price : Q;
  oi_quantity : Z;
  oi_image : option string;
}.

(** The entry pushed for a line (lines 109-115). *)
Definition orderItemOf (product : Product.t) (quantity : Z) : OrderItem :=
  {| oi_product := Product._id product;
     oi_name := Product.name product;
     oi_price := Product.price product;
     oi_quantity := quantity;
     oi_image := head (Product.images product) |}.

(** The loop over the cart lines (lines 84-121), run from the
    accumulators [subtotal] and [orderItems].  The subtotal is added up
    exactly; the number the code holds is its binary64 rounding. *)
Fixpoint orderLines (productMap : gmap ObjectId Product.t) (items : list CartItem.t)
    (subtotal : Q) (orderItems : list OrderItem) : Handler (Q * list OrderItem) :=
  match items with
  | [] => mret (subtotal, orderItems)
  | item :: rest =>
      match productMap !! CartItem.product item with
      | None => reply (fail 400 "Product not found for item in cart")
      | Some product =>
          let quantity := Z.pos (CartItem.quantity item) in
          if availableStock product <? quantity
          then reply (fail 400 ("Insufficient stock for " +:+ Product.name product))
          else
            let itemTotal := (Product.price product * inject_Z quantity)%Q in
            orderLines productMap rest (subtotal + itemTotal)%Q
              (orderItems ++ [ orderItemOf product quantity ])
      end
  end.

(** Lines 123-125, in exact arithmetic as well. *)
Definition taxOf (subtotal : Q) : Q := (subtotal * TAX_RATE)%Q.
Definition deliveryFeeOf (subtotal : Q) : Q :=
  if Qle_bool 500 subtotal then 0%Q else DELIVERY_FEE.

(** [adminOrderItems] (lines 142-148). *)
Definition adminOrderItem (item : OrderItem) : AdminOrder.Item :=
  {| AdminOrder.product := oi_product item;
     AdminOrder.name := oi_name item;
     AdminOrder.quantity := oi_quantity item;
     AdminOrder.price := oi_price item;
     AdminOrder.itemSubtotal := (oi_price item * inject_Z (oi_quantity item))%Q |}.

(** Lines 164-166: [`ORD-${timestamp}-${randomSuffix}`]. *)
Definition randomSuffix (random36 : string) : string :=
  JS.toUpperCase (JS.substr 2 6 random36).
Definition orderNumberOf (timestamp : N) (random36 : string) : string :=
  "ORD-" +:+ pretty timestamp +:+ "-" +:+ randomSuffix random36.

(** Whether a text holds the separator ["-"] of the order number. *)
Fixpoint hasDash (s : string) : bool :=
  match s with
  | EmptyString => false
  | String c rest => Ascii.eqb c "-"%char || hasDash rest
  end.

(** [AdminOrder.create(draft)]: the proxy needs the admin connection, the
    schema validates the draft, the unique index refuses a known order
    number. *)
Definition AdminOrder_create (env : Env) (draft : AdminOrder.Draft)
  : Handler AdminOrder.t := λ w,
  if negb (adminReady w) then (Throw (OrderStoreFault "Admin DB connection not established"), w)
  else match orderWriteFault env with
  | Some message => (Throw (OrderStoreFault message), w)
  | None =>
      match AdminOrder.validate draft with
      | None => (Throw OrderValidationError, w)
      | Some order =>
          if bool_decide (AdminOrder.orderNumber order
                            ∈ AdminOrder.orderNumber <$> orders w)
          then (Throw DuplicateOrderNumber, w)
          else (Done order, setOrders (orders w ++ [order]) w)
      end
  end.

(** Both [catch] blocks of createOrder answer alike (lines 219-227, 229-235). *)
Definition createOrderCatch (e : Exception) : Handler Response :=
  reply {| statusCode := 500;
           body := Failure (MessageOr e "Failed to create order. Please try again.") |}.

Definition shippingAddressOf (a : Address.t) : AdminOrder.ShippingAddress :=
  {| AdminOrder.street := Address.addressLine1 a;
     AdminOrder.city := Address.city a;
     AdminOrder.state := Address.state a;
     AdminOrder.zipCode := Address.pincode a;
     AdminOrder.country := "India" |}.

(** The document handed to [AdminOrder.create] (lines 170-188). *)
Definition orderDraft (orderNumber : string) (user : ObjectId)
    (adminOrderItems : list AdminOrder.Item) (subtotal tax deliveryFee total : Q)
    (paymentMethod : string) (address : Address.t) : AdminOrder.Draft :=
  {| AdminOrder.d_orderNumber := orderNumber;
     AdminOrder.d_customer := user;
     AdminOrder.d_items := adminOrderItems;
     AdminOrder.d_subtotal := subtotal;
     AdminOrder.d_tax := tax;
     AdminOrder.d_shipping := deliveryFee;
     AdminOrder.d_total := total;
     AdminOrder.d_status := "PLACED";
     AdminOrder.d_paymentMethod := Enum.paymentMethodToShared paymentMethod;
     AdminOrder.d_paymentStatus := Enum.paymentStatusToShared paymentMethod;
     AdminOrder.d_shippingAddress := shippingAddressOf address |}.

(** [orderResponse] (lines 195-216). *)
Definition orderResponseOf (order : AdminOrder.t) (orderItems : list OrderItem)
    (address : Address.t) (paymentMethod : string) : OrderResponse :=
  {| r_orderNumber := AdminOrder.orderNumber order;
     r_customerId := AdminOrder.customer order;
     r_items :=
       (λ item,
          {| ri_product := AdminOrder.product item;
             ri_name := AdminOrder.name item;
             ri_price := AdminOrder.price item;
             ri_quantity := AdminOrder.quantity item;
             ri_image :=
               oi ← List.find (λ oi, N.eqb (oi_product oi) (AdminOrder.product item))
                      orderItems;
               oi_image oi |}) <$> AdminOrder.items order;
     r_subtotal := AdminOrder.subtotal order;
     r_tax := AdminOrder.tax order;
     r_deliveryFee := AdminOrder.shipping order;
     r_total := AdminOrder.total order;
     r_address := address;
     r_paymentMethod := paymentMethod;
     r_paymentStatus := if String.eqb paymentMethod "cod" then "pending" else "paid";
     r_orderStatus := JS.toLowerCase (AdminOrder.status order) |}.

(** createOrder from the product map on (lines 73-227): the loop over the
    lines, the totals, the readiness gate, the write and the clearing of
    the cart. *)
Definition createOrder_place (env : Env) (user : ObjectId) (paymentMethod : string)
    (address : Address.t) (items : list CartItem.t) (found : list Product.t)
  : Handler Response :=
  let productMap := buildProductMap found in
  '(subtotal, orderItems) ← orderLines productMap items 0%Q [];
  let tax := taxOf subtotal in
  let deliveryFee := deliveryFeeOf subtotal in
  let total := (subtotal + tax + deliveryFee)%Q in
  let adminOrderItems := adminOrderItem <$> orderItems in
  w ← getWorld;
  if negb (adminReady w) then
    reply (fail 503 "Service temporarily unavailable. Please try again.")
  else
    let orderNumber := orderNumberOf (now env) (random36 env) in
    tryCatch
      (order ← AdminOrder_create env
         (orderDraft orderNumber user adminOrderItems subtotal tax deliveryFee
            total paymentMethod address);
       _ ← Cart.save user [];
       mret {| statusCode := 201;
               body := OrderBody
                         (orderResponseOf order orderItems address paymentMethod) |})
      createOrderCatch.

(** createOrder up to the catalog query (lines 23-71). *)
Definition createOrder_body (env : Env) (user : ObjectId) (req : CreateOrderBody)
  : Handler Response :=
  match addressId req, paymentMethod req with
  | Some addressId, Some paymentMethod =>
    if String.eqb paymentMethod "" then
      reply (fail 400 "Address and payment method required")
    else if String.eqb paymentMethod "razorpay"
            && (missing (razorpayOrderId req) || missing (razorpayPaymentId req))
    then reply (fail 400 "Razorpay payment details required")
    else
      cart ← Cart.findOne user;
      match cart with
      | None | Some [] => reply (fail 400 "Cart is empty")
      | Some items =>
        w ← getWorld;
        match List.find (λ a, N.eqb (Address._id a) addressId
                              && N.eqb (Address.user a) user) (addresses w) with
        | None => reply (fail 404 "Address not found")
        | Some address =>
          found ← Product_findActive (CartItem.product <$> items);
          createOrder_place env user paymentMethod address items found
        end
      end
  | _, _ => reply (fail 400 "Address and payment method required")
  end.

Definition createOrder (env : Env) (user : ObjectId) (req : CreateOrderBody) (w : World)
  : Response * World :=
  respond (tryCatch (createOrder_body env user req) createOrderCatch) w.

(** ** Statements of the specification, phrased over the model *)

Module Spec.

(** StockValidator (section 4.3): a line is rejected when it resolves to
    an active catalog product whose stock is below the line's quantity. *)
Definition failsStockValidation (w : World) (item : CartItem.t) : Prop :=
  ∃ p, p ∈ products w ∧ Product._id p = CartItem.product item
       ∧ Product.isActive p = true
       ∧ availableStock p < Z.pos (CartItem.quantity item).

(** CatalogReader for order creation (section 4.2): the reference
    resolves when the catalog holds an active product under it. *)
Definition resolvesActive (w : World) (productId : ObjectId) : Prop :=
  ∃ p, p ∈ products w ∧ Product._id p = productId ∧ Product.isActive p = true.

(** The Product model can be reached: it is bound already, or the admin
    connection is ready to bind it. *)
Definition catalogReachable (w : World) : Prop :=
  productModelBound w = true ∨ adminReady w = true.

(** The product snapshot that createOrder and populateCartProducts read
    for a reference of a cart: the entry of their product map. *)
Definition productMapOf (w : World) (items : list CartItem.t)
  : gmap ObjectId Product.t :=
  buildProductMap (activeProducts (CartItem.product <$> items) (products w)).

Definition snapshot (w : World) (items : list CartItem.t) (productId : ObjectId)
  : option Product.t :=
  productMapOf w items !! productId.

(** A line that the loop of createOrder accepts: the product map holds
    its product, with enough stock. *)
Definition acceptedBy (productMap : gmap ObjectId Product.t) (item : CartItem.t)
  : Prop :=
  ∃ p, productMap !! CartItem.product item = Some p
       ∧ Z.pos (CartItem.quantity item) ≤ availableStock p.

(** A line of a cart that createOrder accepts in a world. *)
Definition lineAccepted (w : World) (items : list CartItem.t) (item : CartItem.t)
  : Prop :=
  acceptedBy (productMapOf w items) item.

(** The entries the loop pushes for the lines it accepts. *)
Definition pushedFor (productMap : gmap ObjectId Product.t) (items : list CartItem.t)
  : list OrderItem :=
  omap (λ item,
          p ← productMap !! CartItem.product item;
          Some (orderItemOf p (Z.pos (CartItem.quantity item))))
       items.

(** The subtotal the loop reaches from [subtotal] over pushed entries. *)
Definition addedUp (subtotal : Q) (pushed : list OrderItem) : Q :=
  foldl (λ acc oi, (acc + oi_price oi * inject_Z (oi_quantity oi))%Q) subtotal pushed.

(** The document createOrder writes for a cart whose lines are all
    accepted. *)
Definition draftFor (env : Env) (user : ObjectId) (method : string)
    (address : Address.t) (productMap : gmap ObjectId Product.t)
    (items : list CartItem.t) : AdminOrder.Draft :=
  let pushed := pushedFor productMap items in
  let subtotal := addedUp 0%Q pushed in
  orderDraft (orderNumberOf (now env) (random36 env)) user (adminOrderItem <$> pushed)
    subtotal (taxOf subtotal) (deliveryFeeOf subtotal)
    (subtotal + taxOf subtotal + deliveryFeeOf subtotal)%Q method address.

(** The answer of createOrder when the write throws. *)
Definition writeFailed (e : Exception) : Response :=
  {| statusCode := 500;
     body := Failure (MessageOr e "Failed to create order. Please try again.") |}.

(** createOrder has placed an order: what the request and the world were
    and what the response and the stores are. *)
Definition placed (env : Env) (user : ObjectId) (req : CreateOrderBody) (w : World)
    (r : Response * World) : Prop :=
  ∃ id method items address order,
    addressId req = Some id ∧ paymentMethod req = Some method
    ∧ carts w !! user = Some items ∧ items ≠ []
    ∧ List.find (λ a, N.eqb (Address._id a) id && N.eqb (Address.user a) user)
        (addresses w) = Some address
    ∧ Forall (lineAccepted w items) items
    ∧ adminReady w = true ∧ orderWriteFault env = None
    ∧ AdminOrder.validate
        (draftFor env user method address (productMapOf w items) items) = Some order
    ∧ (AdminOrder.orderNumber order ∉ (AdminOrder.orderNumber <$> orders w))
    ∧ r.1 = {| statusCode := 201;
               body := OrderBody
                         (orderResponseOf order
                            (pushedFor (productMapOf w items) items) address method) |}
    ∧ orders r.2 = orders w ++ [order]
    ∧ carts r.2 = <[user := []]> (carts w).

(** The answer of the loop at a line it does not accept. *)
Definition rejection (productMap : gmap ObjectId Product.t) (item : CartItem.t)
  : Response :=
  match productMap !! CartItem.product item with
  | None => fail 400 "Product not found for item in cart"
  | Some p => fail 400 ("Insufficient stock for " +:+ Product.name p)
  end.

(** The checks of createOrder on the request body (lines 26-42). *)
Definition requestAccepted (req : CreateOrderBody) : Prop :=
  is_Some (addressId req)
  ∧ (∃ method, paymentMethod req = Some method ∧ method ≠ ""
       ∧ (method = "razorpay" →
            missing (razorpayOrderId req) = false
            ∧ missing (razorpayPaymentId req) = false)).

(** The address of the request belongs to the customer (lines 53-61). *)
Definition addressFound (w : World) (user : ObjectId) (req : CreateOrderBody) : Prop :=
  ∃ id address,
    addressId req = Some id
    ∧ List.find (λ a, N.eqb (Address._id a) id && N.eqb (Address.user a) user)
        (addresses w) = Some address.

(** A response that reports an error. *)
Definition isError (r : Response) : Prop :=
  statusCode r ≠ 201%nat ∧ ∃ error, body r = Failure error.

(** Section 7, StoreUnavailable as createOrder words it. *)
Definition serviceUnavailable : Response :=
  fail 503 "Service temporarily unavailable. Please try again.".

(** Section 7, StockConflict as createOrder words it. *)
Definition stockConflict (productName : string) : Response :=
  fail 400 ("Insufficient stock for " +:+ productName).

(** Section 7, NotFound as addToCart words it. *)
Definition productNotFound : Response := fail 404 "Product not found".

(** Whether the catalog holds an active product under a reference. *)
Definition resolvesActiveb (w : World) (productId : ObjectId) : bool :=
  existsb (λ p, N.eqb (Product._id p) productId && Product.isActive p) (products w).

(** The lines of a cart as pairs of product reference and quantity. *)
Definition linesOf (items : list CartItem.t) : list (ObjectId * positive) :=
  (λ item, (CartItem.product item, CartItem.quantity item)) <$> items.

(** The lines a cart response shows, as such pairs. *)
Definition shownLines (populated : list PopulatedItem) : list (ObjectId * positive) :=
  (λ item, (Product._id (pi_product item), pi_quantity item)) <$> populated.

(** The line list of the cart a response returns, if it returns one. *)
Definition returnedLines (r : Response) : option (list (ObjectId * positive)) :=
  match body r with
  | CartBody _ populated => Some (shownLines populated)
  | _ => None
  end.

(** The first line of a cart that holds a product. *)
Definition lineOf (productId : ObjectId) (items : list CartItem.t) : option CartItem.t :=
  snd <$> list_find (λ item, CartItem.product item = productId) items.

End Spec.

(** ** Concrete documents used by the examples *)

Module Fixture.

Definition customer : ObjectId := 7%N.

Definition apple : Product.t :=
  {| Product._id := 1%N; Product.name := "Apple"; Product.price := 120.5%Q;
     Product.stock := 10; Product.images := ["apple.png"];
     Product.status := Product.ACTIVE |}.

Definition soap : Product.t :=
  {| Product._id := 2%N; Product.name := "Soap"; Product.price := 499.99%Q;
     Product.stock := 3; Product.images := []; Product.status := Product.ACTIVE |}.

Definition milk : Product.t :=
  {| Product._id := 3%N; Product.name := "Milk"; Product.price := 30%Q;
     Product.stock := 5; Product.images := [];
     Product.status := Product.UNAVAILABLE |}.

Definition rice : Product.t :=
  {| Product._id := 4%N; Product.name := "Rice"; Product.price := 500%Q;
     Product.stock := 8; Product.images := []; Product.status := Product.ACTIVE |}.

Definition tea : Product.t :=
  {| Product._id := 5%N; Product.name := "Tea"; Product.price := 80%Q;
     Product.stock := 4; Product.images := []; Product.status := Product.INACTIVE |}.

Definition home : Address.t :=
  {| Address._id := 50%N; Address.user := customer; Address.name := "Home";
     Address.phone := "9876543210"; Address.addressLine1 := "1 Main Street";
     Address.addressLine2 := None; Address.city := "Pune"; Address.state := "MH";
     Address.pincode := "411001"; Address.isDefault := true |}.

Definition line (productId : ObjectId) (quantity : positive) : CartItem.t :=
  {| CartItem.product := productId; CartItem.quantity := quantity |}.

(** A running system whose customer holds the given cart. *)
Definition world (cart : list CartItem.t) : World :=
  {| carts := {[ customer := cart ]};
     addresses := [home];
     products := [apple; soap; milk; rice; tea];
     orders := [];
     adminReady := true;
     productModelBound := true |}.

(** The same system while the admin connection is down. *)
Definition worldNotReady (cart : list CartItem.t) : World :=
  {| carts := {[ customer := cart ]};
     addresses := [home];
     products := [apple; soap; milk; rice; tea];
     orders := [];
     adminReady := false;
     productModelBound := true |}.

(** The same system before the Product model was ever bound, with the
    admin connection down. *)
Definition worldUnbound (cart : list CartItem.t) : World :=
  {| carts := {[ customer := cart ]};
     addresses := [home];
     products := [apple; soap; milk; rice; tea];
     orders := [];
     adminReady := false;
     productModelBound := false |}.

Definition env : Env :=
  {| now := 1700000000000%N; random36 := "0.4fzyo82mvyr"; orderWriteFault := None |}.

Definition neighbour : ObjectId := 8%N.

Definition flat : Address.t :=
  {| Address._id := 51%N; Address.user := neighbour; Address.name := "Flat";
     Address.phone := "9876543211"; Address.addressLine1 := "2 Main Street";
     Address.addressLine2 := Some "Apartment 4B"; Address.city := "Pune";
     Address.state := "MH"; Address.pincode := "411001"; Address.isDefault := true |}.

(** Two customers, each with a cart. *)
Definition twoCustomers : World :=
  {| carts := {[ customer := [line 1%N 2%positive];
                 neighbour := [line 4%N 1%positive] ]};
     addresses := [home; flat];
     products := [apple; soap; milk; rice; tea];
     orders := [];
     adminReady := true;
     productModelBound := true |}.

(** A second draw in the same millisecond, with the same first six
    digits after the point. *)
Definition envAgain : Env :=
  {| now := 1700000000000%N; random36 := "0.4fzyo8zzzzz"; orderWriteFault := None |}.

Definition codTo (address : ObjectId) : CreateOrderBody :=
  {| addressId := Some address; paymentMethod := Some "cod";
     razorpayOrderId := None; razorpayPaymentId := None |}.

Definition cod : CreateOrderBody :=
  {| addressId := Some 50%N; paymentMethod := Some "cod";
     razorpayOrderId := None; razorpayPaymentId := None |}.

End Fixture.

(** ** The cart controller: getCart, updateCartItem, clearCart, syncGuestCart *)

(** What a handler answers when its success body is not a cart or a
    created order: the payload with its status code, or an error. *)
Inductive Answer (A : Type) :=
  | Answered (code : nat) (payload : A)     (* res.json({ success: true, .. }) *)
  | Refused (r : Response).
Arguments Answered {A} code payload.
Arguments Refused {A} r.

(** The [catch] that answers [res.status(500).json({ error: error.message })]. *)
Definition catchAll {A} (e : Exception) : Handler A :=
  reply {| statusCode := 500; body := Failure (Message e) |}.

(** Runs a handler that ends in [res.json(payload)] (status 200).  Every
    handler wraps its body in a [catch], so the last case is never taken. *)
Definition answer {A} (h : Handler A) (w : World) : Answer A * World :=
  match h w with
  | (Done a, w') => (Answered 200 a, w')
  | (Reply r, w') => (Refused r, w')
  | (Throw e, w') => (Refused {| statusCode := 500; body := Failure (Message e) |}, w')
  end.

(** The body of the [try] of getCart (cart controller, lines 73-86): a
    customer without a cart gets an empty one. *)
Definition getCart_body (user : ObjectId) : Handler Response :=
  cart ← Cart.findOne user;
  items ← match cart with
          | Some items => mret items
          | None => Cart.save user []
          end;
  shown ← populateCartProducts items;
  mret {| statusCode := 200; body := CartBody user shown |}.

Definition getCart (user : ObjectId) (w : World) : Response * World :=
  respond (tryCatch (getCart_body user) cartCatch) w.

(** The body of the [try] of updateCartItem (cart controller, lines
    156-201); [quantity] is the number of the request body. *)
Definition updateCartItem_body (user : ObjectId) (productId : RequestId.t)
    (quantity : Z) : Handler Response :=
  if quantity <? 1 then reply (fail 400 "Quantity must be at least 1")
  else
    product ← Product_findById (RequestId.objectId productId);
    match product with
    | None => reply (fail 404 "Product not found")
    | Some product =>
        if availableStock product <? quantity
        then reply (fail 400 "Insufficient stock")
        else
          cart ← Cart.findOne user;
          match cart with
          | None => reply (fail 404 "Cart not found")
          | Some items =>
              match list_find
                      (λ item, RequestId.sameString (CartItem.product item) productId
                               = true) items with
              | None => reply (fail 404 "Item not found in cart")
              | Some (itemIndex, existing) =>
                  saved ← Cart.save user
                            (<[itemIndex :=
                                 {| Cart.product := CartItem.product existing;
                                    Cart.quantity := quantity |}]>
                               (Cart.ofItem <$> items));
                  shown ← populateCartProducts saved;
                  mret {| statusCode := 200; body := CartBody user shown |}
              end
          end
    end.

Definition updateCartItem (user : ObjectId) (productId : RequestId.t) (quantity : Z)
    (w : World) : Response * World :=
  respond (tryCatch (updateCartItem_body user productId quantity) cartCatch) w.

(** The body of the [try] of clearCart (cart controller, lines 240-249);
    the payload is the [message] of the response. *)
Definition clearCart_body (user : ObjectId) : Handler string :=
  cart ← Cart.findOne user;
  match cart with
  | None => mret "Cart already empty"
  | Some _ =>
      _ ← Cart.save user [];
      mret "Cart cleared"
  end.

Definition clearCart (user : ObjectId) (w : World) : Answer string * World :=
  answer (tryCatch (clearCart_body user) catchAll) w.

(** An entry of the [items] of syncGuestCart: [{ productId, quantity }]. *)
Record GuestItem := {
  gi_productId : RequestId.t;
  gi_quantity : Z;
}.

(** One turn of the merge loop of syncGuestCart (lines 277-308), on the
    lines of the cart in memory. *)
Definition mergeGuestItem (item : GuestItem) (lines : list Cart.Line)
  : Handler (list Cart.Line) :=
  product ← Product_findById (RequestId.objectId (gi_productId item));
  match product with
  | None => mret lines
  | Some product =>
      let availableStock := availableStock product in
      if availableStock <? gi_quantity item then mret lines
      else
        match list_find
                (λ cartItem, RequestId.sameString (Cart.product cartItem)
                               (gi_productId item) = true) lines with
        | Some (existingItemIndex, existing) =>
            let newQuantity :=
              Z.min (JS.addIntegers (Cart.quantity existing) (gi_quantity item))
                availableStock in
            mret (<[existingItemIndex :=
                      {| Cart.product := Cart.product existing;
                         Cart.quantity := newQuantity |}]> lines)
        | None =>
            mret (lines ++ [ {| Cart.product := RequestId.objectId (gi_productId item);
                                Cart.quantity := gi_quantity item |} ])
        end
  end.

(** [for (const item of items) { .. }] *)
Fixpoint mergeGuestItems (items : list GuestItem) (lines : list Cart.Line)
  : Handler (list Cart.Line) :=
  match items with
  | [] => mret lines
  | item :: rest =>
      merged ← mergeGuestItem item lines;
      mergeGuestItems rest merged
  end.

(** The body of the [try] of syncGuestCart (cart controller, lines
    260-315); [None] is a body whose [items] is not an array. *)
Definition syncGuestCart_body (user : ObjectId) (items : option (list GuestItem))
  : Handler Response :=
  match items with
  | None => reply (fail 400 "Invalid items format")
  | Some items =>
      cart ← Cart.findOne user;
      stored ← match cart with
               | Some stored => mret stored
               | None => Cart.save user []
               end;
      merged ← mergeGuestItems items (Cart.ofItem <$> stored);
      saved ← Cart.save user merged;
      shown ← populateCartProducts saved;
      mret {| statusCode := 200; body := CartBody user shown |}
  end.

Definition syncGuestCart (user : ObjectId) (items : option (list GuestItem)) (w : World)
  : Response * World :=
  respond (tryCatch (syncGuestCart_body user items) cartCatch) w.

(** ** Reading orders back: orders.ts, getOrders and getOrder *)

(** [getAdminOrderModel] behind the proxy of the AdminOrder model: every
    use of the model needs the admin connection to be ready. *)
Definition getAdminOrderModel : Handler unit := λ w,
  if adminReady w then (Done tt, w)
  else (Throw (OrderStoreFault "Admin DB connection not established"), w).

(** What [populate('items.product', 'name sku images')] puts in place of
    a product reference: the selected fields of the catalog document of
    that id ([sku] is not part of the model of a product). *)
Record ProductSummary := {
  ps_id : ObjectId;
  ps_name : string;
  ps_images : list string;
}.

(** An item of an order in customer format (lines 283-289, 360-366);
    [vi_product] is [None] when the catalog has no document under the
    reference. *)
Record OrderViewItem := {
  vi_product : option ProductSummary;
  vi_name : string;
  vi_price : Q;
  vi_quantity : Z;
  vi_image : option string;
}.

(** An order in customer format (lines 279-300, 356-377), without the
    fields the database generates ([_id], [createdAt], [updatedAt]). *)
Record OrderView := {
  v_orderNumber : string;
  v_customerId : ObjectId;
  v_items : list OrderViewItem;
  v_subtotal : Q;
  v_tax : Q;
  v_deliveryFee : Q;
  v_total : Q;
  v_address : AdminOrder.ShippingAddress;
  v_paymentMethod : JS.value;
  v_paymentStatus : JS.value;
  v_orderStatus : JS.value;
}.

(** The populated reference of one item: the catalog document of that
    id, whatever its status. *)
Definition populateItemProduct (catalog : list Product.t) (item : AdminOrder.Item)
  : option ProductSummary :=
  (λ p, {| ps_id := Product._id p; ps_name := Product.name p;
           ps_images := Product.images p |})
    <$> List.find (λ p, N.eqb (Product._id p) (AdminOrder.product item)) catalog.

(** [{ product: item.product, name: item.name, price: item.price,
       quantity: item.quantity, image: item.product?.images?.[0] }] *)
Definition orderViewItem (catalog : list Product.t) (item : AdminOrder.Item)
  : OrderViewItem :=
  let product := populateItemProduct catalog item in
  {| vi_product := product;
     vi_name := AdminOrder.name item;
     vi_price := AdminOrder.price item;
     vi_quantity := AdminOrder.quantity item;
     vi_image := p ← product; head (ps_images p) |}.

(** The transformation of getOrders (lines 250-301). *)
Definition getOrders_view (catalog : list Product.t) (orderObj : AdminOrder.t)
  : OrderView :=
  {| v_orderNumber := AdminOrder.orderNumber orderObj;
     v_customerId := AdminOrder.customer orderObj;
     v_items := orderViewItem catalog <$> AdminOrder.items orderObj;
     v_subtotal := AdminOrder.subtotal orderObj;
     v_tax := AdminOrder.tax orderObj;
     v_deliveryFee := AdminOrder.shipping orderObj;
     v_total := AdminOrder.total orderObj;
     v_address := AdminOrder.shippingAddress orderObj;
     v_paymentMethod := Enum.paymentMethodToCustomer (AdminOrder.paymentMethod orderObj);
     v_paymentStatus := Enum.paymentStatusToCustomer (AdminOrder.paymentStatus orderObj);
     v_orderStatus := Enum.getOrders_orderStatus (AdminOrder.status orderObj) |}.

(** The transformation of getOrder (lines 328-377), with its own copy of
    the status table. *)
Definition getOrder_view (catalog : list Product.t) (orderObj : AdminOrder.t)
  : OrderView :=
  {| v_orderNumber := AdminOrder.orderNumber orderObj;
     v_customerId := AdminOrder.customer orderObj;
     v_items := orderViewItem catalog <$> AdminOrder.items orderObj;
     v_subtotal := AdminOrder.subtotal orderObj;
     v_tax := AdminOrder.tax orderObj;
     v_deliveryFee := AdminOrder.shipping orderObj;
     v_total := AdminOrder.total orderObj;
     v_address := AdminOrder.shippingAddress orderObj;
     v_paymentMethod := Enum.paymentMethodToCustomer (AdminOrder.paymentMethod orderObj);
     v_paymentStatus := Enum.paymentStatusToCustomer (AdminOrder.paymentStatus orderObj);
     v_orderStatus := Enum.getOrder_orderStatus (AdminOrder.status orderObj) |}.

Section OrderReads.

(** The stored order documents of the model leave out what the database
    generates.  The two reads depend on it: [newestFirst] is the order in
    which [.sort({ createdAt: -1 })] returns documents, [idOf] the [_id]
    of a document. *)
Variable newestFirst : list AdminOrder.t → list AdminOrder.t.
Variable idOf : AdminOrder.t → ObjectId.

(** [populate] looks the model "Product" up on the admin connection,
    where the first use of the Product proxy registers it
    (getProductModel).  With documents to populate and no such model,
    Mongoose throws its MissingSchemaError; [missingSchema] is the
    message of that error. *)
Variable missingSchema : string.

Definition populateProducts (found : list AdminOrder.t) : Handler unit := λ w,
  match found with
  | [] => (Done tt, w)
  | _ =>
      if productModelBound w then (Done tt, w)
      else (Throw (OrderStoreFault missingSchema), w)
  end.

(** [AdminOrder.find({ customer })] *)
Definition ordersOf (user : ObjectId) (stored : list AdminOrder.t) : list AdminOrder.t :=
  List.filter (λ o, N.eqb (AdminOrder.customer o) user) stored.

(** The body of the [try] of getOrders (lines 243-304). *)
Definition getOrders_body (user : ObjectId) : Handler (list OrderView) :=
  _ ← getAdminOrderModel;
  w ← getWorld;
  let adminOrders := ordersOf user (orders w) in
  _ ← populateProducts adminOrders;
  mret (getOrders_view (products w) <$> newestFirst adminOrders).

Definition getOrders (user : ObjectId) (w : World) : Answer (list OrderView) * World :=
  answer (tryCatch (getOrders_body user) catchAll) w.

(** The body of the [try] of getOrder (lines 315-379). *)
Definition getOrder_body (user : ObjectId) (orderId : ObjectId) : Handler OrderView :=
  _ ← getAdminOrderModel;
  w ← getWorld;
  match List.find (λ o, N.eqb (idOf o) orderId && N.eqb (AdminOrder.customer o) user)
          (orders w) with
  | None => reply (fail 404 "Order not found")
  | Some adminOrder =>
      _ ← populateProducts [adminOrder];
      mret (getOrder_view (products w) adminOrder)
  end.

Definition getOrder (user : ObjectId) (orderId : ObjectId) (w : World)
  : Answer OrderView * World :=
  answer (tryCatch (getOrder_body user orderId) catchAll) w.

End OrderReads.

(** ** Further statements over the model *)

Module Effect.

(** A run that changed, at most, the cart of one customer (and bound the
    Product model): orders, catalog, addresses, the state of the admin
    connection and every other cart are as before. *)
Definition cartOnly (user : ObjectId) (w w' : World) : Prop :=
  orders w' = orders w ∧ products w' = products w ∧ addresses w' = addresses w
  ∧ adminReady w' = adminReady w
  ∧ ∀ other, other ≠ user → carts w' !! other = carts w !! other.

(** The same, with the orders left open. *)
Definition cartAndOrders (user : ObjectId) (w w' : World) : Prop :=
  products w' = products w ∧ addresses w' = addresses w
  ∧ adminReady w' = adminReady w
  ∧ ∀ other, other ≠ user → carts w' !! other = carts w !! other.

(** A handler all of whose runs stay within a relation on worlds. *)
Definition respects {A} (R : World → World → Prop) (h : Handler A) : Prop :=
  ∀ w o w', h w = (o, w') → R w w'.

(** No stored cart holds two lines of the same product. *)
Definition oneLinePerProduct (w : World) : Prop :=
  ∀ user items, carts w !! user = Some items → NoDup (CartItem.product <$> items).

End Effect.

Module Guest.

(** What one turn of the merge loop of syncGuestCart makes of the lines in
    memory, for a catalog. *)
Definition mergedLine (catalog : list Product.t) (item : GuestItem)
    (lines : list Cart.Line) : list Cart.Line :=
  match List.find (λ p, N.eqb (Product._id p) (RequestId.objectId (gi_productId item)))
          catalog with
  | None => lines
  | Some product =>
      if availableStock product <? gi_quantity item then lines
      else
        match list_find
                (λ cartItem, RequestId.sameString (Cart.product cartItem)
                               (gi_productId item) = true) lines with
        | Some (existingItemIndex, existing) =>
            <[existingItemIndex :=
                {| Cart.product := Cart.product existing;
                   Cart.quantity :=
                     Z.min (JS.addIntegers (Cart.quantity existing) (gi_quantity item))
                       (availableStock product) |}]> lines
        | None =>
            lines ++ [ {| Cart.product := RequestId.objectId (gi_productId item);
                          Cart.quantity := gi_quantity item |} ]
        end
  end.

(** What the whole loop makes of them. *)
Definition mergedLines (catalog : list Product.t) (items : list GuestItem)
    (lines : list Cart.Line) : list Cart.Line :=
  foldl (λ lines item, mergedLine catalog item lines) lines items.

(** A guest line the loop skips: its product is not in the catalog, or
    the catalog holds less stock than the line asks for. *)
Definition skipped (catalog : list Product.t) (item : GuestItem) : Prop :=
  match List.find (λ p, N.eqb (Product._id p) (RequestId.objectId (gi_productId item)))
          catalog with
  | None => True
  | Some product => availableStock product < gi_quantity item
  end.

(** The first line of a cart in memory that holds a product. *)
Definition lineOf (productId : ObjectId) (lines : list Cart.Line) : option Cart.Line :=
  snd <$> list_find (λ cartItem, Cart.product cartItem = productId) lines.

(** The lines in memory hold a product, and the first line that holds it
    asks for no more than the product has in stock. *)
Definition withinStock (product : Product.t) (lines : list Cart.Line) : Prop :=
  ∃ line, lineOf (Product._id product) lines = Some line
          ∧ Cart.quantity line ≤ availableStock product.

End Guest.

Module Trace.

(** A call of one of the handlers that write to a store, by an
    authenticated customer.  (getOrders and getOrder only read.) *)
Inductive Call :=
  | GetCart (user : ObjectId)
  | AddToCart (user : ObjectId) (req : AddToCartBody)
  | UpdateCartItem (user : ObjectId) (productId : RequestId.t) (quantity : Z)
  | RemoveFromCart (user : ObjectId) (productId : RequestId.t)
  | ClearCart (user : ObjectId)
  | SyncGuestCart (user : ObjectId) (items : option (list GuestItem))
  | CreateOrder (env : Env) (user : ObjectId) (req : CreateOrderBody).

(** The customer who calls. *)
Definition caller (c : Call) : ObjectId :=
  match c with
  | GetCart user | AddToCart user _ | UpdateCartItem user _ _ | RemoveFromCart user _
  | ClearCart user | SyncGuestCart user _ | CreateOrder _ user _ => user
  end.

(** The stores after a call. *)
Definition after (c : Call) (w : World) : World :=
  match c with
  | GetCart user => (getCart user w).2
  | AddToCart user req => (addToCart user req w).2
  | UpdateCartItem user productId quantity => (updateCartItem user productId quantity w).2
  | RemoveFromCart user productId => (removeFromCart user productId w).2
  | ClearCart user => (clearCart user w).2
  | SyncGuestCart user items => (syncGuestCart user items w).2
  | CreateOrder env user req => (createOrder env user req w).2
  end.

(** The stores after a sequence of calls, served one after the other. *)
Definition afterAll (calls : list Call) (w : World) : World :=
  foldl (λ w c, after c w) w calls.

(** A call that spells the id of every product it asks to add as
    [toString()] spells it.  (A call that adds no line is any call.) *)
Definition addsUnderStoredSpelling (c : Call) : Prop :=
  match c with
  | AddToCart _ req => RequestId.canonical (atc_productId req) = true
  | SyncGuestCart _ (Some items) =>
      Forall (λ item, RequestId.canonical (gi_productId item) = true) items
  | _ => True
  end.

End Trace.

(** * Properties *)

(** ** EnumTranslator *)

Section Tables.

(** An own entry of a table wins over everything else. *)
Lemma get_own table k v :
  JS.ownProperty table k = Some v → JS.get table k = JS.VStr v.
Proof. unfold JS.get. by intros ->. Qed.

(** Without an own entry and outside [Object.prototype], the lookup is
    [undefined] and [||] takes the fallback. *)
Lemma or_get_fallback table k fallback :
  JS.ownProperty table k = None → k ∉ JS.objectPrototypeKeys →
  JS.or (JS.get table k) (JS.VStr fallback) = JS.VStr fallback.
Proof.
  intros Hown Hproto. unfold JS.get. rewrite Hown.
  by rewrite bool_decide_eq_false_2.
Qed.

(** An inherited member is truthy, so the fallback is not taken. *)
Lemma or_get_inherited table k fallback :
  JS.ownProperty table k = None → k ∈ JS.objectPrototypeKeys →
  JS.or (JS.get table k) (JS.VStr fallback) = JS.VProto k.
Proof.
  intros Hown Hproto. unfold JS.get. rewrite Hown.
  by rewrite bool_decide_eq_true_2.
Qed.

End Tables.

(** Every payment method other than "cod" and "razorpay" that is not the
    name of an inherited object member is written as OTHER. *)
Lemma paymentMethodToShared_unmapped (paymentMethod : string) :
  paymentMethod ≠ "cod" → paymentMethod ≠ "razorpay" →
  paymentMethod ∉ JS.objectPrototypeKeys →
  Enum.paymentMethodToShared paymentMethod = JS.VStr "OTHER".
Proof.
  intros Hcod Hrazorpay Hproto. apply or_get_fallback; [|done].
  cbn [Enum.createOrder_paymentMethodMap JS.ownProperty].
  destruct (String.eqb_spec "cod" paymentMethod) as [<-|_]; [done|].
  by destruct (String.eqb_spec "razorpay" paymentMethod) as [<-|_].
Qed.

(** The two order-status tables of getOrders and getOrder agree. *)
Lemma orderStatus_tables_agree (shared : string) :
  Enum.getOrder_orderStatus shared = Enum.getOrders_orderStatus shared.
Proof. reflexivity. Qed.

(** C3 (the code at the failing input): createOrder translates "cod" to
    CASH and "razorpay" to ONLINE, and both come back unchanged through
    the table of getOrders; but "card" has no entry in the table of
    createOrder, so it is written as OTHER, not CARD, although the table
    of getOrders reads CARD back as "card". An order placed with "card"
    is stored with payment method OTHER and read back as "other". *)
Theorem payment_method_card_is_written_as_OTHER :
  Enum.paymentMethodToShared "cod" = JS.VStr "CASH"
  ∧ Enum.paymentMethodToShared "razorpay" = JS.VStr "ONLINE"
  ∧ Enum.paymentMethodToCustomer "CASH" = JS.VStr "cod"
  ∧ Enum.paymentMethodToCustomer "ONLINE" = JS.VStr "razorpay"
  ∧ Enum.paymentMethodToCustomer "CARD" = JS.VStr "card"
  ∧ Enum.paymentMethodToShared "card" = JS.VStr "OTHER"
  ∧ Enum.paymentMethodToShared "card" ≠ JS.VStr "CARD"
  ∧ Enum.paymentMethodToCustomer "OTHER" = JS.VStr "other"
  ∧ AdminOrder.paymentMethod <$>
      orders (createOrder Fixture.env Fixture.customer
                {| addressId := Some 50%N; paymentMethod := Some "card";
                   razorpayOrderId := None; razorpayPaymentId := None |}
                (Fixture.world [Fixture.line 1%N 2%positive])).2
    = ["OTHER"].
Proof. repeat split; by vm_compute. Qed.

(** C5: the tables of getOrders and of getOrder both show PACKED and
    PROCESSING as "processing"; the customer-to-shared direction sends
    "processing" to PROCESSING; so PACKED does not come back from the
    round trip, and no translation back can undo the projection. *)
Theorem order_status_projection_is_lossy :
  Enum.getOrders_orderStatus "PACKED" = JS.VStr "processing"
  ∧ Enum.getOrders_orderStatus "PROCESSING" = JS.VStr "processing"
  ∧ Enum.getOrder_orderStatus "PACKED" = JS.VStr "processing"
  ∧ Enum.getOrder_orderStatus "PROCESSING" = JS.VStr "processing"
  ∧ Enum.spec_orderStatusToShared "processing" = Some "PROCESSING"
  ∧ (∀ customer, Enum.getOrders_orderStatus "PACKED" = JS.VStr customer →
       Enum.spec_orderStatusToShared customer ≠ Some "PACKED")
  ∧ (∀ back : JS.value → string,
       ¬ ∀ shared, shared ∈ AdminOrder.statusEnum →
           back (Enum.getOrders_orderStatus shared) = shared).
Proof.
  repeat split; try done.
  - intros customer [= <-]. by vm_compute.
  - intros back Hback.
    pose proof (Hback "PACKED") as Hpacked.
    pose proof (Hback "PROCESSING") as Hprocessing.
    assert (Enum.getOrders_orderStatus "PACKED"
            = Enum.getOrders_orderStatus "PROCESSING") as Heq by done.
    rewrite Heq, Hprocessing in Hpacked.
    + assert ("PROCESSING" ≠ "PACKED") as Hne by done. apply Hne, Hpacked.
      unfold AdminOrder.statusEnum. set_solver.
    + unfold AdminOrder.statusEnum. set_solver.
Qed.

(** ** OrderWriter: the order number *)

Section OrderNumber.

Lemma pretty_N_char_no_dash (d : N) : Ascii.eqb (pretty_N_char d) "-"%char = false.
Proof. unfold pretty_N_char. by repeat case_match. Qed.

Lemma pretty_N_go_no_dash (x : N) :
  ∀ s, hasDash s = false → hasDash (pretty_N_go x s) = false.
Proof.
  induction (N.lt_wf_0 x) as [x _ IH]. intros s Hs.
  destruct (decide (x = 0%N)) as [->|Hx].
  - by rewrite pretty_N_go_0.
  - rewrite pretty_N_go_step by lia.
    apply IH.
    + apply N.div_lt; lia.
    + cbn. by rewrite pretty_N_char_no_dash.
Qed.

(** The decimal text of a timestamp has no separator in it. *)
Lemma pretty_N_no_dash (x : N) : hasDash (pretty x) = false.
Proof.
  unfold pretty, pretty_N. case_decide; [done|].
  by apply pretty_N_go_no_dash.
Qed.

(** Two texts cut at their first separator agree part by part. *)
Lemma split_at_first_dash (d1 d2 x1 x2 : string) :
  hasDash d1 = false → hasDash d2 = false →
  d1 +:+ "-" +:+ x1 = d2 +:+ "-" +:+ x2 → d1 = d2 ∧ x1 = x2.
Proof.
  change ("-" +:+ x1) with (String "-" x1).
  change ("-" +:+ x2) with (String "-" x2).
  revert d2. induction d1 as [|c1 d1 IH]; intros [|c2 d2]; cbn.
  - intros _ _ [= ->]. done.
  - intros _ Hd2 [= <- _]. done.
  - intros Hd1 _ [= -> _]. done.
  - intros Hd1 Hd2 [= -> Htail].
    apply orb_false_elim in Hd1 as [_ Hd1].
    apply orb_false_elim in Hd2 as [_ Hd2].
    destruct (IH d2 Hd1 Hd2 Htail) as [-> ->]. done.
Qed.

Lemma substring_length_le (s : string) :
  ∀ start len, (String.length (String.substring start len s) ≤ len)%nat.
Proof.
  induction s as [|c s IH]; intros [|start] [|len]; cbn; try lia.
  - specialize (IH 0%nat len). lia.
  - apply (IH start 0%nat).
  - apply (IH start (S len)).
Qed.

Lemma toUpperCase_length (s : string) :
  String.length (JS.toUpperCase s) = String.length s.
Proof. induction s; cbn; congruence. Qed.

Lemma randomSuffix_length (random36 : string) :
  (String.length (randomSuffix random36) ≤ 6)%nat.
Proof.
  unfold randomSuffix, JS.substr. rewrite toUpperCase_length.
  apply substring_length_le.
Qed.

(** Order numbers coincide exactly when timestamp and suffix do. *)
Lemma orderNumberOf_eq_iff (t1 t2 : N) (r1 r2 : string) :
  orderNumberOf t1 r1 = orderNumberOf t2 r2
  ↔ t1 = t2 ∧ randomSuffix r1 = randomSuffix r2.
Proof.
  unfold orderNumberOf. split.
  - intros Heq. cbn in Heq. injection Heq as Heq.
    apply split_at_first_dash in Heq as [Ht Hr]; try apply pretty_N_no_dash.
    split; [by apply (inj pretty)|done].
  - by intros [-> ->].
Qed.

End OrderNumber.

(** C4 (as amended): every generated order number reads "ORD-", the
    timestamp in decimal, "-", and a suffix of at most six characters cut
    from one random draw; two generated order numbers are equal exactly
    when their timestamps and their suffixes are equal, so two attempts in
    the same millisecond get distinct order numbers exactly when their
    suffixes differ. *)
Theorem order_number_shape_and_equality :
  (∀ env : Env,
     orderNumberOf (now env) (random36 env)
     = "ORD-" +:+ pretty (now env) +:+ "-" +:+ randomSuffix (random36 env)
     ∧ (String.length (randomSuffix (random36 env)) ≤ 6)%nat)
  ∧ (∀ first second : Env,
       orderNumberOf (now first) (random36 first)
       = orderNumberOf (now second) (random36 second)
       ↔ now first = now second
         ∧ randomSuffix (random36 first) = randomSuffix (random36 second))
  ∧ (∀ (timestamp : N) (firstDraw secondDraw : string),
       orderNumberOf timestamp firstDraw ≠ orderNumberOf timestamp secondDraw
       ↔ randomSuffix firstDraw ≠ randomSuffix secondDraw).
Proof.
  split; [|split].
  - intros env. split; [done|apply randomSuffix_length].
  - intros first second. apply orderNumberOf_eq_iff.
  - intros timestamp firstDraw secondDraw. rewrite orderNumberOf_eq_iff.
    split; [intros Hne Hsuffix; by apply Hne|intros Hne [_ Hsuffix]; by apply Hne].
Qed.

(** ** Stores and handlers: basic facts *)

Section Handlers.

Lemma availableStock_stock (p : Product.t) : availableStock p = Product.stock p.
Proof.
  unfold availableStock, Product.stockQuantity.
  destruct (Z.eqb_spec (Product.stock p) 0) as [->|]; done.
Qed.

Lemma bindProductModel_bound (w : World) :
  productModelBound w = true → bindProductModel w = w.
Proof. destruct w; cbn. by intros ->. Qed.

Lemma catalogReachable_bind (w : World) : Spec.catalogReachable (bindProductModel w).
Proof. by left. Qed.

Lemma getProductModel_reachable (w : World) :
  Spec.catalogReachable w → getProductModel w = (Done tt, bindProductModel w).
Proof.
  unfold getProductModel. intros [Hbound|Hready].
  - rewrite Hbound. by rewrite bindProductModel_bound.
  - rewrite Hready. destruct (productModelBound w) eqn:Hbound; [|done].
    by rewrite bindProductModel_bound.
Qed.

Lemma getProductModel_unreachable (w : World) :
  ¬ Spec.catalogReachable w →
  getProductModel w = (Throw ProductModelNotEstablished, w).
Proof.
  unfold getProductModel, Spec.catalogReachable. intros Hno.
  destruct (productModelBound w); [naive_solver|].
  destruct (adminReady w); [naive_solver|done].
Qed.

Lemma catalogReachable_dec (w : World) :
  Spec.catalogReachable w ∨ ¬ Spec.catalogReachable w.
Proof.
  unfold Spec.catalogReachable.
  destruct (productModelBound w), (adminReady w); naive_solver.
Qed.

Lemma Product_findById_reachable (productId : ObjectId) (w : World) :
  Spec.catalogReachable w →
  Product_findById productId w
  = (Done (List.find (λ p, N.eqb (Product._id p) productId) (products w)),
     bindProductModel w).
Proof.
  intros Hreach. unfold Product_findById, mbind, handler_bind.
  by rewrite getProductModel_reachable.
Qed.

Lemma Product_findById_unreachable (productId : ObjectId) (w : World) :
  ¬ Spec.catalogReachable w →
  Product_findById productId w = (Throw ProductModelNotEstablished, w).
Proof.
  intros Hno. unfold Product_findById, mbind, handler_bind.
  by rewrite getProductModel_unreachable.
Qed.

Lemma Product_findActive_reachable (productIds : list ObjectId) (w : World) :
  Spec.catalogReachable w →
  Product_findActive productIds w
  = (Done (activeProducts productIds (products w)), bindProductModel w).
Proof.
  intros Hreach. unfold Product_findActive, mbind, handler_bind.
  by rewrite getProductModel_reachable.
Qed.

Lemma Product_findActive_unreachable (productIds : list ObjectId) (w : World) :
  ¬ Spec.catalogReachable w →
  Product_findActive productIds w = (Throw ProductModelNotEstablished, w).
Proof.
  intros Hno. unfold Product_findActive, mbind, handler_bind.
  by rewrite getProductModel_unreachable.
Qed.

(** What the product map answers: an active catalog product filed under
    the key asked for, and only for keys that were asked for. *)
Lemma buildProductMap_lookup (found : list Product.t) (k : ObjectId) (p : Product.t) :
  buildProductMap found !! k = Some p → p ∈ found ∧ Product._id p = k.
Proof.
  unfold buildProductMap.
  assert (∀ (m : gmap ObjectId Product.t),
            (∀ k p, m !! k = Some p → p ∈ found ∧ Product._id p = k) →
            ∀ l, l ⊆ found →
            ∀ k p, foldl (λ m p, <[Product._id p := p]> m) m l !! k = Some p →
                   p ∈ found ∧ Product._id p = k) as Hgen.
  { intros m Hm l. revert m Hm.
    induction l as [|q l IH]; intros m Hm Hsub k' p'; cbn; [by apply Hm|].
    apply IH; [|set_solver].
    intros k'' p''. rewrite lookup_insert.
    case_decide as Hk; [|by apply Hm].
    intros [= <-]. split; [set_solver|done]. }
  apply (Hgen ∅); [|done]. intros k' p'. by rewrite lookup_empty.
Qed.

Lemma buildProductMap_None (found : list Product.t) (k : ObjectId) :
  buildProductMap found !! k = None → ∀ p, p ∈ found → Product._id p ≠ k.
Proof.
  unfold buildProductMap.
  assert (∀ l (m : gmap ObjectId Product.t),
            foldl (λ m p, <[Product._id p := p]> m) m l !! k = None →
            m !! k = None ∧ ∀ p, p ∈ l → Product._id p ≠ k) as Hgen.
  { induction l as [|q l IH]; intros m; cbn; [set_solver|].
    intros Hnone. apply IH in Hnone as [Hm Hl].
    rewrite lookup_insert in Hm. case_decide as Hk; [done|].
    split; [done|]. intros p [->|Hp]%elem_of_cons; [done|by apply Hl]. }
  intros Hnone. by apply (Hgen found ∅).
Qed.

Lemma elem_of_activeProducts (productIds : list ObjectId) (catalog : list Product.t)
    (p : Product.t) :
  p ∈ activeProducts productIds catalog
  ↔ p ∈ catalog ∧ Product._id p ∈ productIds ∧ Product.isActive p = true.
Proof.
  unfold activeProducts. rewrite list_elem_of_In, filter_In, <- list_elem_of_In.
  rewrite andb_true_iff, bool_decide_eq_true. naive_solver.
Qed.

(** Reading through the product map of a cart: the line resolves exactly
    when the catalog holds an active product under its reference. *)
Lemma productMap_resolves (w : World) (productIds : list ObjectId) (k : ObjectId) :
  k ∈ productIds →
  is_Some (buildProductMap (activeProducts productIds (products w)) !! k)
  ↔ Spec.resolvesActive w k.
Proof.
  intros Hk. split.
  - intros [p Hp]. apply buildProductMap_lookup in Hp as [Hp Hid].
    apply elem_of_activeProducts in Hp as (Hcat & _ & Hactive). by exists p.
  - intros (p & Hcat & Hid & Hactive).
    destruct (buildProductMap _ !! k) as [q|] eqn:Hq; [done|].
    exfalso. eapply buildProductMap_None; [exact Hq| |exact Hid].
    apply elem_of_activeProducts. by rewrite Hid.
Qed.

End Handlers.

(** ** CartStore *)

Section CartStore.

Lemma validate_ofItem (items : list CartItem.t) :
  Cart.validate (Cart.ofItem <$> items) = Some items.
Proof.
  unfold Cart.validate. apply mapM_Some. apply Forall2_fmap_l, Forall_Forall2_diag.
  apply Forall_forall. by intros [product quantity] _.
Qed.

Lemma validateLine_Some (l : Cart.Line) (item : CartItem.t) :
  Cart.validateLine l = Some item
  ↔ CartItem.product item = Cart.product l
    ∧ Z.pos (CartItem.quantity item) = Cart.quantity l.
Proof.
  unfold Cart.validateLine. destruct l as [product quantity], item as [product' q'].
  cbn. destruct quantity; naive_solver.
Qed.

(** Saving a cart with one line replaced stores the old lines around
    the new one, which must carry a positive quantity. *)
Lemma validate_insert (items saved : list CartItem.t) (i : nat) (l : Cart.Line) :
  (i < length items)%nat →
  Cart.validate (<[i := l]> (Cart.ofItem <$> items)) = Some saved →
  ∃ item, Cart.validateLine l = Some item ∧ saved = <[i := item]> items.
Proof.
  intros Hi Hsaved. unfold Cart.validate in Hsaved. apply mapM_Some in Hsaved.
  assert (length saved = length items) as Hlen.
  { apply Forall2_length in Hsaved.
    by rewrite length_insert, length_fmap in Hsaved. }
  destruct (lookup_lt_is_Some_2 saved i) as [item Hitem]; [lia|].
  exists item. split.
  - eapply Forall2_lookup_lr in Hsaved; [exact Hsaved| |exact Hitem].
    apply list_lookup_insert_eq. by rewrite length_fmap.
  - apply list_eq. intros j. destruct (decide (j = i)) as [->|Hj].
    + rewrite list_lookup_insert_eq by lia. done.
    + rewrite list_lookup_insert_ne by done.
      destruct (saved !! j) as [y|] eqn:Hy.
      * destruct (lookup_lt_is_Some_2 items j) as [x Hx].
        { apply lookup_lt_Some in Hy. lia. }
        eapply Forall2_lookup_lr in Hsaved; [| |exact Hy].
        2:{ rewrite list_lookup_insert_ne by done.
            rewrite list_lookup_fmap, Hx. done. }
        rewrite Hx. f_equal. destruct x, y. cbn in Hsaved. by injection Hsaved as -> ->.
      * symmetry. apply lookup_ge_None. apply lookup_ge_None in Hy. lia.
Qed.

(** Saving a cart with one line pushed stores the old lines and then
    the new one, which must carry a positive quantity. *)
Lemma validate_push (items saved : list CartItem.t) (l : Cart.Line) :
  Cart.validate ((Cart.ofItem <$> items) ++ [l]) = Some saved →
  ∃ item, Cart.validateLine l = Some item ∧ saved = items ++ [item].
Proof.
  unfold Cart.validate. intros Hsaved. apply mapM_Some in Hsaved.
  apply Forall2_app_inv_l in Hsaved as (old & new & Hold & Hnew & ->).
  apply Forall2_cons_inv_l in Hnew as (item & rest & Hitem & Hrest & ->).
  apply Forall2_nil_inv_l in Hrest as ->.
  exists item. split; [done|]. f_equal.
  apply mapM_Some in Hold. rewrite validate_ofItem in Hold. by injection Hold.
Qed.

Lemma save_valid (user : ObjectId) (items : list CartItem.t) (w : World) :
  Cart.save user (Cart.ofItem <$> items) w
  = (Done items, setCarts (<[user := items]> (carts w)) w).
Proof. unfold Cart.save. by rewrite validate_ofItem. Qed.

Lemma setCarts_same (w : World) : setCarts (carts w) w = w.
Proof. by destruct w. Qed.

(** The lines that populateCartProducts shows are the lines whose
    product resolves, in the order of the cart. *)
Lemma attachProducts_shows_resolving (w : World) (productIds : list ObjectId)
    (items : list CartItem.t) :
  (CartItem.product <$> items) ⊆ productIds →
  Spec.shownLines
    (attachProducts (buildProductMap (activeProducts productIds (products w))) items)
  = Spec.linesOf
      (List.filter (λ item, Spec.resolvesActiveb w (CartItem.product item)) items).
Proof.
  intros Hsub. unfold attachProducts.
  induction items as [|item items IH]; [done|].
  cbn [omap list_omap List.filter].
  assert (CartItem.product item ∈ productIds) as Hin by set_solver.
  pose proof (productMap_resolves w productIds _ Hin) as Hres.
  destruct (buildProductMap _ !! CartItem.product item) as [p|] eqn:Hp.
  - assert (Spec.resolvesActiveb w (CartItem.product item) = true) as ->.
    { destruct Hres as [Hres _]. destruct Hres as (q & Hq & Hid & Hact); [done|].
      apply existsb_exists. exists q. rewrite <- list_elem_of_In, Hid, N.eqb_refl.
      done. }
    cbn. apply buildProductMap_lookup in Hp as [_ ->].
    f_equal. apply IH. set_solver.
  - assert (Spec.resolvesActiveb w (CartItem.product item) = false) as ->.
    { apply not_true_is_false. intros (q & Hq & Hb)%existsb_exists.
      apply andb_true_iff in Hb as [Hid%N.eqb_eq Hact].
      destruct Hres as [_ Hres]. destruct Hres as [? ?]; [|done].
      exists q. by rewrite list_elem_of_In. }
    cbn. apply IH. set_solver.
Qed.

Lemma populated_shows_resolving (w : World) (items : list CartItem.t) :
  Spec.shownLines (populated w items)
  = Spec.linesOf
      (List.filter (λ item, Spec.resolvesActiveb w (CartItem.product item)) items).
Proof. by apply attachProducts_shows_resolving. Qed.

Lemma populateCartProducts_reachable (items : list CartItem.t) (w : World) :
  Spec.catalogReachable w ∨ items = [] →
  populateCartProducts items w
  = (Done (populated w items), if items is [] then w else bindProductModel w).
Proof.
  intros Hreach. destruct items as [|item items]; [done|].
  destruct Hreach as [Hreach|?]; [|done].
  unfold populateCartProducts, mbind, handler_bind.
  by rewrite Product_findActive_reachable.
Qed.

Lemma populateCartProducts_unreachable (items : list CartItem.t) (w : World) :
  ¬ Spec.catalogReachable w → items ≠ [] →
  populateCartProducts items w = (Throw ProductModelNotEstablished, w).
Proof.
  intros Hno Hitems. destruct items as [|item items]; [done|].
  unfold populateCartProducts, mbind, handler_bind.
  by rewrite Product_findActive_unreachable.
Qed.

(** The comparison of a stored id with the id of a request, by cases on
    the spelling of the request. *)
Lemma sameString_true (stored : ObjectId) (sent : RequestId.t) :
  RequestId.sameString stored sent = true
  ↔ RequestId.canonical sent = true ∧ stored = RequestId.objectId sent.
Proof.
  unfold RequestId.sameString. rewrite andb_true_iff, N.eqb_eq. done.
Qed.

Lemma sameString_canonical (stored : ObjectId) (sent : RequestId.t) :
  RequestId.canonical sent = true →
  RequestId.sameString stored sent = N.eqb stored (RequestId.objectId sent).
Proof. unfold RequestId.sameString. by intros ->. Qed.

Lemma sameString_respelled (stored : ObjectId) (sent : RequestId.t) :
  RequestId.canonical sent = false → RequestId.sameString stored sent = false.
Proof. unfold RequestId.sameString. by intros ->. Qed.

(** Removing a reference the cart does not hold keeps every line,
    however the request spells the reference. *)
Lemma filter_absent (productId : RequestId.t) (items : list CartItem.t) :
  RequestId.objectId productId ∉ CartItem.product <$> items →
  List.filter (λ item, negb (RequestId.sameString (CartItem.product item) productId))
    items = items.
Proof.
  induction items as [|item items IH]; [done|]. cbn. intros Hnot.
  apply not_elem_of_cons in Hnot as [Hne Hnot].
  destruct (RequestId.sameString (CartItem.product item) productId) eqn:Hsame.
  { apply sameString_true in Hsame as [_ Hsame]. by destruct Hne. }
  cbn. by rewrite IH.
Qed.

(** A reference in another spelling than that of the stored ids removes
    nothing. *)
Lemma filter_respelled (productId : RequestId.t) (items : list CartItem.t) :
  RequestId.canonical productId = false →
  List.filter (λ item, negb (RequestId.sameString (CartItem.product item) productId))
    items = items.
Proof.
  intros Hspelling. induction items as [|item items IH]; [done|]. cbn.
  rewrite sameString_respelled by done. cbn. by rewrite IH.
Qed.

Lemma filter_canonical (productId : RequestId.t) (items : list CartItem.t) :
  RequestId.canonical productId = true →
  List.filter (λ item, negb (RequestId.sameString (CartItem.product item) productId))
    items
  = List.filter
      (λ item, negb (N.eqb (CartItem.product item) (RequestId.objectId productId)))
      items.
Proof.
  intros Hspelling. induction items as [|item items IH]; [done|]. cbn.
  rewrite sameString_canonical by done. by rewrite IH.
Qed.

Lemma filter_again {A} (keep : A → bool) (l : list A) :
  List.filter keep (List.filter keep l) = List.filter keep l.
Proof.
  induction l as [|x l IH]; [done|]. cbn.
  destruct (keep x) eqn:Hx; [|done]. cbn. by rewrite Hx, IH.
Qed.

(** What removeFromCart does to a cart that exists. *)
Lemma removeFromCart_existing (user : ObjectId) (productId : RequestId.t) (w : World)
    (items : list CartItem.t) :
  carts w !! user = Some items →
  let kept :=
    List.filter
      (λ item, negb (RequestId.sameString (CartItem.product item) productId))
      items in
  let stored := setCarts (<[user := kept]> (carts w)) w in
  (Spec.catalogReachable w ∨ kept = [] →
     removeFromCart user productId w
     = ({| statusCode := 200; body := CartBody user (populated w kept) |},
        if kept is [] then stored else bindProductModel stored))
  ∧ (¬ Spec.catalogReachable w → kept ≠ [] →
     removeFromCart user productId w
     = ({| statusCode := 500; body := Failure (Message ProductModelNotEstablished) |},
        stored)).
Proof.
  intros Hcart kept stored.
  unfold removeFromCart, respond, tryCatch, removeFromCart_body.
  unfold Cart.findOne, mbind, handler_bind, getWorld, mret, handler_ret.
  rewrite Hcart. fold kept. rewrite save_valid. fold stored. split.
  - intros Hreach.
    rewrite (populateCartProducts_reachable kept stored) by exact Hreach.
    by destruct kept.
  - intros Hno Hkept.
    rewrite populateCartProducts_unreachable; done.
Qed.

End CartStore.

Section AddToCart.

Ltac run :=
  unfold mbind, handler_bind, mret, handler_ret, getWorld, modifyWorld, reply, throw;
  cbn [fst snd carts orders products addresses adminReady productModelBound
       setCarts setOrders bindProductModel statusCode body fail].

(** The end of the cart handlers once the Product model is bound. *)
Lemma populate_then_respond (user : ObjectId) (saved : list CartItem.t) (w : World) :
  productModelBound w = true →
  (items ← populateCartProducts saved;
   mret {| statusCode := 200; body := CartBody user items |}) w
  = (Done {| statusCode := 200; body := CartBody user (populated w saved) |}, w).
Proof.
  intros Hbound. run.
  rewrite populateCartProducts_reachable by (by left; left).
  rewrite bindProductModel_bound by done. by destruct saved.
Qed.

Lemma bind_run {A B} (m : Handler A) (f : A → Handler B) (w : World) :
  (m ≫= f) w
  = match m w with
    | (Done a, w') => f a w'
    | (Reply r, w') => (Reply r, w')
    | (Throw e, w') => (Throw e, w')
    end.
Proof. done. Qed.

Lemma findOne_run (user : ObjectId) (w : World) :
  Cart.findOne user w = (Done (carts w !! user), w).
Proof. done. Qed.

Lemma save_Some (user : ObjectId) (lines : list Cart.Line) (saved : list CartItem.t)
    (w : World) :
  Cart.validate lines = Some saved →
  Cart.save user lines w = (Done saved, setCarts (<[user := saved]> (carts w)) w).
Proof. unfold Cart.save. by intros ->. Qed.

Lemma save_None (user : ObjectId) (lines : list Cart.Line) (w : World) :
  Cart.validate lines = None →
  Cart.save user lines w = (Throw CartValidationError, w).
Proof. unfold Cart.save. by intros ->. Qed.

Lemma lineOf_insert (productId : ObjectId) (items : list CartItem.t) (i : nat)
    (existing item : CartItem.t) :
  list_find (λ item, CartItem.product item = productId) items = Some (i, existing) →
  CartItem.product item = productId →
  Spec.lineOf productId (<[i := item]> items) = Some item.
Proof.
  intros Hfind Hitem. unfold Spec.lineOf.
  apply list_find_Some in Hfind as (Hi & Hp & Hbefore).
  assert (list_find (λ item, CartItem.product item = productId) (<[i := item]> items)
          = Some (i, item)) as ->; [|done].
  apply list_find_Some. split; [|split; [done|]].
  - apply list_lookup_insert_eq. by eapply lookup_lt_Some.
  - intros j y Hj Hlt. rewrite list_lookup_insert_ne in Hj by lia. by eapply Hbefore.
Qed.

Lemma lineOf_push (productId : ObjectId) (items : list CartItem.t) (item : CartItem.t) :
  list_find (λ item, CartItem.product item = productId) items = None →
  CartItem.product item = productId →
  Spec.lineOf productId (items ++ [item]) = Some item.
Proof.
  intros Hfind Hitem. unfold Spec.lineOf.
  rewrite list_find_app_r by done. cbn.
  by rewrite decide_True.
Qed.

(** The findIndex of addToCart in terms of the first line of a product. *)
Lemma lineOf_find (productId : ObjectId) (items : list CartItem.t) :
  Spec.lineOf productId items
  = snd <$> list_find (λ item, CartItem.product item = productId) items.
Proof. done. Qed.

(** The findIndex of the cart handlers, by cases on the spelling of the
    request: the first line of the product when the request spells the id
    as the stored ids read, and no line otherwise. *)
Lemma list_find_sameString {A} (proj : A → ObjectId) (sent : RequestId.t) (l : list A) :
  list_find (λ x, RequestId.sameString (proj x) sent = true) l
  = if RequestId.canonical sent
    then list_find (λ x, proj x = RequestId.objectId sent) l
    else None.
Proof.
  destruct (RequestId.canonical sent) eqn:Hspelling.
  - apply list_find_ext. intros x. rewrite sameString_true. naive_solver.
  - apply list_find_None, Forall_forall. intros x _.
    by rewrite sameString_respelled.
Qed.

End AddToCart.

(** Runs the outermost bind of a handler applied to a world. *)
Ltac bind_step H :=
  match type of H with
  | context [@mbind Handler handler_bind ?A ?B ?f ?m ?w] =>
      rewrite (@bind_run A B m f w) in H
  end.

(** Splits on whether the cart being saved passes its schema. *)
Ltac save_cases saved Hsaved H :=
  match type of H with
  | context [Cart.save ?u ?l ?w] =>
      destruct (Cart.validate l) as [saved|] eqn:Hsaved;
      [rewrite (save_Some u l saved w Hsaved) in H
      |rewrite (save_None u l w Hsaved) in H];
      cbv beta iota in H
  end.

(** A successful addToCart of a request that spells the product id as
    the stored ids read, read off its run: the first line of the product
    carries the quantity added, on top of what it held, within the stock.
    (The sum is the one of JavaScript numbers.) *)
Lemma addToCart_success (user : ObjectId) (req : AddToCartBody) (w w' : World)
    (resp : Response) :
  let productId := RequestId.objectId (atc_productId req) in
  let added := default 1 (atc_quantity req) in
  RequestId.canonical (atc_productId req) = true →
  addToCart user req w = (resp, w') →
  statusCode resp = 200%nat →
  ∃ product line,
    List.find (λ p, N.eqb (Product._id p) productId) (products w) = Some product
    ∧ carts w' !! user ≫= Spec.lineOf productId = Some line
    ∧ Z.pos (CartItem.quantity line)
      = match carts w !! user ≫= Spec.lineOf productId with
        | Some existing => JS.addIntegers (Z.pos (CartItem.quantity existing)) added
        | None => added
        end
    ∧ Z.pos (CartItem.quantity line) ≤ availableStock product.
Proof.
  intros productId added Hspelling Hrun.
  unfold addToCart, respond, tryCatch, addToCart_body in Hrun.
  cbv zeta in Hrun. fold productId in Hrun. fold added in Hrun.
  bind_step Hrun.
  destruct (catalogReachable_dec w) as [Hreach|Hno].
  2:{ rewrite Product_findById_unreachable in Hrun by done.
      injection Hrun as <- <-. done. }
  rewrite Product_findById_reachable in Hrun by done. cbv beta iota in Hrun.
  destruct (List.find _ (products w)) as [product|] eqn:Hproduct;
    [|injection Hrun as <- <-; done].
  destruct (availableStock product <? added) eqn:Hstock;
    [injection Hrun as <- <-; done|].
  apply Z.ltb_ge in Hstock.
  bind_step Hrun. rewrite findOne_run in Hrun. cbv beta iota in Hrun.
  cbn [carts bindProductModel] in Hrun.
  set (bound := bindProductModel w) in Hrun.
  assert (productModelBound bound = true) as Hbound by done.
  destruct (carts w !! user) as [items|] eqn:Hcart; cbn [mbind option_bind].
  - (* the customer has a cart *)
    rewrite lineOf_find.
    rewrite list_find_sameString, Hspelling in Hrun. fold productId in Hrun.
    destruct (list_find _ items) as [[existingItemIndex existing]|] eqn:Hfind;
      cbn [fmap option_fmap option_map snd].
    + (* the product is in it *)
      destruct (availableStock product <? _) eqn:Hmerged;
        [injection Hrun as <- <-; done|].
      apply Z.ltb_ge in Hmerged.
      bind_step Hrun. save_cases saved Hsaved Hrun; [|injection Hrun as <- <-; done].
      rewrite populate_then_respond in Hrun by done. cbv beta iota in Hrun.
      injection Hrun as <- <-. intros _.
      pose proof Hfind as Hfound. apply list_find_Some in Hfound as (Hidx & Hpid & _).
      apply validate_insert in Hsaved as (item & Hitem & ->);
        [|by eapply lookup_lt_Some].
      apply validateLine_Some in Hitem as [Hitemproduct Hitemquantity].
      cbn in Hitemproduct, Hitemquantity.
      exists product, item. split; [done|]. split; [|split; [done|lia]].
      cbn. rewrite lookup_insert_eq. cbn.
      eapply lineOf_insert; [exact Hfind|congruence].
    + (* the product is not in it *)
      bind_step Hrun. save_cases saved Hsaved Hrun; [|injection Hrun as <- <-; done].
      rewrite populate_then_respond in Hrun by done. cbv beta iota in Hrun.
      injection Hrun as <- <-. intros _.
      apply validate_push in Hsaved as (item & Hitem & ->).
      apply validateLine_Some in Hitem as [Hitemproduct Hitemquantity].
      cbn in Hitemproduct, Hitemquantity.
      exists product, item. split; [done|]. split; [|split; [done|lia]].
      cbn. rewrite lookup_insert_eq. cbn. by apply lineOf_push.
  - (* the customer has no cart yet *)
    bind_step Hrun. save_cases saved Hsaved Hrun; [|injection Hrun as <- <-; done].
    rewrite populate_then_respond in Hrun by done. cbv beta iota in Hrun.
    injection Hrun as <- <-. intros _.
    apply (validate_push []) in Hsaved as (item & Hitem & ->).
    apply validateLine_Some in Hitem as [Hitemproduct Hitemquantity].
    cbn in Hitemproduct, Hitemquantity.
    exists product, item. split; [done|]. split; [|split; [done|lia]].
    cbn. rewrite lookup_insert_eq. cbn. by apply (lineOf_push _ []).
Qed.

(** C7 (the code against the claim): the cart holds eight apples and
    ten are in stock.  A request for five more that spells the id of the
    apples in upper-case hex is cast to the product by the lookup; its
    string equals the [toString()] of no stored id, so the handler takes
    the product to be new to the cart, skips the check of the merged
    quantity, answers 200 and stores a second line of apples: thirteen
    against a stock of ten, and the first line of the product does not
    carry the merged quantity.  The same request with the id in lower
    case is refused with 400, Insufficient stock. *)
Theorem addToCart_respelled_id_skips_the_merged_stock_check :
  let cart := [Fixture.line 1%N 8%positive] in
  let w := Fixture.world cart in
  let respelled :=
    addToCart Fixture.customer
      {| atc_productId := RequestId.respelled 1%N; atc_quantity := Some 5 |} w in
  let canonical :=
    addToCart Fixture.customer
      {| atc_productId := RequestId.ofObjectId 1%N; atc_quantity := Some 5 |} w in
  carts w !! Fixture.customer = Some cart
  ∧ List.find (λ p, N.eqb (Product._id p) 1%N) (products w) = Some Fixture.apple
  ∧ availableStock Fixture.apple = 10
  ∧ statusCode respelled.1 = 200%nat
  ∧ carts respelled.2 !! Fixture.customer
    = Some [Fixture.line 1%N 8%positive; Fixture.line 1%N 5%positive]
  ∧ carts respelled.2 !! Fixture.customer ≫= Spec.lineOf 1%N
    = Some (Fixture.line 1%N 8%positive)
  ∧ canonical.1 = fail 400 "Insufficient stock"
  ∧ carts canonical.2 = carts w.
Proof. cbv zeta. repeat split; by vm_compute. Qed.

(** C6 (counterexample): tea is in the catalog with status INACTIVE and
    milk with status UNAVAILABLE; adding either to an empty cart is not
    answered with NotFound: the call succeeds and the stored cart gets the
    line.  And while the Product model cannot be reached, a product the
    catalog does not hold is answered with 500, not with NotFound. *)
Lemma addToCart_accepts_a_product_that_is_not_active :
  let w := Fixture.world [] in
  let addTea :=
    addToCart Fixture.customer
        {| atc_productId := RequestId.ofObjectId 5%N; atc_quantity := Some 1 |} w in
  let addMilk :=
    addToCart Fixture.customer
        {| atc_productId := RequestId.ofObjectId 3%N; atc_quantity := None |} w in
  let addUnknown :=
    addToCart Fixture.customer
        {| atc_productId := RequestId.ofObjectId 99%N; atc_quantity := None |}
        (Fixture.worldUnbound []) in
  Fixture.tea ∈ products w ∧ Product.status Fixture.tea = Product.INACTIVE
  ∧ Fixture.milk ∈ products w ∧ Product.status Fixture.milk = Product.UNAVAILABLE
  ∧ addTea.1 ≠ Spec.productNotFound ∧ statusCode addTea.1 = 200%nat
  ∧ carts addTea.2 !! Fixture.customer = Some [Fixture.line 5%N 1%positive]
  ∧ carts addTea.2 ≠ carts w
  ∧ addMilk.1 ≠ Spec.productNotFound ∧ statusCode addMilk.1 = 200%nat
  ∧ carts addMilk.2 !! Fixture.customer = Some [Fixture.line 3%N 1%positive]
  ∧ carts addMilk.2 ≠ carts w
  ∧ addUnknown.1 ≠ Spec.productNotFound ∧ statusCode addUnknown.1 = 500%nat.
Proof.
  cbv zeta. unfold Fixture.world. cbn [products].
  split; [set_solver|]. split; [done|]. split; [set_solver|]. split; [done|].
  split; [by vm_compute|]. split; [by vm_compute|]. split; [by vm_compute|].
  split.
  { intros Heq. apply (f_equal (λ c, c !! Fixture.customer)) in Heq.
    vm_compute in Heq. done. }
  split; [by vm_compute|]. split; [by vm_compute|]. split; [by vm_compute|].
  split; [|split; by vm_compute].
  intros Heq. apply (f_equal (λ c, c !! Fixture.customer)) in Heq.
  vm_compute in Heq. done.
Qed.

(** What addToCart answers when the lookup of the product comes back
    empty, and that no other answer of it is NotFound. *)
Lemma addToCart_not_found_iff (user : ObjectId) (req : AddToCartBody) (w : World) :
  Spec.catalogReachable w →
  (List.find (λ p, N.eqb (Product._id p) (RequestId.objectId (atc_productId req)))
     (products w) = None →
     addToCart user req w = (Spec.productNotFound, bindProductModel w))
  ∧ (∀ product,
       List.find (λ p, N.eqb (Product._id p) (RequestId.objectId (atc_productId req)))
         (products w)
       = Some product →
       (addToCart user req w).1 ≠ Spec.productNotFound).
Proof.
  intros Hreach. split.
  - intros Hnone. unfold addToCart, respond, tryCatch, addToCart_body. cbv zeta.
    rewrite (bind_run (Product_findById _)).
    rewrite Product_findById_reachable by done. by rewrite Hnone.
  - intros product Hfound.
    destruct (addToCart user req w) as [resp w'] eqn:Hrun. cbn [fst].
    intros ->. revert Hrun.
    unfold addToCart, respond, tryCatch, addToCart_body. cbv zeta. intros Hrun.
    bind_step Hrun.
    rewrite Product_findById_reachable in Hrun by done. cbv beta iota in Hrun.
    rewrite Hfound in Hrun.
    destruct (availableStock product <? _) eqn:Hstock; [by simplify_eq/=|].
    bind_step Hrun. rewrite findOne_run in Hrun. cbv beta iota in Hrun.
    cbn [carts bindProductModel] in Hrun.
    assert (productModelBound (bindProductModel w) = true) as Hbound by done.
    destruct (carts w !! user) as [items|].
    + destruct (list_find _ items) as [[existingItemIndex existing]|].
      * destruct (availableStock product <? JS.addIntegers _ _);
          [by simplify_eq/=|].
        bind_step Hrun. save_cases saved Hsaved Hrun; [|by simplify_eq/=].
        rewrite populate_then_respond in Hrun by done. by simplify_eq/=.
      * bind_step Hrun. save_cases saved Hsaved Hrun; [|by simplify_eq/=].
        rewrite populate_then_respond in Hrun by done. by simplify_eq/=.
    + bind_step Hrun. save_cases saved Hsaved Hrun; [|by simplify_eq/=].
      rewrite populate_then_respond in Hrun by done. by simplify_eq/=.
Qed.

Lemma find_by_id_None (productId : ObjectId) (catalog : list Product.t) :
  List.find (λ p, N.eqb (Product._id p) productId) catalog = None
  ↔ ∀ p, p ∈ catalog → Product._id p ≠ productId.
Proof.
  split.
  - intros Hnone p Hp Hid. apply list_elem_of_In in Hp.
    eapply find_none in Hnone; [|exact Hp]. cbn in Hnone.
    by rewrite Hid, N.eqb_refl in Hnone.
  - intros Hall. destruct (List.find _ catalog) as [p|] eqn:Hfind; [|done].
    apply find_some in Hfind as [Hin Hid%N.eqb_eq].
    by destruct (Hall p (proj2 (list_elem_of_In _ _) Hin)).
Qed.

(** C6 (as amended): with the catalog reachable, addToCart answers
    NotFound (404, "Product not found") and leaves every cart as it was
    when the catalog holds no product under the reference; and when it
    holds one, whatever its status, the answer is never NotFound. *)
Theorem addToCart_rejects_only_a_missing_product (user : ObjectId)
    (req : AddToCartBody) (w : World) :
  Spec.catalogReachable w →
  let result := addToCart user req w in
  ((∀ p, p ∈ products w → Product._id p ≠ RequestId.objectId (atc_productId req)) →
     result.1 = Spec.productNotFound ∧ carts result.2 = carts w)
  ∧ (∀ p, p ∈ products w → Product._id p = RequestId.objectId (atc_productId req) →
       result.1 ≠ Spec.productNotFound).
Proof.
  intros Hreach result. subst result.
  destruct (addToCart_not_found_iff user req w Hreach) as [Hmissing Hfound].
  split.
  - intros Habsent. apply find_by_id_None in Habsent.
    by rewrite (Hmissing Habsent).
  - intros p Hp Hid.
    destruct (List.find
                (λ p, N.eqb (Product._id p) (RequestId.objectId (atc_productId req)))
                (products w))
      as [product|] eqn:Hfind; [by eapply Hfound|].
    exfalso. eapply find_by_id_None; [exact Hfind|exact Hp|exact Hid].
Qed.

(** C6, on a concrete catalog: no product 99, so NotFound and no change;
    product 5 (tea, inactive) is there, so no NotFound. *)
Lemma addToCart_rejects_only_a_missing_product_witness :
  Spec.catalogReachable (Fixture.world [])
  ∧ (addToCart Fixture.customer
      {| atc_productId := RequestId.ofObjectId 99%N; atc_quantity := None |}
       (Fixture.world [])).1 = Spec.productNotFound
  ∧ carts (addToCart Fixture.customer
      {| atc_productId := RequestId.ofObjectId 99%N; atc_quantity := None |}
             (Fixture.world [])).2 = carts (Fixture.world []).
Proof.
  split; [by left|].
  apply (addToCart_rejects_only_a_missing_product Fixture.customer
           {| atc_productId := RequestId.ofObjectId 99%N; atc_quantity := None |}
           (Fixture.world [])).
  - by left.
  - intros p Hp. unfold Fixture.world in Hp. cbn [products] in Hp.
    repeat (apply elem_of_cons in Hp as [->|Hp]; [done|]).
    by apply elem_of_nil in Hp.
Defined.

(** C10 (counterexample): the cart holds one line, for tea, which the
    catalog lists as inactive.  Removing a product the cart does not hold
    succeeds and keeps the stored line, but the cart that is returned has
    no line.  And with the Product model unbound and the admin connection
    down, the same removal from a cart of apples is answered with 500. *)
Lemma removeFromCart_returns_fewer_lines :
  let cart := [Fixture.line 5%N 2%positive] in
  let w := Fixture.world cart in
  let result := removeFromCart Fixture.customer (RequestId.ofObjectId 9%N) w in
  let down :=
    {| carts := {[ Fixture.customer := [Fixture.line 1%N 2%positive] ]};
       addresses := [Fixture.home]; products := [Fixture.apple]; orders := [];
       adminReady := false; productModelBound := false |} in
  carts w !! Fixture.customer = Some cart
  ∧ (9%N ∉ (CartItem.product <$> cart))
  ∧ statusCode result.1 = 200%nat
  ∧ carts result.2 !! Fixture.customer = Some cart
  ∧ Spec.returnedLines result.1 = Some []
  ∧ Spec.returnedLines result.1 ≠ Some (Spec.linesOf cart)
  ∧ carts down !! Fixture.customer = Some [Fixture.line 1%N 2%positive]
  ∧ statusCode (removeFromCart Fixture.customer (RequestId.ofObjectId 9%N) down).1 = 500%nat.
Proof.
  cbv zeta. split; [by vm_compute|]. split.
  { cbn. set_solver. }
  repeat split; by vm_compute.
Qed.

(** Removing twice leaves the carts as removing once does, whatever the
    cart holds. *)
Lemma removeFromCart_twice (user : ObjectId) (productId : RequestId.t) (w : World) :
  carts (removeFromCart user productId (removeFromCart user productId w).2).2
  = carts (removeFromCart user productId w).2.
Proof.
  destruct (carts w !! user) as [items|] eqn:Hcart.
  - set (kept := List.filter
                   (λ item, negb (RequestId.sameString (CartItem.product item) productId))
                   items).
    assert (∀ w1, carts w1 = <[user := kept]> (carts w) →
                  carts (removeFromCart user productId w1).2 = carts w1) as Hagain.
    { intros w1 Hw1.
      assert (carts w1 !! user = Some kept) as Hcart1.
      { rewrite Hw1. apply lookup_insert_eq. }
      destruct (removeFromCart_existing user productId w1 kept Hcart1) as [Hok Hfail].
      unfold kept in Hok, Hfail. rewrite filter_again in Hok, Hfail.
      fold kept in Hok, Hfail.
      rewrite (insert_id _ _ _ Hcart1), setCarts_same in Hok, Hfail.
      destruct (catalogReachable_dec w1) as [Hreach|Hno].
      - rewrite Hok by (by left). by destruct kept.
      - destruct (decide (kept = [])) as [Hnil|Hne].
        + rewrite Hok by (by right). by rewrite Hnil.
        + by rewrite Hfail. }
    destruct (removeFromCart_existing user productId w items Hcart) as [Hok Hfail].
    fold kept in Hok, Hfail.
    destruct (catalogReachable_dec w) as [Hreach|Hno].
    + rewrite Hok by (by left). apply Hagain. by destruct kept.
    + destruct (decide (kept = [])) as [Hnil|Hne].
      * rewrite Hok by (by right). apply Hagain. by rewrite Hnil.
      * rewrite Hfail by done. by apply Hagain.
  - assert (removeFromCart user productId w = (fail 404 "Cart not found", w)) as Hrun.
    { unfold removeFromCart, respond, tryCatch, removeFromCart_body.
      rewrite (bind_run (Cart.findOne user)), findOne_run. by rewrite Hcart. }
    rewrite Hrun. cbn [snd]. by rewrite Hrun.
Qed.

(** C10 (as amended): when the customer has a cart and the product is not
    in it, removeFromCart leaves the stored cart as it was; with the
    catalog reachable (or the cart empty) it succeeds and returns, in the
    order of the cart, the lines whose product resolves to an active
    catalog product: all the lines when every product resolves; and a
    second removal answers like the first and leaves the same carts. *)
Theorem removeFromCart_of_an_absent_product (user : ObjectId) (productId : RequestId.t)
    (w : World) (items : list CartItem.t) :
  carts w !! user = Some items →
  RequestId.objectId productId ∉ (CartItem.product <$> items) →
  let first := removeFromCart user productId w in
  let second := removeFromCart user productId first.2 in
  carts first.2 = carts w
  ∧ carts second.2 = carts first.2
  ∧ (Spec.catalogReachable w ∨ items = [] →
       statusCode first.1 = 200%nat
       ∧ Spec.returnedLines first.1
         = Some (Spec.linesOf
                   (List.filter
                      (λ item, Spec.resolvesActiveb w (CartItem.product item)) items))
       ∧ (Forall (λ item, Spec.resolvesActiveb w (CartItem.product item) = true) items →
            Spec.returnedLines first.1 = Some (Spec.linesOf items))
       ∧ second.1 = first.1).
Proof.
  intros Hcart Habsent first second.
  destruct (removeFromCart_existing user productId w items Hcart) as [Hok Hfail].
  rewrite filter_absent in Hok, Hfail by done.
  rewrite (insert_id _ _ _ Hcart), setCarts_same in Hok, Hfail.
  split; [|split].
  - subst first. destruct (catalogReachable_dec w) as [Hreach|Hno].
    + rewrite Hok by (by left). by destruct items.
    + destruct (decide (items = [])) as [Hnil|Hne].
      * rewrite Hok by (by right). by rewrite Hnil.
      * by rewrite Hfail.
  - apply removeFromCart_twice.
  - intros Hreach. specialize (Hok Hreach).
    assert (Spec.returnedLines first.1
            = Some (Spec.linesOf
                      (List.filter
                         (λ item, Spec.resolvesActiveb w (CartItem.product item)) items)))
      as Hlines.
    { subst first. rewrite Hok. cbn. by rewrite populated_shows_resolving. }
    split; [subst first; by rewrite Hok|]. split; [done|]. split.
    + intros Hall. rewrite Hlines. do 2 f_equal.
      clear -Hall. induction Hall as [|item items Hitem _ IH]; [done|].
      cbn. by rewrite Hitem, IH.
    + subst second first. rewrite Hok. cbn [fst snd].
      set (w1 := if items is [] then w else bindProductModel w).
      assert (carts w1 !! user = Some items) as Hcart1.
      { subst w1. by destruct items. }
      destruct (removeFromCart_existing user productId w1 items Hcart1) as [Hok1 _].
      rewrite filter_absent in Hok1 by done.
      rewrite Hok1.
      * cbn. f_equal. subst w1. by destruct items.
      * subst w1. destruct Hreach as [Hreach | ->]; [|by right].
        left. destruct items; [exact Hreach|apply catalogReachable_bind].
Qed.

(** C10, on a concrete cart: apples and tea are in the cart, rice is not;
    removing rice keeps the cart and returns the line of apples. *)
Lemma removeFromCart_of_an_absent_product_witness :
  let cart := [Fixture.line 1%N 2%positive; Fixture.line 5%N 1%positive] in
  let w := Fixture.world cart in
  let first := removeFromCart Fixture.customer (RequestId.ofObjectId 4%N) w in
  let second := removeFromCart Fixture.customer (RequestId.ofObjectId 4%N) first.2 in
  carts w !! Fixture.customer = Some cart
  ∧ (4%N ∉ (CartItem.product <$> cart))
  ∧ carts first.2 = carts w
  ∧ carts second.2 = carts first.2
  ∧ (Spec.catalogReachable w ∨ cart = [] →
       statusCode first.1 = 200%nat
       ∧ Spec.returnedLines first.1
         = Some (Spec.linesOf
                   (List.filter
                      (λ item, Spec.resolvesActiveb w (CartItem.product item)) cart))
       ∧ (Forall (λ item, Spec.resolvesActiveb w (CartItem.product item) = true) cart →
            Spec.returnedLines first.1 = Some (Spec.linesOf cart))
       ∧ second.1 = first.1).
Proof.
  cbv zeta.
  assert (carts (Fixture.world [Fixture.line 1%N 2%positive; Fixture.line 5%N 1%positive])
            !! Fixture.customer
          = Some [Fixture.line 1%N 2%positive; Fixture.line 5%N 1%positive]) as Hcart
    by (by vm_compute).
  assert (4%N ∉ (CartItem.product <$>
                   [Fixture.line 1%N 2%positive; Fixture.line 5%N 1%positive]))
    as Habsent by (apply (bool_decide_unpack _); by vm_compute).
  split; [exact Hcart|]. split; [exact Habsent|].
  exact (removeFromCart_of_an_absent_product Fixture.customer (RequestId.ofObjectId 4%N)
           _ _ Hcart Habsent).
Defined.

(** ** Order creation *)

Section OrderLines.

Variable productMap : gmap ObjectId Product.t.

Lemma acceptedBy_dec (item : CartItem.t) :
  Spec.acceptedBy productMap item ∨ ¬ Spec.acceptedBy productMap item.
Proof.
  unfold Spec.acceptedBy.
  destruct (productMap !! CartItem.product item) as [p|]; [|right; naive_solver].
  destruct (decide (Z.pos (CartItem.quantity item) ≤ availableStock p));
    [left; by exists p|right]. intros (q & [= <-] & Hq). done.
Qed.

(** The loop goes through the lines it accepts. *)
Lemma orderLines_accepted (items : list CartItem.t) :
  Forall (Spec.acceptedBy productMap) items →
  ∀ subtotal orderItems w,
    orderLines productMap items subtotal orderItems w
    = (Done (Spec.addedUp subtotal (Spec.pushedFor productMap items),
             orderItems ++ Spec.pushedFor productMap items), w).
Proof.
  induction 1 as [|item items (p & Hp & Hstock) _ IH]; intros subtotal orderItems w.
  - cbn. by rewrite app_nil_r.
  - cbn [orderLines Spec.pushedFor omap list_omap]. rewrite Hp. cbn [mbind option_bind].
    apply Z.ltb_ge in Hstock. rewrite Hstock.
    rewrite IH. unfold Spec.pushedFor, orderItemOf. cbn. by rewrite <- app_assoc.
Qed.

(** The loop stops at the first line it does not accept. *)
Lemma orderLines_rejected (before after : list CartItem.t) (item : CartItem.t) :
  Forall (Spec.acceptedBy productMap) before →
  ¬ Spec.acceptedBy productMap item →
  ∀ subtotal orderItems w,
    orderLines productMap (before ++ item :: after) subtotal orderItems w
    = (Reply (Spec.rejection productMap item), w).
Proof.
  intros Hbefore Hitem.
  induction Hbefore as [|first before (p & Hp & Hstock) _ IH];
    intros subtotal orderItems w.
  - cbn [app orderLines]. unfold Spec.rejection, Spec.acceptedBy in *.
    destruct (productMap !! CartItem.product item) as [p|]; [|done].
    destruct (availableStock p <? _) eqn:Hstock; [done|].
    apply Z.ltb_ge in Hstock. destruct Hitem. by exists p.
  - cbn [app orderLines]. rewrite Hp. apply Z.ltb_ge in Hstock. rewrite Hstock.
    apply IH.
Qed.

(** Every cart is accepted as a whole or has a first line that is not. *)
Lemma first_rejected (items : list CartItem.t) :
  Forall (Spec.acceptedBy productMap) items
  ∨ ∃ before item after,
      items = before ++ item :: after
      ∧ Forall (Spec.acceptedBy productMap) before
      ∧ ¬ Spec.acceptedBy productMap item.
Proof.
  induction items as [|item items IH]; [by left|].
  destruct (acceptedBy_dec item) as [Hitem|Hitem].
  - destruct IH as [Hall|(before & bad & after & -> & Hbefore & Hbad)].
    + left. by constructor.
    + right. exists (item :: before), bad, after.
      split; [done|]. split; [by constructor|done].
  - right. by exists [], item, items.
Qed.

Lemma pushedFor_accepted (items : list CartItem.t) :
  Forall (Spec.acceptedBy productMap) items →
  Forall2 (λ item oi,
             ∃ p, productMap !! CartItem.product item = Some p
                  ∧ Z.pos (CartItem.quantity item) ≤ availableStock p
                  ∧ oi = orderItemOf p (Z.pos (CartItem.quantity item)))
    items (Spec.pushedFor productMap items).
Proof.
  induction 1 as [|item items (p & Hp & Hstock) _ IH]; [constructor|].
  cbn [Spec.pushedFor omap list_omap]. rewrite Hp. cbn [mbind option_bind].
  constructor; [by exists p|done].
Qed.

End OrderLines.

Section Totals.

Lemma validate_fields (draft : AdminOrder.Draft) (order : AdminOrder.t) :
  AdminOrder.validate draft = Some order →
  AdminOrder.orderNumber order = AdminOrder.d_orderNumber draft
  ∧ AdminOrder.customer order = AdminOrder.d_customer draft
  ∧ AdminOrder.items order = AdminOrder.d_items draft
  ∧ AdminOrder.subtotal order = AdminOrder.d_subtotal draft
  ∧ AdminOrder.tax order = AdminOrder.d_tax draft
  ∧ AdminOrder.shipping order = AdminOrder.d_shipping draft
  ∧ AdminOrder.total order = AdminOrder.d_total draft
  ∧ AdminOrder.status order = AdminOrder.d_status draft
  ∧ JS.VStr (AdminOrder.paymentMethod order) = AdminOrder.d_paymentMethod draft
  ∧ JS.VStr (AdminOrder.paymentStatus order) = AdminOrder.d_paymentStatus draft.
Proof.
  unfold AdminOrder.validate, AdminOrder.enumString. case_match; [|done].
  destruct (AdminOrder.d_paymentMethod draft) as [pm| |]; [|done..].
  destruct (bool_decide (pm ∈ AdminOrder.paymentMethodEnum)); [|done].
  destruct (AdminOrder.d_paymentStatus draft) as [ps| |]; [|done..].
  destruct (bool_decide (ps ∈ AdminOrder.paymentStatusEnum)); [|done].
  cbn [mbind option_bind]. by intros [= <-].
Qed.

End Totals.

Section Placing.

Context (env : Env) (user : ObjectId) (method : string) (address : Address.t).

(** The write either throws and changes nothing, or appends the
    validated document under an order number that was not there. *)
Lemma AdminOrder_create_cases (draft : AdminOrder.Draft) (w : World) :
  (∃ e, AdminOrder_create env draft w = (Throw e, w))
  ∨ (adminReady w = true ∧ orderWriteFault env = None
     ∧ ∃ order,
         AdminOrder.validate draft = Some order
         ∧ (AdminOrder.orderNumber order ∉ (AdminOrder.orderNumber <$> orders w))
         ∧ AdminOrder_create env draft w
           = (Done order, setOrders (orders w ++ [order]) w)).
Proof.
  unfold AdminOrder_create.
  destruct (adminReady w); [|left; by eexists].
  destruct (orderWriteFault env); [left; by eexists|].
  destruct (AdminOrder.validate draft) as [order|]; [|left; by eexists].
  case_bool_decide; [left; by eexists|].
  right. repeat split; try done. by exists order.
Qed.

(** The loop stops at a line: createOrder answers with its rejection. *)
Lemma createOrder_place_rejected (found : list Product.t)
    (before after : list CartItem.t) (item : CartItem.t) (w : World) :
  Forall (Spec.acceptedBy (buildProductMap found)) before →
  ¬ Spec.acceptedBy (buildProductMap found) item →
  createOrder_place env user method address (before ++ item :: after) found w
  = (Reply (Spec.rejection (buildProductMap found) item), w).
Proof.
  intros Hbefore Hitem. unfold createOrder_place. cbv zeta.
  rewrite (bind_run (orderLines _ _ _ _)).
  by rewrite orderLines_rejected.
Qed.

(** The loop accepts every line, the admin connection is not ready. *)
Lemma createOrder_place_not_ready (found : list Product.t) (items : list CartItem.t)
    (w : World) :
  Forall (Spec.acceptedBy (buildProductMap found)) items →
  adminReady w = false →
  createOrder_place env user method address items found w
  = (Reply Spec.serviceUnavailable, w).
Proof.
  intros Hitems Hready. unfold createOrder_place. cbv zeta.
  rewrite (bind_run (orderLines _ _ _ _)).
  rewrite orderLines_accepted by done. cbv beta iota.
  rewrite (bind_run getWorld). unfold getWorld. cbv beta iota.
  by rewrite Hready.
Qed.

(** The loop accepts every line, the admin connection is ready: the
    answer follows the write. *)
Lemma createOrder_place_ready (found : list Product.t) (items : list CartItem.t)
    (w : World) :
  Forall (Spec.acceptedBy (buildProductMap found)) items →
  adminReady w = true →
  createOrder_place env user method address items found w
  = match AdminOrder_create env
            (Spec.draftFor env user method address (buildProductMap found) items) w
    with
    | (Done order, w') =>
        (Done {| statusCode := 201;
                 body := OrderBody
                           (orderResponseOf order
                              (Spec.pushedFor (buildProductMap found) items)
                              address method) |},
         setCarts (<[user := []]> (carts w')) w')
    | (Reply r, w') => (Reply r, w')
    | (Throw e, w') => (Reply (Spec.writeFailed e), w')
    end.
Proof.
  intros Hitems Hready. unfold createOrder_place. cbv zeta.
  rewrite (bind_run (orderLines _ _ _ _)).
  rewrite orderLines_accepted by done. cbv beta iota.
  rewrite (bind_run getWorld). unfold getWorld. cbv beta iota.
  rewrite Hready. cbn [negb]. unfold tryCatch.
  rewrite (bind_run (AdminOrder_create _ _)).
  rewrite app_nil_l. fold (Spec.draftFor env user method address (buildProductMap found) items).
  destruct (AdminOrder_create env _ w) as [[order|r|e] w']; [|done..].
  rewrite (bind_run (Cart.save _ _)). unfold Cart.save. cbn [Cart.validate mapM].
  done.
Qed.

End Placing.

Section CreateOrder.

Context (env : Env) (user : ObjectId).

Lemma rejection_isError (productMap : gmap ObjectId Product.t) (item : CartItem.t) :
  Spec.isError (Spec.rejection productMap item).
Proof.
  unfold Spec.rejection, Spec.isError.
  destruct (productMap !! _); cbn; split; by eauto.
Qed.

Lemma fail_isError (code : nat) (text : string) :
  code ≠ 201%nat → Spec.isError (fail code text).
Proof. intros Hcode. split; [done|by eexists]. Qed.

(** Past the checks on the request, the cart, the address and the
    catalog, createOrder is its second half run on the bound model. *)
Lemma createOrder_reaches_place (req : CreateOrderBody) (w : World) (id : ObjectId)
    (method : string) (items : list CartItem.t) (address : Address.t) :
  addressId req = Some id → paymentMethod req = Some method → method ≠ "" →
  (method = "razorpay" →
     missing (razorpayOrderId req) = false ∧ missing (razorpayPaymentId req) = false) →
  carts w !! user = Some items → items ≠ [] →
  List.find (λ a, N.eqb (Address._id a) id && N.eqb (Address.user a) user)
    (addresses w) = Some address →
  Spec.catalogReachable w →
  createOrder env user req w
  = respond
      (tryCatch
         (createOrder_place env user method address items
            (activeProducts (CartItem.product <$> items) (products w)))
         createOrderCatch)
      (bindProductModel w).
Proof.
  intros Hid Hmethod Hne Hrazorpay Hcart Hitems Haddress Hreach.
  unfold createOrder, respond, tryCatch, createOrder_body.
  rewrite Hid, Hmethod.
  destruct (String.eqb_spec method "") as [->|_]; [done|].
  assert (String.eqb method "razorpay"
          && (missing (razorpayOrderId req) || missing (razorpayPaymentId req))
          = false) as ->.
  { destruct (String.eqb_spec method "razorpay") as [Heq|_]; [|done].
    destruct (Hrazorpay Heq) as [-> ->]. done. }
  rewrite (bind_run (Cart.findOne user)), findOne_run. cbv beta iota. rewrite Hcart.
  destruct items as [|item items]; [done|].
  rewrite (bind_run getWorld). unfold getWorld at 1. cbv beta iota. rewrite Haddress.
  rewrite (bind_run (Product_findActive _)).
  by rewrite Product_findActive_reachable.
Qed.

(** Every run of createOrder either answers with an error and leaves
    carts and orders as they were, or places an order. *)
Lemma createOrder_outcome (req : CreateOrderBody) (w : World) :
  let r := createOrder env user req w in
  (Spec.isError r.1 ∧ carts r.2 = carts w ∧ orders r.2 = orders w)
  ∨ Spec.placed env user req w r.
Proof.
  intros r.
  destruct (addressId req) as [id|] eqn:Hid.
  2:{ left. subst r. unfold createOrder, respond, tryCatch, createOrder_body.
      rewrite Hid. cbn. by split; [apply fail_isError|]. }
  destruct (paymentMethod req) as [method|] eqn:Hmethod.
  2:{ left. subst r. unfold createOrder, respond, tryCatch, createOrder_body.
      rewrite Hid, Hmethod. cbn. by split; [apply fail_isError|]. }
  destruct (String.eqb method "") eqn:Hempty.
  { left. subst r. unfold createOrder, respond, tryCatch, createOrder_body.
    rewrite Hid, Hmethod, Hempty. cbn. by split; [apply fail_isError|]. }
  destruct (String.eqb method "razorpay"
            && (missing (razorpayOrderId req) || missing (razorpayPaymentId req)))
    eqn:Hrazorpay.
  { left. subst r. unfold createOrder, respond, tryCatch, createOrder_body.
    rewrite Hid, Hmethod, Hempty, Hrazorpay. cbn. by split; [apply fail_isError|]. }
  assert (∀ items, carts w !! user = Some items → items ≠ [] →
            createOrder env user req w
            = match List.find (λ a, N.eqb (Address._id a) id
                                    && N.eqb (Address.user a) user) (addresses w) with
              | None => (fail 404 "Address not found", w)
              | Some address =>
                  respond
                    (tryCatch
                       (found ← Product_findActive (CartItem.product <$> items);
                        createOrder_place env user method address items found)
                       createOrderCatch) w
              end) as Hpast.
  { intros items Hcart Hitems.
    unfold createOrder, respond, tryCatch, createOrder_body.
    rewrite Hid, Hmethod, Hempty, Hrazorpay.
    rewrite (bind_run (Cart.findOne user)), findOne_run. cbv beta iota. rewrite Hcart.
    destruct items as [|item items]; [done|].
    rewrite (bind_run getWorld). unfold getWorld at 1. cbv beta iota.
    by destruct (List.find _ (addresses w)). }
  destruct (carts w !! user) as [items|] eqn:Hcart.
  2:{ left. subst r. unfold createOrder, respond, tryCatch, createOrder_body.
      rewrite Hid, Hmethod, Hempty, Hrazorpay.
      rewrite (bind_run (Cart.findOne user)), findOne_run. cbv beta iota.
      rewrite Hcart. cbn. by split; [apply fail_isError|]. }
  destruct (decide (items = [])) as [->|Hitems].
  { left. subst r. unfold createOrder, respond, tryCatch, createOrder_body.
    rewrite Hid, Hmethod, Hempty, Hrazorpay.
    rewrite (bind_run (Cart.findOne user)), findOne_run. cbv beta iota.
    rewrite Hcart. cbn. by split; [apply fail_isError|]. }
  specialize (Hpast items eq_refl Hitems).
  destruct (List.find _ (addresses w)) as [address|] eqn:Haddress.
  2:{ left. subst r. rewrite Hpast. cbn. by split; [apply fail_isError|]. }
  destruct (catalogReachable_dec w) as [Hreach|Hno].
  2:{ left. subst r. rewrite Hpast. unfold respond, tryCatch.
      rewrite (bind_run (Product_findActive _)).
      rewrite Product_findActive_unreachable by done. cbn.
      split; [|done]. split; [done|by eexists]. }
  subst r. rewrite Hpast. unfold respond, tryCatch.
  rewrite (bind_run (Product_findActive _)).
  rewrite Product_findActive_reachable by done. cbv beta iota.
  fold (Spec.productMapOf w items).
  set (found := activeProducts _ _).
  destruct (first_rejected (buildProductMap found) items)
    as [Hall|(before & item & after & -> & Hbefore & Hitem)].
  2:{ left. rewrite createOrder_place_rejected by done. cbn.
      split; [apply rejection_isError|done]. }
  destruct (adminReady w) eqn:Hready.
  2:{ left. rewrite createOrder_place_not_ready by done. cbn.
      by split; [apply fail_isError|]. }
  rewrite createOrder_place_ready by done.
  destruct (AdminOrder_create_cases env
              (Spec.draftFor env user method address (buildProductMap found) items)
              (bindProductModel w))
    as [[e ->]|(_ & Hfault & order & Hvalid & Hfresh & ->)].
  { left. cbn. split; [|done]. split; [done|by eexists]. }
  right. exists id, method, items, address, order.
  cbn. by repeat split.
Qed.

End CreateOrder.

Section PlacedOrders.

Context (env : Env) (user : ObjectId) (req : CreateOrderBody) (w : World).

(** An order that createOrder has added to the store is the validated
    draft of the customer's cart. *)
Lemma createOrder_added_order (order : AdminOrder.t) :
  orders (createOrder env user req w).2 = orders w ++ [order] →
  ∃ method items address,
    carts w !! user = Some items
    ∧ Forall (Spec.lineAccepted w items) items
    ∧ AdminOrder.validate
        (Spec.draftFor env user method address (Spec.productMapOf w items) items)
      = Some order
    ∧ statusCode (createOrder env user req w).1 = 201%nat
    ∧ carts (createOrder env user req w).2 = <[user := []]> (carts w).
Proof.
  intros Hadded.
  destruct (createOrder_outcome env user req w) as [(_ & _ & Hsame)|Hplaced].
  - rewrite Hsame in Hadded. apply (f_equal length) in Hadded.
    rewrite length_app in Hadded. cbn in Hadded. lia.
  - destruct Hplaced as (id & method & items & address & placed & _ & _ & Hcart & _
                         & _ & Hall & _ & _ & Hvalid & _ & Hresp & Horders & Hcarts).
    rewrite Horders in Hadded. apply app_inj_tail in Hadded as [_ ->].
    exists method, items, address. rewrite Hresp. by repeat split.
Qed.

(** A snapshot in the product map of a cart is an active product of the
    catalog, filed under its own reference. *)
Lemma snapshot_active (items : list CartItem.t) (k : ObjectId) (p : Product.t) :
  Spec.snapshot w items k = Some p →
  p ∈ products w ∧ Product._id p = k ∧ Product.status p = Product.ACTIVE.
Proof.
  intros Hp. apply buildProductMap_lookup in Hp as [Hp Hid].
  apply elem_of_activeProducts in Hp as (Hcat & _ & Hactive).
  repeat split; try done. unfold Product.isActive in Hactive.
  by destruct (Product.status p).
Qed.

Lemma lineAccepted_resolves (items : list CartItem.t) (item : CartItem.t) :
  Spec.lineAccepted w items item → Spec.resolvesActive w (CartItem.product item).
Proof.
  intros (p & Hp & _). apply snapshot_active in Hp as (Hcat & Hid & Hstatus).
  exists p. repeat split; try done. unfold Product.isActive. by rewrite Hstatus.
Qed.

End PlacedOrders.

(** C1 (counterexample): the cart holds a line for a product the catalog
    does not know, then five soaps where three are in stock.  The request
    is complete and the address is the customer's.  The second line fails
    stock validation, but the answer is "Product not found for item in
    cart", which is no StockConflict.  The same cart is answered "Address
    and payment method required" when the request names no address,
    "Address not found" when it names the address of somebody else, and
    with 500 while the Product model cannot be reached. *)
Lemma createOrder_answers_the_first_failing_line :
  let cart := [Fixture.line 9%N 1%positive; Fixture.line 2%N 5%positive] in
  let w := Fixture.world cart in
  let r := createOrder Fixture.env Fixture.customer Fixture.cod w in
  let noAddress :=
    {| addressId := None; paymentMethod := Some "cod";
       razorpayOrderId := None; razorpayPaymentId := None |} in
  carts w !! Fixture.customer = Some cart
  ∧ Fixture.line 2%N 5%positive ∈ cart
  ∧ Spec.failsStockValidation w (Fixture.line 2%N 5%positive)
  ∧ r.1 = fail 400 "Product not found for item in cart"
  ∧ (∀ productName, r.1 ≠ Spec.stockConflict productName)
  ∧ (createOrder Fixture.env Fixture.customer noAddress w).1
    = fail 400 "Address and payment method required"
  ∧ (∀ productName,
       (createOrder Fixture.env Fixture.customer noAddress w).1
       ≠ Spec.stockConflict productName)
  ∧ (createOrder Fixture.env Fixture.customer (Fixture.codTo 51%N) w).1
    = fail 404 "Address not found"
  ∧ (createOrder Fixture.env Fixture.customer Fixture.cod (Fixture.worldUnbound cart)).1
    = Spec.writeFailed ProductModelNotEstablished.
Proof.
  cbv zeta. split; [by vm_compute|]. split; [set_solver|]. split.
  { exists Fixture.soap. split; [unfold Fixture.world; cbn; set_solver|].
    by vm_compute. }
  split; [by vm_compute|]. split.
  { intros productName Heq. vm_compute in Heq. by injection Heq. }
  split; [by vm_compute|]. split.
  { intros productName Heq. vm_compute in Heq. by injection Heq. }
  split; by vm_compute.
Qed.

(** C1 (as amended): when the request, the cart and the address pass
    their checks and the catalog is reachable, and the first line that
    createOrder does not accept has its product in the product map with
    less stock than the line asks for, the answer is StockConflict for
    that product and carts and orders are as before.  In every run, the
    carts change only when an order has been added to the store: a write
    that fails, and any other error, leaves every cart untouched. *)
Theorem createOrder_stock_conflict_and_cart_clearing (env : Env) (user : ObjectId)
    (req : CreateOrderBody) (w : World) :
  let r := createOrder env user req w in
  (∀ before item after product,
     Spec.requestAccepted req → Spec.addressFound w user req →
     Spec.catalogReachable w →
     carts w !! user = Some (before ++ item :: after) →
     Forall (Spec.lineAccepted w (before ++ item :: after)) before →
     Spec.snapshot w (before ++ item :: after) (CartItem.product item) = Some product →
     availableStock product < Z.pos (CartItem.quantity item) →
     r.1 = Spec.stockConflict (Product.name product)
     ∧ carts r.2 = carts w ∧ orders r.2 = orders w)
  ∧ (orders r.2 = orders w → carts r.2 = carts w)
  ∧ (carts r.2 ≠ carts w →
       statusCode r.1 = 201%nat ∧ ∃ order, orders r.2 = orders w ++ [order])
  ∧ (Spec.isError r.1 → carts r.2 = carts w ∧ orders r.2 = orders w)
  ∧ (∀ message, orderWriteFault env = Some message →
       Spec.isError r.1 ∧ carts r.2 = carts w ∧ orders r.2 = orders w).
Proof.
  intros r. split; [|split; [|split; [|split]]].
  - intros before item after product (Hid & method & Hmethod & Hne & Hrazorpay)
      (id & address & Hid' & Haddress) Hreach Hcart Hbefore Hsnapshot Hstock.
    subst r.
    rewrite (createOrder_reaches_place env user req w id method
               (before ++ item :: after) address) by (done || by destruct before).
    unfold respond, tryCatch.
    rewrite createOrder_place_rejected.
    + cbn [fst snd carts orders bindProductModel]. split; [|done].
      unfold Spec.rejection, Spec.stockConflict.
      unfold Spec.snapshot, Spec.productMapOf in Hsnapshot. by rewrite Hsnapshot.
    + exact Hbefore.
    + intros (p & Hp & Hle). unfold Spec.snapshot, Spec.productMapOf in Hsnapshot.
      rewrite Hsnapshot in Hp. injection Hp as <-. lia.
  - intros Hsame.
    destruct (createOrder_outcome env user req w) as [(_ & Hcarts & _)|Hplaced]; [done|].
    destruct Hplaced as (id & method & items & address & order & _ & _ & _ & _ & _ & _
                         & _ & _ & _ & _ & _ & Horders & _).
    fold r in Horders. rewrite Horders in Hsame. apply (f_equal length) in Hsame.
    rewrite length_app in Hsame. cbn in Hsame. lia.
  - intros Hchanged.
    destruct (createOrder_outcome env user req w) as [(_ & Hcarts & _)|Hplaced]; [done|].
    destruct Hplaced as (id & method & items & address & order & _ & _ & _ & _ & _ & _
                         & _ & _ & _ & _ & Hresp & Horders & _).
    fold r in Hresp, Horders. rewrite Hresp. split; [done|by exists order].
  - intros [Hcode _].
    destruct (createOrder_outcome env user req w) as [(_ & Hcarts & Horders)|Hplaced];
      [done|].
    destruct Hplaced as (id & method & items & address & order & _ & _ & _ & _ & _ & _
                         & _ & _ & _ & _ & Hresp & _).
    fold r in Hresp. by rewrite Hresp in Hcode.
  - intros message Hfault.
    destruct (createOrder_outcome env user req w) as [Herror|Hplaced]; [done|].
    destruct Hplaced as (id & method & items & address & order & _ & _ & _ & _ & _ & _
                         & _ & Hnone & _).
    by rewrite Hnone in Hfault.
Qed.

(** C1, on a concrete cart: two apples pass, five soaps do not (three in
    stock): StockConflict for Soap, nothing written, the cart kept. *)
Lemma createOrder_stock_conflict_and_cart_clearing_witness :
  let cart := [Fixture.line 1%N 2%positive; Fixture.line 2%N 5%positive] in
  let w := Fixture.world cart in
  let r := createOrder Fixture.env Fixture.customer Fixture.cod w in
  r.1 = Spec.stockConflict "Soap" ∧ carts r.2 = carts w ∧ orders r.2 = orders w.
Proof.
  cbv zeta.
  refine (proj1 (createOrder_stock_conflict_and_cart_clearing Fixture.env
                   Fixture.customer Fixture.cod
                   (Fixture.world [Fixture.line 1%N 2%positive; Fixture.line 2%N 5%positive]))
            [Fixture.line 1%N 2%positive] (Fixture.line 2%N 5%positive) [] Fixture.soap
            _ _ _ _ _ _ _).
  - split; [by eexists|]. exists "cod". by repeat split.
  - exists 50%N, Fixture.home. split; [done|by vm_compute].
  - by left.
  - by vm_compute.
  - constructor; [|constructor]. exists Fixture.apple. split; [by vm_compute|].
    by vm_compute.
  - by vm_compute.
  - by vm_compute.
Defined.

(** C9 (counterexample): the admin connection is down.  A request
    without an address is answered "Address and payment method required"
    (400), a complete request on an empty cart "Cart is empty" (400), one
    on a cart with an unknown product "Product not found for item in
    cart" (400), and one made before the Product model was bound is
    answered with 500: none of these is the service-unavailable answer. *)
Lemma createOrder_not_ready_answers_an_earlier_check :
  let w := Fixture.worldNotReady [Fixture.line 1%N 2%positive] in
  let noAddress :=
    {| addressId := None; paymentMethod := Some "cod";
       razorpayOrderId := None; razorpayPaymentId := None |} in
  adminReady w = false
  ∧ (createOrder Fixture.env Fixture.customer noAddress w).1
    = fail 400 "Address and payment method required"
  ∧ (createOrder Fixture.env Fixture.customer noAddress w).1 ≠ Spec.serviceUnavailable
  ∧ adminReady (Fixture.worldNotReady []) = false
  ∧ (createOrder Fixture.env Fixture.customer Fixture.cod (Fixture.worldNotReady [])).1
    = fail 400 "Cart is empty"
  ∧ (createOrder Fixture.env Fixture.customer Fixture.cod (Fixture.worldNotReady [])).1
    ≠ Spec.serviceUnavailable
  ∧ (createOrder Fixture.env Fixture.customer Fixture.cod
       (Fixture.worldNotReady [Fixture.line 9%N 1%positive])).1
    = fail 400 "Product not found for item in cart"
  ∧ adminReady (Fixture.worldUnbound [Fixture.line 1%N 2%positive]) = false
  ∧ (createOrder Fixture.env Fixture.customer Fixture.cod
       (Fixture.worldUnbound [Fixture.line 1%N 2%positive])).1
    = Spec.writeFailed ProductModelNotEstablished.
Proof. cbv zeta. repeat split; by vm_compute. Qed.

(** C9 (as amended): while the admin connection is not ready, every run
    of createOrder ends in an error, writes no order and leaves every cart
    as it was; and when the request, the cart, the address and every cart
    line pass their checks, with the catalog reachable, that error is the
    service-unavailable answer (503). *)
Theorem createOrder_while_the_order_store_is_not_ready (env : Env) (user : ObjectId)
    (req : CreateOrderBody) (w : World) :
  adminReady w = false →
  let r := createOrder env user req w in
  Spec.isError r.1 ∧ orders r.2 = orders w ∧ carts r.2 = carts w
  ∧ (∀ items,
       Spec.requestAccepted req → Spec.addressFound w user req →
       carts w !! user = Some items → items ≠ [] →
       Spec.catalogReachable w →
       Forall (Spec.lineAccepted w items) items →
       r.1 = Spec.serviceUnavailable).
Proof.
  intros Hready r. split; [|split; [|split]].
  - destruct (createOrder_outcome env user req w) as [(Herror & _)|Hplaced]; [done|].
    destruct Hplaced as (id & method & items & address & order & _ & _ & _ & _ & _ & _
                         & Hready' & _).
    by rewrite Hready in Hready'.
  - destruct (createOrder_outcome env user req w) as [(_ & _ & Horders)|Hplaced]; [done|].
    destruct Hplaced as (id & method & items & address & order & _ & _ & _ & _ & _ & _
                         & Hready' & _).
    by rewrite Hready in Hready'.
  - destruct (createOrder_outcome env user req w) as [(_ & Hcarts & _)|Hplaced]; [done|].
    destruct Hplaced as (id & method & items & address & order & _ & _ & _ & _ & _ & _
                         & Hready' & _).
    by rewrite Hready in Hready'.
  - intros items (Hid & method & Hmethod & Hne & Hrazorpay)
      (id & address & Hid' & Haddress) Hcart Hitems Hreach Hall.
    subst r.
    rewrite (createOrder_reaches_place env user req w id method items address) by done.
    unfold respond, tryCatch.
    by rewrite createOrder_place_not_ready.
Qed.

(** C9, on a concrete run: two apples in the cart, a complete request,
    the admin connection down: 503, no order, the cart kept. *)
Lemma createOrder_while_the_order_store_is_not_ready_witness :
  let w := Fixture.worldNotReady [Fixture.line 1%N 2%positive] in
  let r := createOrder Fixture.env Fixture.customer Fixture.cod w in
  adminReady w = false
  ∧ r.1 = Spec.serviceUnavailable
  ∧ Spec.isError r.1 ∧ orders r.2 = orders w ∧ carts r.2 = carts w.
Proof.
  cbv zeta.
  pose proof (createOrder_while_the_order_store_is_not_ready Fixture.env
                Fixture.customer Fixture.cod
                (Fixture.worldNotReady [Fixture.line 1%N 2%positive]) eq_refl)
    as (Herror & Horders & Hcarts & Hunavailable).
  split; [done|]. split; [|done].
  apply (Hunavailable [Fixture.line 1%N 2%positive]).
  - split; [by eexists|]. exists "cod". by repeat split.
  - exists 50%N, Fixture.home. split; [done|by vm_compute].
  - by vm_compute.
  - done.
  - by left.
  - constructor; [|constructor]. exists Fixture.apple. split; by vm_compute.
Defined.

(** Documents with pairwise distinct ids are told apart by their id. *)
Lemma unique_by_id (catalog : list Product.t) (p q : Product.t) :
  NoDup (Product._id <$> catalog) → p ∈ catalog → q ∈ catalog →
  Product._id p = Product._id q → p = q.
Proof.
  induction catalog as [|d catalog IH]; cbn; intros Hunique Hp Hq Hid.
  - by apply elem_of_nil in Hp.
  - apply NoDup_cons in Hunique as [Hd Hunique].
    apply elem_of_cons in Hp as [->|Hp]; apply elem_of_cons in Hq as [->|Hq].
    + done.
    + destruct Hd. rewrite Hid. by apply list_elem_of_fmap_2.
    + destruct Hd. rewrite <- Hid. by apply list_elem_of_fmap_2.
    + by apply IH.
Qed.

(** C8: a cart line whose product does not resolve to an active catalog
    product makes createOrder fail: the answer is an error, no order is
    written, the carts are as before.  And every line of an order that
    createOrder has written carries the name and the price of an active
    product of the catalog; with ids unique in the catalog, the product of
    an order line is therefore never an unavailable (or inactive) one. *)
Theorem createOrder_unresolved_line_is_a_hard_failure (env : Env) (user : ObjectId)
    (req : CreateOrderBody) (w : World) :
  let r := createOrder env user req w in
  (∀ items item,
     carts w !! user = Some items → item ∈ items →
     ¬ Spec.resolvesActive w (CartItem.product item) →
     Spec.isError r.1 ∧ orders r.2 = orders w ∧ carts r.2 = carts w)
  ∧ (∀ order line,
       orders r.2 = orders w ++ [order] → line ∈ AdminOrder.items order →
       ∃ p, p ∈ products w ∧ Product._id p = AdminOrder.product line
            ∧ Product.status p = Product.ACTIVE
            ∧ AdminOrder.name line = Product.name p
            ∧ AdminOrder.price line = Product.price p)
  ∧ (NoDup (Product._id <$> products w) →
     ∀ order line q,
       orders r.2 = orders w ++ [order] → line ∈ AdminOrder.items order →
       q ∈ products w → Product._id q = AdminOrder.product line →
       Product.status q = Product.ACTIVE ∧ Product.status q ≠ Product.UNAVAILABLE).
Proof.
  intros r.
  assert (∀ order line,
            orders r.2 = orders w ++ [order] → line ∈ AdminOrder.items order →
            ∃ p, p ∈ products w ∧ Product._id p = AdminOrder.product line
                 ∧ Product.status p = Product.ACTIVE
                 ∧ AdminOrder.name line = Product.name p
                 ∧ AdminOrder.price line = Product.price p) as Hwritten.
  { intros order line Hadded Hline. subst r.
    apply createOrder_added_order in Hadded
      as (method & items & address & _ & Hall & Hvalid & _).
    apply validate_fields in Hvalid as (_ & _ & Hitems & _).
    rewrite Hitems in Hline. cbn in Hline.
    apply list_elem_of_fmap in Hline as (pushed & -> & Hpushed).
    apply pushedFor_accepted in Hall.
    apply list_elem_of_lookup in Hpushed as [i Hi].
    destruct (Forall2_lookup_r _ _ _ _ _ Hall Hi) as (item & _ & p & Hp & _ & ->).
    apply snapshot_active in Hp as (Hcat & Hid & Hstatus).
    by exists p. }
  split; [|split; [exact Hwritten|]].
  - intros items item Hcart Hitem Hunresolved.
    destruct (createOrder_outcome env user req w) as [(Herror & Hcarts & Horders)|Hplaced];
      [done|].
    destruct Hplaced as (id & method & items' & address & order & _ & _ & Hcart' & _ & _
                         & Hall & _).
    rewrite Hcart in Hcart'. injection Hcart' as <-.
    destruct Hunresolved. eapply lineAccepted_resolves.
    eapply Forall_forall in Hall; [exact Hall|exact Hitem].
  - intros Hunique order line q Hadded Hline Hq Hid.
    destruct (Hwritten order line Hadded Hline) as (p & Hp & Hpid & Hstatus & _).
    assert (p = q) as <-.
    { apply (unique_by_id (products w)); [done..|]. by rewrite Hpid, Hid. }
    by rewrite Hstatus.
Qed.

(** C8, on a concrete cart: milk is listed as unavailable, so a cart of
    apples and milk is refused and nothing is written. *)
Lemma createOrder_unresolved_line_is_a_hard_failure_witness :
  let cart := [Fixture.line 1%N 2%positive; Fixture.line 3%N 1%positive] in
  let w := Fixture.world cart in
  let r := createOrder Fixture.env Fixture.customer Fixture.cod w in
  Product.status Fixture.milk = Product.UNAVAILABLE
  ∧ ¬ Spec.resolvesActive w 3%N
  ∧ Spec.isError r.1 ∧ orders r.2 = orders w ∧ carts r.2 = carts w.
Proof.
  cbv zeta.
  assert (¬ Spec.resolvesActive
              (Fixture.world [Fixture.line 1%N 2%positive; Fixture.line 3%N 1%positive])
              3%N) as Hunresolved.
  { intros (p & Hp & Hid & Hactive). unfold Fixture.world in Hp. cbn [products] in Hp.
    repeat (apply elem_of_cons in Hp as [->|Hp]; [done|]).
    by apply elem_of_nil in Hp. }
  split; [done|]. split; [exact Hunresolved|].
  refine (proj1 (createOrder_unresolved_line_is_a_hard_failure Fixture.env
                   Fixture.customer Fixture.cod
                   (Fixture.world [Fixture.line 1%N 2%positive; Fixture.line 3%N 1%positive]))
            [Fixture.line 1%N 2%positive; Fixture.line 3%N 1%positive]
            (Fixture.line 3%N 1%positive) _ _ Hunresolved).
  - by vm_compute.
  - apply elem_of_cons. right. apply elem_of_cons. by left.
Defined.

(** C4 (counterexample): two attempts in the same millisecond whose
    random draws differ but share their first six digits get the same
    order number; the second attempt, by another customer, is then
    refused by the unique index and answered with 500. *)
Lemma order_numbers_of_two_attempts_coincide :
  let first := createOrder Fixture.env Fixture.customer Fixture.cod Fixture.twoCustomers in
  let second :=
    createOrder Fixture.envAgain Fixture.neighbour (Fixture.codTo 51%N) first.2 in
  now Fixture.env = now Fixture.envAgain
  ∧ random36 Fixture.env ≠ random36 Fixture.envAgain
  ∧ orderNumberOf (now Fixture.env) (random36 Fixture.env) = "ORD-1700000000000-4FZYO8"
  ∧ orderNumberOf (now Fixture.envAgain) (random36 Fixture.envAgain)
    = orderNumberOf (now Fixture.env) (random36 Fixture.env)
  ∧ statusCode first.1 = 201%nat
  ∧ AdminOrder.orderNumber <$> orders first.2 = ["ORD-1700000000000-4FZYO8"]
  ∧ second.1 = Spec.writeFailed DuplicateOrderNumber
  ∧ orders second.2 = orders first.2.
Proof. cbv zeta. repeat split; by vm_compute. Qed.

(** The unique index at work: createOrder never brings an order number
    into the store twice. *)
Lemma createOrder_keeps_order_numbers_unique (env : Env) (user : ObjectId)
    (req : CreateOrderBody) (w : World) :
  NoDup (AdminOrder.orderNumber <$> orders w) →
  NoDup (AdminOrder.orderNumber <$> orders (createOrder env user req w).2).
Proof.
  intros Hunique.
  destruct (createOrder_outcome env user req w) as [(_ & _ & Hsame)|Hplaced].
  - by rewrite Hsame.
  - destruct Hplaced as (id & method & items & address & order & _ & _ & _ & _ & _ & _
                         & _ & _ & _ & Hfresh & _ & Horders & _).
    rewrite Horders, fmap_app. apply NoDup_app. split; [done|]. split.
    + intros number Hin [->|[]%elem_of_nil]%elem_of_cons. done.
    + apply NoDup_singleton.
Qed.


(** ** Concrete runs *)

Section Runs.

(** A quantity of zero passes the stock check and is refused by the cart
    schema. *)
Example addToCart_zero :
  (addToCart Fixture.customer
      {| atc_productId := RequestId.ofObjectId 1%N; atc_quantity := Some 0 |}
     (Fixture.world [])).1
  = {| statusCode := 500; body := Failure (Message CartValidationError) |}.
Proof. by vm_compute. Qed.

(** Three apples in the cart, ten in stock: eight more are refused. *)
Example addToCart_beyond_stock :
  (addToCart Fixture.customer
      {| atc_productId := RequestId.ofObjectId 1%N; atc_quantity := Some 8 |}
     (Fixture.world [Fixture.line 1%N 3%positive])).1
  = fail 400 "Insufficient stock".
Proof. by vm_compute. Qed.

(** A payment method named like an inherited object member reaches the
    write as a value that is no string; the schema refuses it and the
    cart is kept. *)
Example createOrder_inherited_member :
  let w := Fixture.world [Fixture.line 1%N 3%positive] in
  let r :=
    createOrder Fixture.env Fixture.customer
      {| addressId := Some 50%N; paymentMethod := Some "constructor";
         razorpayOrderId := None; razorpayPaymentId := None |} w in
  r.1 = Spec.writeFailed OrderValidationError
  ∧ carts r.2 !! Fixture.customer = carts w !! Fixture.customer
  ∧ orders r.2 = [].
Proof. cbv zeta. repeat split; by vm_compute. Qed.

(** An outside fault of the write: 500, the cart kept, nothing written. *)
Example createOrder_write_fault :
  let w := Fixture.world [Fixture.line 1%N 3%positive] in
  let r :=
    createOrder
      {| now := 1700000000000%N; random36 := "0.4fzyo82mvyr";
         orderWriteFault := Some "connection reset" |}
      Fixture.customer Fixture.cod w in
  r.1 = Spec.writeFailed (OrderStoreFault "connection reset")
  ∧ carts r.2 !! Fixture.customer = Some [Fixture.line 1%N 3%positive]
  ∧ orders r.2 = [].
Proof. cbv zeta. repeat split; by vm_compute. Qed.

(** The id of the soap in another spelling than that of the stored ids:
    updateCartItem finds the product and not the line, and removeFromCart
    answers 200 and removes nothing. *)
Example cart_calls_under_a_respelled_id :
  let cart := [Fixture.line 1%N 2%positive; Fixture.line 2%N 1%positive] in
  let w := Fixture.world cart in
  let updated := updateCartItem Fixture.customer (RequestId.respelled 2%N) 3 w in
  let removed := removeFromCart Fixture.customer (RequestId.respelled 2%N) w in
  updated.1 = fail 404 "Item not found in cart"
  ∧ carts updated.2 = carts w
  ∧ statusCode removed.1 = 200%nat
  ∧ carts removed.2 = carts w
  ∧ carts (removeFromCart Fixture.customer (RequestId.ofObjectId 2%N) w).2
    !! Fixture.customer = Some [Fixture.line 1%N 2%positive].
Proof. cbv zeta. repeat split; by vm_compute. Qed.

(** Sums of quantities are sums of JavaScript numbers: exact below 2^53,
    and from there on the nearest number, the even one of two that are
    as near. *)
Lemma addIntegers_exact (a b : Z) :
  Z.abs (a + b) < 2 ^ 53 → JS.addIntegers a b = a + b.
Proof.
  intros Hsmall. unfold JS.addIntegers, JS.roundInteger.
  apply Z.ltb_lt in Hsmall. by rewrite Hsmall.
Qed.

Example addIntegers_rounds :
  JS.addIntegers (2 ^ 53) 1 = 2 ^ 53
  ∧ JS.addIntegers (2 ^ 53) 3 = 2 ^ 53 + 4
  ∧ JS.addIntegers (2 ^ 53) 2 = 2 ^ 53 + 2
  ∧ JS.addIntegers (2 ^ 54 - 2) 1 = 2 ^ 54
  ∧ JS.addIntegers (- 2 ^ 53) (-1) = - 2 ^ 53.
Proof. repeat split; by vm_compute. Qed.

(** A line of 2^53 items of a product with as many in stock: one more is
    accepted, and the line stays at 2^53. *)
Example addToCart_beyond_the_integers :
  let bulk :=
    {| Product._id := 6%N; Product.name := "Rice grain"; Product.price := 0.01%Q;
       Product.stock := 2 ^ 53; Product.images := [];
       Product.status := Product.ACTIVE |} in
  let held := {| CartItem.product := 6%N; CartItem.quantity := (2 ^ 53)%positive |} in
  let w :=
    {| carts := {[ Fixture.customer := [held] ]}; addresses := [Fixture.home];
       products := [bulk]; orders := []; adminReady := true;
       productModelBound := true |} in
  let r :=
    addToCart Fixture.customer
      {| atc_productId := RequestId.ofObjectId 6%N; atc_quantity := Some 1 |} w in
  statusCode r.1 = 200%nat ∧ carts r.2 !! Fixture.customer = Some [held].
Proof. cbv zeta. split; by vm_compute. Qed.

(** A paid order by razorpay: written as ONLINE and PAID, answered in the
    customer's words, and the cart is empty afterwards. *)
Example createOrder_razorpay :
  let w := Fixture.world [Fixture.line 1%N 3%positive] in
  let r :=
    createOrder Fixture.env Fixture.customer
      {| addressId := Some 50%N; paymentMethod := Some "razorpay";
         razorpayOrderId := Some "order_1"; razorpayPaymentId := Some "pay_1" |} w in
  statusCode r.1 = 201%nat
  ∧ (λ o, (AdminOrder.orderNumber o, AdminOrder.status o, AdminOrder.paymentMethod o,
           AdminOrder.paymentStatus o)) <$> orders r.2
    = [("ORD-1700000000000-4FZYO8", "PLACED", "ONLINE", "PAID")]
  ∧ carts r.2 !! Fixture.customer = Some [].
Proof. cbv zeta. repeat split; by vm_compute. Qed.

End Runs.

(** * Further properties of the handlers *)

(** ** What a handler leaves alone *)

Section Frames.

Context (R : World → World → Prop) `{!PreOrder R}.

Lemma respects_ret {A} (a : A) : Effect.respects R (mret a : Handler A).
Proof. intros w o w' [= _ <-]. reflexivity. Qed.

Lemma respects_reply {A} (r : Response) : Effect.respects R (reply r : Handler A).
Proof. intros w o w' [= _ <-]. reflexivity. Qed.

Lemma respects_throw {A} (e : Exception) : Effect.respects R (throw e : Handler A).
Proof. intros w o w' [= _ <-]. reflexivity. Qed.

Lemma respects_getWorld : Effect.respects R getWorld.
Proof. intros w o w' [= _ <-]. reflexivity. Qed.

Lemma respects_bind {A B} (m : Handler A) (f : A → Handler B) :
  Effect.respects R m → (∀ a, Effect.respects R (f a)) → Effect.respects R (m ≫= f).
Proof.
  intros Hm Hf w o w'. unfold mbind, handler_bind.
  destruct (m w) as [[a|r|e] w1] eqn:Hrun; specialize (Hm _ _ _ Hrun).
  - intros Hrest. etrans; [exact Hm|]. by eapply Hf.
  - by intros [= _ <-].
  - by intros [= _ <-].
Qed.

Lemma respects_tryCatch {A} (body : Handler A) (onError : Exception → Handler A) :
  Effect.respects R body → (∀ e, Effect.respects R (onError e)) →
  Effect.respects R (tryCatch body onError).
Proof.
  intros Hbody Hcatch w o w'. unfold tryCatch.
  destruct (body w) as [[a|r|e] w1] eqn:Hrun; specialize (Hbody _ _ _ Hrun).
  - by intros [= _ <-].
  - by intros [= _ <-].
  - intros Hrest. etrans; [exact Hbody|]. by eapply Hcatch.
Qed.

Lemma respects_respond (h : Handler Response) (w : World) :
  Effect.respects R h → R w (respond h w).2.
Proof.
  intros Hh. unfold respond.
  destruct (h w) as [[a|r|e] w1] eqn:Hrun; by specialize (Hh _ _ _ Hrun).
Qed.

Lemma respects_answer {A} (h : Handler A) (w : World) :
  Effect.respects R h → R w (answer h w).2.
Proof.
  intros Hh. unfold answer.
  destruct (h w) as [[a|r|e] w1] eqn:Hrun; by specialize (Hh _ _ _ Hrun).
Qed.

End Frames.

Section CartFrames.

Context (user : ObjectId).

#[local] Instance cartOnly_preorder : PreOrder (Effect.cartOnly user).
Proof.
  split.
  - by intros w.
  - intros w1 w2 w3 (Ho & Hp & Ha & Hr & Hc) (Ho' & Hp' & Ha' & Hr' & Hc').
    repeat split; try congruence. intros other Hother.
    by rewrite Hc', Hc.
Qed.

#[local] Instance cartAndOrders_preorder : PreOrder (Effect.cartAndOrders user).
Proof.
  split.
  - by intros w.
  - intros w1 w2 w3 (Hp & Ha & Hr & Hc) (Hp' & Ha' & Hr' & Hc').
    repeat split; try congruence. intros other Hother.
    by rewrite Hc', Hc.
Qed.

Lemma cartOnly_cartAndOrders (w w' : World) :
  Effect.cartOnly user w w' → Effect.cartAndOrders user w w'.
Proof. by intros (_ & ?). Qed.

Lemma respects_orders_open {A} (h : Handler A) :
  Effect.respects (Effect.cartOnly user) h →
  Effect.respects (Effect.cartAndOrders user) h.
Proof. intros Hh w o w' Hrun. apply cartOnly_cartAndOrders. by eapply Hh. Qed.

Lemma getProductModel_frame : Effect.respects (Effect.cartOnly user) getProductModel.
Proof.
  intros w o w'. unfold getProductModel.
  destruct (productModelBound w); [by intros [= _ <-]|].
  destruct (adminReady w); by intros [= _ <-].
Qed.

Lemma Product_findById_frame (productId : ObjectId) :
  Effect.respects (Effect.cartOnly user) (Product_findById productId).
Proof.
  apply respects_bind; [apply _|apply getProductModel_frame|]. intros _.
  apply respects_bind; [apply _|apply respects_getWorld; apply _|]. intros w.
  apply respects_ret; apply _.
Qed.

Lemma Product_findActive_frame (productIds : list ObjectId) :
  Effect.respects (Effect.cartOnly user) (Product_findActive productIds).
Proof.
  apply respects_bind; [apply _|apply getProductModel_frame|]. intros _.
  apply respects_bind; [apply _|apply respects_getWorld; apply _|]. intros w.
  apply respects_ret; apply _.
Qed.

Lemma populateCartProducts_frame (items : list CartItem.t) :
  Effect.respects (Effect.cartOnly user) (populateCartProducts items).
Proof.
  destruct items as [|item items]; [apply respects_ret; apply _|].
  apply respects_bind; [apply _|apply Product_findActive_frame|]. intros found.
  apply respects_ret; apply _.
Qed.

Lemma findOne_frame : Effect.respects (Effect.cartOnly user) (Cart.findOne user).
Proof. by intros w o w' [= _ <-]. Qed.

Lemma save_frame (lines : list Cart.Line) :
  Effect.respects (Effect.cartOnly user) (Cart.save user lines).
Proof.
  intros w o w'. unfold Cart.save.
  destruct (Cart.validate lines) as [items|]; [|by intros [= _ <-]].
  intros [= _ <-]. repeat split. intros other Hother. cbn.
  by rewrite lookup_insert_ne.
Qed.

Lemma mergeGuestItem_frame (item : GuestItem) (lines : list Cart.Line) :
  Effect.respects (Effect.cartOnly user) (mergeGuestItem item lines).
Proof.
  apply respects_bind; [apply _|apply Product_findById_frame|].
  intros [product|]; [|apply respects_ret; apply _]. cbv zeta.
  destruct (availableStock product <? gi_quantity item); [apply respects_ret; apply _|].
  destruct (list_find _ lines) as [[i existing]|]; apply respects_ret; apply _.
Qed.

Lemma mergeGuestItems_frame (items : list GuestItem) (lines : list Cart.Line) :
  Effect.respects (Effect.cartOnly user) (mergeGuestItems items lines).
Proof.
  revert lines. induction items as [|item items IH]; intros lines.
  - apply respects_ret; apply _.
  - apply respects_bind; [apply _|apply mergeGuestItem_frame|]. intros merged. apply IH.
Qed.

Lemma cart_tail_frame (saved : list CartItem.t) :
  Effect.respects (Effect.cartOnly user)
    (shown ← populateCartProducts saved;
     mret {| statusCode := 200; body := CartBody user shown |}).
Proof.
  apply respects_bind; [apply _|apply populateCartProducts_frame|]. intros shown.
  apply respects_ret; apply _.
Qed.

Lemma save_then_show_frame (lines : list Cart.Line) :
  Effect.respects (Effect.cartOnly user)
    (saved ← Cart.save user lines;
     shown ← populateCartProducts saved;
     mret {| statusCode := 200; body := CartBody user shown |}).
Proof.
  apply respects_bind; [apply _|apply save_frame|]. intros saved. apply cart_tail_frame.
Qed.

Lemma cartCatch_frame (e : Exception) :
  Effect.respects (Effect.cartOnly user) (cartCatch e).
Proof. apply respects_reply; apply _. Qed.

Lemma getCart_frame : Effect.respects (Effect.cartOnly user) (getCart_body user).
Proof.
  apply respects_bind; [apply _|apply findOne_frame|]. intros cart.
  apply respects_bind; [apply _| |intros items; apply cart_tail_frame].
  destruct cart; [apply respects_ret; apply _|apply save_frame].
Qed.

Lemma addToCart_frame (req : AddToCartBody) :
  Effect.respects (Effect.cartOnly user) (addToCart_body user req).
Proof.
  unfold addToCart_body. cbv zeta.
  apply respects_bind; [apply _|apply Product_findById_frame|].
  intros [product|]; [|apply respects_reply; apply _].
  destruct (availableStock product <? _); [apply respects_reply; apply _|].
  apply respects_bind; [apply _|apply findOne_frame|]. intros cart.
  apply respects_bind; [apply _| |intros items; apply cart_tail_frame].
  destruct cart as [items|]; [|apply save_frame].
  destruct (list_find _ items) as [[i existing]|]; [|apply save_frame].
  destruct (availableStock product <? _); [apply respects_reply; apply _|apply save_frame].
Qed.

Lemma updateCartItem_frame (productId : RequestId.t) (quantity : Z) :
  Effect.respects (Effect.cartOnly user) (updateCartItem_body user productId quantity).
Proof.
  unfold updateCartItem_body.
  destruct (quantity <? 1); [apply respects_reply; apply _|].
  apply respects_bind; [apply _|apply Product_findById_frame|].
  intros [product|]; [|apply respects_reply; apply _].
  destruct (availableStock product <? _); [apply respects_reply; apply _|].
  apply respects_bind; [apply _|apply findOne_frame|].
  intros [items|]; [|apply respects_reply; apply _].
  destruct (list_find _ items) as [[i existing]|]; [|apply respects_reply; apply _].
  apply save_then_show_frame.
Qed.

Lemma removeFromCart_frame (productId : RequestId.t) :
  Effect.respects (Effect.cartOnly user) (removeFromCart_body user productId).
Proof.
  apply respects_bind; [apply _|apply findOne_frame|].
  intros [items|]; [|apply respects_reply; apply _]. cbv zeta.
  apply save_then_show_frame.
Qed.

Lemma clearCart_frame : Effect.respects (Effect.cartOnly user) (clearCart_body user).
Proof.
  apply respects_bind; [apply _|apply findOne_frame|].
  intros [items|]; [|apply respects_ret; apply _].
  apply respects_bind; [apply _|apply save_frame|]. intros _. apply respects_ret; apply _.
Qed.

Lemma syncGuestCart_frame (items : option (list GuestItem)) :
  Effect.respects (Effect.cartOnly user) (syncGuestCart_body user items).
Proof.
  destruct items as [items|]; [|apply respects_reply; apply _].
  apply respects_bind; [apply _|apply findOne_frame|]. intros cart.
  apply respects_bind; [apply _| |].
  { destruct cart; [apply respects_ret; apply _|apply save_frame]. }
  intros stored.
  apply respects_bind; [apply _|apply mergeGuestItems_frame|]. intros merged.
  apply save_then_show_frame.
Qed.

End CartFrames.

(** X1: getCart, removeFromCart and clearCart change nothing but the cart
    of the customer who calls: the orders, the catalog, the addresses,
    the state of the admin connection and the cart of every other
    customer are as before, whatever the call answers. *)
Theorem reading_and_removing_touch_only_the_callers_cart (user : ObjectId) (w : World) :
  Effect.cartOnly user w (getCart user w).2
  ∧ (∀ productId, Effect.cartOnly user w (removeFromCart user productId w).2)
  ∧ Effect.cartOnly user w (clearCart user w).2.
Proof.
  pose proof (cartOnly_preorder user) as Hpre.
  unfold getCart, removeFromCart, clearCart. split; [|split].
  - apply (respects_respond (Effect.cartOnly user)).
    apply (respects_tryCatch (Effect.cartOnly user)); [apply getCart_frame|apply cartCatch_frame].
  - intros productId. apply (respects_respond (Effect.cartOnly user)).
    apply (respects_tryCatch (Effect.cartOnly user)); [apply removeFromCart_frame|apply cartCatch_frame].
  - apply (respects_answer (Effect.cartOnly user)).
    apply (respects_tryCatch (Effect.cartOnly user)); [apply clearCart_frame|].
    intros e. apply (respects_reply (Effect.cartOnly user)).
Qed.

(** X2: addToCart, updateCartItem and syncGuestCart change nothing but
    the cart of the customer who calls; in particular none of them
    reserves or reduces the stock of a product. *)
Theorem adding_touches_only_the_callers_cart (user : ObjectId) (w : World) :
  (∀ req, Effect.cartOnly user w (addToCart user req w).2)
  ∧ (∀ productId quantity,
       Effect.cartOnly user w (updateCartItem user productId quantity w).2)
  ∧ (∀ items, Effect.cartOnly user w (syncGuestCart user items w).2).
Proof.
  pose proof (cartOnly_preorder user) as Hpre.
  unfold addToCart, updateCartItem, syncGuestCart. split; [|split].
  - intros req. apply (respects_respond (Effect.cartOnly user)).
    apply (respects_tryCatch (Effect.cartOnly user)); [apply addToCart_frame|apply cartCatch_frame].
  - intros productId quantity. apply (respects_respond (Effect.cartOnly user)).
    apply (respects_tryCatch (Effect.cartOnly user)); [apply updateCartItem_frame|apply cartCatch_frame].
  - intros items. apply (respects_respond (Effect.cartOnly user)).
    apply (respects_tryCatch (Effect.cartOnly user)); [apply syncGuestCart_frame|apply cartCatch_frame].
Qed.

Section OrderFrames.

Context (env : Env) (user : ObjectId).

Lemma orderLines_frame (productMap : gmap ObjectId Product.t) (items : list CartItem.t)
    (subtotal : Q) (orderItems : list OrderItem) :
  Effect.respects (Effect.cartAndOrders user)
    (orderLines productMap items subtotal orderItems).
Proof.
  pose proof (cartAndOrders_preorder user) as Hpre.
  revert subtotal orderItems.
  induction items as [|item items IH]; intros subtotal orderItems; cbn [orderLines].
  - by apply respects_ret.
  - destruct (productMap !! _) as [product|]; [|by apply respects_reply].
    destruct (availableStock product <? _); [by apply respects_reply|apply IH].
Qed.

Lemma AdminOrder_create_frame (draft : AdminOrder.Draft) :
  Effect.respects (Effect.cartAndOrders user) (AdminOrder_create env draft).
Proof.
  intros w o w'. unfold AdminOrder_create.
  destruct (adminReady w); cbn [negb]; [|by intros [= _ <-]].
  destruct (orderWriteFault env); [by intros [= _ <-]|].
  destruct (AdminOrder.validate draft) as [order|]; [|by intros [= _ <-]].
  case_bool_decide; by intros [= _ <-].
Qed.

Lemma createOrderCatch_frame (e : Exception) :
  Effect.respects (Effect.cartAndOrders user) (createOrderCatch e).
Proof. apply respects_reply, cartAndOrders_preorder. Qed.

Lemma createOrder_place_frame (method : string) (address : Address.t)
    (items : list CartItem.t) (found : list Product.t) :
  Effect.respects (Effect.cartAndOrders user)
    (createOrder_place env user method address items found).
Proof.
  pose proof (cartAndOrders_preorder user) as Hpre.
  unfold createOrder_place. cbv zeta.
  apply respects_bind; [done|apply orderLines_frame|]. intros [subtotal orderItems].
  apply respects_bind; [done|by apply respects_getWorld|]. intros w.
  destruct (negb (adminReady w)); [by apply respects_reply|].
  apply respects_tryCatch; [done| |apply createOrderCatch_frame].
  apply respects_bind; [done|apply AdminOrder_create_frame|]. intros order.
  apply respects_bind; [done|apply respects_orders_open, save_frame|]. intros _.
  by apply respects_ret.
Qed.

Lemma createOrder_frame (req : CreateOrderBody) :
  Effect.respects (Effect.cartAndOrders user) (createOrder_body env user req).
Proof.
  pose proof (cartAndOrders_preorder user) as Hpre.
  unfold createOrder_body.
  destruct (addressId req) as [id|]; [|by apply respects_reply].
  destruct (paymentMethod req) as [method|]; [|by apply respects_reply].
  destruct (String.eqb method ""); [by apply respects_reply|].
  destruct (String.eqb method "razorpay" && _); [by apply respects_reply|].
  apply respects_bind; [done|apply respects_orders_open, findOne_frame|].
  intros [[|item items]|]; [by apply respects_reply| |by apply respects_reply].
  apply respects_bind; [done|by apply respects_getWorld|]. intros w.
  destruct (List.find _ (addresses w)) as [address|]; [|by apply respects_reply].
  apply respects_bind; [done|apply respects_orders_open, Product_findActive_frame|].
  intros found. apply createOrder_place_frame.
Qed.

End OrderFrames.

(** X3: createOrder changes no product (placing an order takes nothing
    from the stock the catalog records), no address and no cart of
    another customer, and it leaves the state of the admin connection
    alone; the orders already stored stay, in their order, at the front
    of the store. *)
Theorem createOrder_takes_nothing_from_the_stock (env : Env) (user : ObjectId)
    (req : CreateOrderBody) (w : World) :
  Effect.cartAndOrders user w (createOrder env user req w).2
  ∧ orders w `prefix_of` orders (createOrder env user req w).2.
Proof.
  pose proof (cartAndOrders_preorder user) as Hpre. split.
  - unfold createOrder. apply (respects_respond (Effect.cartAndOrders user)).
    apply (respects_tryCatch (Effect.cartAndOrders user));
      [apply createOrder_frame|apply createOrderCatch_frame].
  - destruct (createOrder_outcome env user req w) as [(_ & _ & ->)|Hplaced]; [done|].
    destruct Hplaced as (id & method & items & address & order & _ & _ & _ & _ & _ & _
                         & _ & _ & _ & _ & _ & -> & _).
    by apply prefix_app_r.
Qed.

(** ** getCart *)

Section GetCart.

Context (user : ObjectId) (w : World).

Lemma getCart_existing (items : list CartItem.t) :
  carts w !! user = Some items →
  (Spec.catalogReachable w ∨ items = [] →
     getCart user w
     = ({| statusCode := 200; body := CartBody user (populated w items) |},
        if items is [] then w else bindProductModel w))
  ∧ (¬ Spec.catalogReachable w → items ≠ [] →
     getCart user w
     = ({| statusCode := 500; body := Failure (Message ProductModelNotEstablished) |}, w)).
Proof.
  intros Hcart. unfold getCart, respond, tryCatch, getCart_body.
  unfold Cart.findOne, mbind, handler_bind, getWorld, mret, handler_ret.
  rewrite Hcart. split.
  - intros Hreach. rewrite populateCartProducts_reachable by done. by destruct items.
  - intros Hno Hitems. by rewrite populateCartProducts_unreachable.
Qed.

Lemma getCart_missing :
  carts w !! user = None →
  getCart user w
  = ({| statusCode := 200; body := CartBody user [] |},
     setCarts (<[user := []]> (carts w)) w).
Proof.
  intros Hcart. unfold getCart, respond, tryCatch, getCart_body.
  rewrite (bind_run (Cart.findOne user)), findOne_run. cbv beta iota. rewrite Hcart.
  rewrite (bind_run (Cart.save user [])). by rewrite (save_valid user []).
Qed.

End GetCart.

(** X4: getCart gives a customer without a cart an empty stored cart and
    leaves an existing cart as it is stored.  With the catalog reachable
    (or the cart empty) it answers 200 and shows, in the order of the
    cart, exactly the lines whose product is an active catalog product,
    while the other lines stay in the stored cart.  A second call stores
    nothing new. *)
Theorem getCart_creates_the_cart_and_hides_unresolved_lines (user : ObjectId)
    (w : World) :
  let stored := default [] (carts w !! user) in
  let first := getCart user w in
  let second := getCart user first.2 in
  carts first.2 !! user = Some stored
  ∧ (is_Some (carts w !! user) → carts first.2 = carts w)
  ∧ carts second.2 = carts first.2
  ∧ (Spec.catalogReachable w ∨ stored = [] →
       statusCode first.1 = 200%nat
       ∧ Spec.returnedLines first.1
         = Some (Spec.linesOf
                   (List.filter
                      (λ item, Spec.resolvesActiveb w (CartItem.product item)) stored))
       ∧ second.1 = first.1).
Proof.
  intros stored first second.
  assert (∀ w1 items, carts w1 !! user = Some items →
            carts (getCart user w1).2 = carts w1) as Hkeeps.
  { intros w1 items Hcart1.
    destruct (getCart_existing user w1 items Hcart1) as [Hok Hfail].
    destruct (catalogReachable_dec w1) as [Hreach|Hno].
    - rewrite Hok by (by left). by destruct items.
    - destruct (decide (items = [])) as [->|Hne].
      + by rewrite Hok by (by right).
      + by rewrite Hfail. }
  destruct (carts w !! user) as [items|] eqn:Hcart; cbn in stored; subst stored.
  - destruct (getCart_existing user w items Hcart) as [Hok Hfail].
    assert (carts first.2 = carts w) as Hsame by (by eapply Hkeeps).
    split; [by rewrite Hsame|]. split; [done|]. split.
    { subst second. eapply Hkeeps. by rewrite Hsame. }
    intros Hreach. specialize (Hok Hreach). subst second first. rewrite Hok.
    cbn [fst snd statusCode]. split; [done|]. split.
    { cbn. by rewrite populated_shows_resolving. }
    set (w1 := if items is [] then w else bindProductModel w).
    assert (carts w1 !! user = Some items) as Hcart1 by (subst w1; by destruct items).
    destruct (getCart_existing user w1 items Hcart1) as [Hok1 _].
    rewrite Hok1.
    + cbn. subst w1. by destruct items.
    + subst w1. destruct Hreach as [Hreach | ->]; [|by right].
      left. destruct items; [done|apply catalogReachable_bind].
  - subst second first. rewrite (getCart_missing user w Hcart). cbn [fst snd].
    set (w1 := setCarts _ w).
    assert (carts w1 !! user = Some []) as Hcart1 by apply lookup_insert_eq.
    destruct (getCart_existing user w1 [] Hcart1) as [Hok1 _].
    rewrite Hok1 by (by right). cbn [fst snd].
    split; [done|]. split; [by intros [? ?]|]. split; [done|]. intros _.
    by repeat split.
Qed.

(** ** updateCartItem *)

(** Every run of updateCartItem, read off its body: a refusal that
    leaves the world as it was up to the binding of the Product model,
    or the one line of the product set to the quantity asked for. *)
Lemma updateCartItem_run (user : ObjectId) (productId : RequestId.t) (quantity : Z)
    (w w' : World) (resp : Response) :
  updateCartItem user productId quantity w = (resp, w') →
  (statusCode resp ≠ 200%nat ∧ carts w' = carts w)
  ∨ ∃ product items itemIndex existing q,
      1 ≤ quantity ∧ quantity = Z.pos q
      ∧ List.find (λ p, N.eqb (Product._id p) (RequestId.objectId productId)) (products w)
        = Some product
      ∧ quantity ≤ availableStock product
      ∧ carts w !! user = Some items
      ∧ RequestId.canonical productId = true
      ∧ list_find (λ item, CartItem.product item = RequestId.objectId productId) items
        = Some (itemIndex, existing)
      ∧ carts w'
        = <[user := <[itemIndex := {| CartItem.product := CartItem.product existing;
                                      CartItem.quantity := q |}]> items]> (carts w)
      ∧ statusCode resp = 200%nat.
Proof.
  intros Hrun.
  unfold updateCartItem, respond, tryCatch, updateCartItem_body in Hrun.
  destruct (quantity <? 1) eqn:Hmin; [left; by simplify_eq/=|].
  apply Z.ltb_ge in Hmin.
  bind_step Hrun.
  destruct (catalogReachable_dec w) as [Hreach|Hno].
  2:{ rewrite Product_findById_unreachable in Hrun by done. left. by simplify_eq/=. }
  rewrite Product_findById_reachable in Hrun by done. cbv beta iota in Hrun.
  destruct (List.find _ (products w)) as [product|] eqn:Hproduct;
    [|left; by simplify_eq/=].
  destruct (availableStock product <? quantity) eqn:Hstock; [left; by simplify_eq/=|].
  apply Z.ltb_ge in Hstock.
  bind_step Hrun. rewrite findOne_run in Hrun. cbv beta iota in Hrun.
  cbn [carts bindProductModel] in Hrun.
  assert (productModelBound (bindProductModel w) = true) as Hbound by done.
  destruct (carts w !! user) as [items|] eqn:Hcart; [|left; by simplify_eq/=].
  rewrite list_find_sameString in Hrun.
  destruct (RequestId.canonical productId) eqn:Hspelling; [|left; by simplify_eq/=].
  destruct (list_find _ items) as [[itemIndex existing]|] eqn:Hfind;
    [|left; by simplify_eq/=].
  bind_step Hrun. save_cases saved Hsaved Hrun; [|left; by simplify_eq/=].
  rewrite populate_then_respond in Hrun by done. cbv beta iota in Hrun.
  injection Hrun as <- <-.
  pose proof Hfind as Hfound. apply list_find_Some in Hfound as (Hidx & Hpid & _).
  apply validate_insert in Hsaved as (item & Hitem & ->); [|by eapply lookup_lt_Some].
  apply validateLine_Some in Hitem as [Hitemproduct Hitemquantity].
  cbn in Hitemproduct, Hitemquantity.
  right. exists product, items, itemIndex, existing, (CartItem.quantity item).
  repeat split; try done. cbn. do 2 f_equal. destruct item. cbn in *. by subst.
Qed.

(** X5: a successful updateCartItem has set the first cart line of the
    product to exactly the quantity asked for, which is at least 1 and at
    most the stock of the product; every other line, and the order of
    the lines, is as before. *)
Theorem updateCartItem_sets_the_quantity_of_one_line (user : ObjectId)
    (productId : RequestId.t) (quantity : Z) (w : World) :
  let result := updateCartItem user productId quantity w in
  statusCode result.1 = 200%nat →
  ∃ product items itemIndex line,
    List.find (λ p, N.eqb (Product._id p) (RequestId.objectId productId)) (products w)
    = Some product
    ∧ carts w !! user = Some items
    ∧ carts result.2 !! user = Some (<[itemIndex := line]> items)
    ∧ (itemIndex < length items)%nat
    ∧ Spec.lineOf (RequestId.objectId productId) (<[itemIndex := line]> items) = Some line
    ∧ CartItem.product line = RequestId.objectId productId
    ∧ Z.pos (CartItem.quantity line) = quantity
    ∧ 1 ≤ quantity ≤ availableStock product
    ∧ (CartItem.product <$> <[itemIndex := line]> items) = (CartItem.product <$> items).
Proof.
  intros result Hok. subst result.
  destruct (updateCartItem user productId quantity w) as [resp w'] eqn:Hrun.
  cbn [fst snd] in *.
  apply updateCartItem_run in Hrun
    as [[Hcode _]|(product & items & itemIndex & existing & q & Hmin & Hq & Hproduct
                   & Hstock & Hcart & _ & Hfind & Hcarts & _)]; [done|].
  pose proof Hfind as Hfound. apply list_find_Some in Hfound as (Hidx & Hpid & _).
  exists product, items, itemIndex,
    {| CartItem.product := CartItem.product existing; CartItem.quantity := q |}.
  split; [done|]. split; [done|]. split; [by rewrite Hcarts, lookup_insert_eq|].
  split; [by eapply lookup_lt_Some|].
  split; [by eapply lineOf_insert|]. split; [done|]. split; [done|]. split; [lia|].
  rewrite list_fmap_insert. cbn. apply list_insert_id.
  by rewrite list_lookup_fmap, Hidx.
Qed.

(** X5, on a concrete cart: two apples and one soap; setting the soap to
    three (its stock) rewrites the second line only. *)
Lemma updateCartItem_sets_the_quantity_of_one_line_witness :
  let w := Fixture.world [Fixture.line 1%N 2%positive; Fixture.line 2%N 1%positive] in
  statusCode (updateCartItem Fixture.customer (RequestId.ofObjectId 2%N) 3 w).1 = 200%nat
  ∧ carts (updateCartItem Fixture.customer (RequestId.ofObjectId 2%N) 3 w).2 !! Fixture.customer
    = Some [Fixture.line 1%N 2%positive; Fixture.line 2%N 3%positive]
  ∧ ∃ product items itemIndex line,
      List.find (λ p, N.eqb (Product._id p) 2%N) (products w) = Some product
      ∧ carts w !! Fixture.customer = Some items
      ∧ carts (updateCartItem Fixture.customer (RequestId.ofObjectId 2%N) 3 w).2
          !! Fixture.customer
        = Some (<[itemIndex := line]> items)
      ∧ (itemIndex < length items)%nat
      ∧ Spec.lineOf 2%N (<[itemIndex := line]> items) = Some line
      ∧ CartItem.product line = 2%N
      ∧ Z.pos (CartItem.quantity line) = 3
      ∧ 1 ≤ 3 ≤ availableStock product
      ∧ (CartItem.product <$> <[itemIndex := line]> items) = (CartItem.product <$> items).
Proof.
  cbv zeta. split; [by vm_compute|]. split; [by vm_compute|].
  apply (updateCartItem_sets_the_quantity_of_one_line Fixture.customer
           (RequestId.ofObjectId 2%N) 3
           (Fixture.world [Fixture.line 1%N 2%positive; Fixture.line 2%N 1%positive])).
  by vm_compute.
Defined.

(** X6: updateCartItem refuses a quantity below 1 before it reads the
    catalog or the cart, so the answer is the same 400 whatever the
    state of the system; whenever it does not answer 200 the stored
    carts are as before; and it never creates a cart or a line: the
    products of the customer's stored lines are always as before. *)
Theorem updateCartItem_refusals_change_no_cart (user : ObjectId)
    (productId : RequestId.t) (quantity : Z) (w : World) :
  let result := updateCartItem user productId quantity w in
  (quantity < 1 → result = (fail 400 "Quantity must be at least 1", w))
  ∧ (statusCode result.1 ≠ 200%nat → carts result.2 = carts w)
  ∧ (carts w !! user = None → carts result.2 !! user = None)
  ∧ (∀ items, carts w !! user = Some items →
       ∃ stored, carts result.2 !! user = Some stored
                 ∧ (CartItem.product <$> stored) = (CartItem.product <$> items)).
Proof.
  intros result. subst result.
  destruct (updateCartItem user productId quantity w) as [resp w'] eqn:Hrun.
  cbn [fst snd]. split; [|split; [|split]].
  - intros Hlow. rewrite <- Hrun.
    unfold updateCartItem, respond, tryCatch, updateCartItem_body.
    apply Z.ltb_lt in Hlow. by rewrite Hlow.
  - intros Hcode.
    by apply updateCartItem_run in Hrun as [[_ Hsame]|(? & ? & ? & ? & ? & ? & ? & ?
                                                      & ? & ? & ? & ? & ? & ?)].
  - intros Hnone.
    apply updateCartItem_run in Hrun
      as [[_ ->]|(? & ? & ? & ? & ? & _ & _ & _ & _ & Hcart & _)]; [done|].
    by rewrite Hnone in Hcart.
  - intros items Hcart.
    apply updateCartItem_run in Hrun
      as [[_ ->]|(product & items' & itemIndex & existing & q & _ & _ & _ & _ & Hcart'
                  & _ & Hfind & Hcarts & _)]; [by exists items|].
    rewrite Hcart in Hcart'. injection Hcart' as <-.
    eexists. split; [by rewrite Hcarts, lookup_insert_eq|].
    apply list_find_Some in Hfind as (Hidx & _ & _).
    rewrite list_fmap_insert. cbn. apply list_insert_id.
    by rewrite list_lookup_fmap, Hidx.
Qed.

(** ** addToCart and removeFromCart *)

(** Every run of addToCart, read off its body: a refusal that leaves the
    stored carts as they were, or the cart it has stored. *)
Lemma addToCart_run (user : ObjectId) (req : AddToCartBody) (w w' : World)
    (resp : Response) :
  let sent := atc_productId req in
  let productId := RequestId.objectId sent in
  let added := default 1 (atc_quantity req) in
  addToCart user req w = (resp, w') →
  (statusCode resp ≠ 200%nat ∧ carts w' = carts w)
  ∨ ∃ product q,
      List.find (λ p, N.eqb (Product._id p) productId) (products w) = Some product
      ∧ added ≤ availableStock product
      ∧ Z.pos q ≤ availableStock product
      ∧ statusCode resp = 200%nat
      ∧ productModelBound w' = true
      ∧ Spec.catalogReachable w
      ∧ match carts w !! user with
        | None =>
            added = Z.pos q
            ∧ carts w' = <[user := [ {| CartItem.product := productId;
                                        CartItem.quantity := q |} ]]> (carts w)
        | Some items =>
            match list_find
                    (λ item, RequestId.sameString (CartItem.product item) sent = true)
                    items with
            | None =>
                added = Z.pos q
                ∧ carts w' = <[user := items ++ [ {| CartItem.product := productId;
                                                     CartItem.quantity := q |} ]]>
                               (carts w)
            | Some (existingItemIndex, existing) =>
                JS.addIntegers (Z.pos (CartItem.quantity existing)) added = Z.pos q
                ∧ carts w'
                  = <[user := <[existingItemIndex :=
                                  {| CartItem.product := CartItem.product existing;
                                     CartItem.quantity := q |}]> items]> (carts w)
            end
        end.
Proof.
  intros sent productId added Hrun.
  unfold addToCart, respond, tryCatch, addToCart_body in Hrun.
  cbv zeta in Hrun. fold sent in Hrun. fold productId in Hrun. fold added in Hrun.
  bind_step Hrun.
  destruct (catalogReachable_dec w) as [Hreach|Hno].
  2:{ rewrite Product_findById_unreachable in Hrun by done. left. by simplify_eq/=. }
  rewrite Product_findById_reachable in Hrun by done. cbv beta iota in Hrun.
  destruct (List.find _ (products w)) as [product|] eqn:Hproduct;
    [|left; by simplify_eq/=].
  destruct (availableStock product <? added) eqn:Hstock; [left; by simplify_eq/=|].
  apply Z.ltb_ge in Hstock.
  bind_step Hrun. rewrite findOne_run in Hrun. cbv beta iota in Hrun.
  cbn [carts bindProductModel] in Hrun.
  assert (productModelBound (bindProductModel w) = true) as Hbound by done.
  destruct (carts w !! user) as [items|] eqn:Hcart.
  - destruct (list_find _ items) as [[existingItemIndex existing]|] eqn:Hfind.
    + destruct (availableStock product
                <? JS.addIntegers (Z.pos (CartItem.quantity existing)) added)
        eqn:Hmerged; [left; by simplify_eq/=|].
      apply Z.ltb_ge in Hmerged.
      bind_step Hrun. save_cases saved Hsaved Hrun; [|left; by simplify_eq/=].
      rewrite populate_then_respond in Hrun by done. cbv beta iota in Hrun.
      injection Hrun as <- <-.
      pose proof Hfind as Hfound. apply list_find_Some in Hfound as (Hidx & Hpid & _).
      apply validate_insert in Hsaved as (item & Hitem & ->);
        [|by eapply lookup_lt_Some].
      apply validateLine_Some in Hitem as [Hitemproduct Hitemquantity].
      cbn in Hitemproduct, Hitemquantity.
      right. exists product, (CartItem.quantity item).
      split; [done|]. split; [done|]. split; [lia|]. split; [done|]. split; [done|].
      split; [done|].
      split; [done|]. cbn. do 2 f_equal. destruct item. cbn in *. by subst.
    + bind_step Hrun. save_cases saved Hsaved Hrun; [|left; by simplify_eq/=].
      rewrite populate_then_respond in Hrun by done. cbv beta iota in Hrun.
      injection Hrun as <- <-.
      apply validate_push in Hsaved as (item & Hitem & ->).
      apply validateLine_Some in Hitem as [Hitemproduct Hitemquantity].
      cbn in Hitemproduct, Hitemquantity.
      right. exists product, (CartItem.quantity item).
      split; [done|]. split; [done|]. split; [lia|]. split; [done|]. split; [done|].
      split; [done|].
      split; [done|]. cbn. do 3 f_equal. destruct item. cbn in *. by subst.
  - bind_step Hrun. save_cases saved Hsaved Hrun; [|left; by simplify_eq/=].
    rewrite populate_then_respond in Hrun by done. cbv beta iota in Hrun.
    injection Hrun as <- <-.
    apply (validate_push []) in Hsaved as (item & Hitem & ->).
    apply validateLine_Some in Hitem as [Hitemproduct Hitemquantity].
    cbn in Hitemproduct, Hitemquantity.
    right. exists product, (CartItem.quantity item).
    split; [done|]. split; [done|]. split; [lia|]. split; [done|]. split; [done|].
      split; [done|].
    split; [done|]. cbn. do 2 f_equal. destruct item. cbn in *. by subst.
Qed.

(** X7: whenever addToCart does not answer 200, the stored carts are as
    they were; and after an answer of 200 the customer has a cart whose
    lines hold the products they held before, in the same order,
    followed by the product added when the id of the request matched the
    stored id of none of them: when the product was not among them, or
    when the request spelled its id otherwise than the stored ids read
    (a second line of the product, then). *)
Theorem addToCart_stores_all_or_nothing (user : ObjectId) (req : AddToCartBody)
    (w : World) :
  let result := addToCart user req w in
  let before := default [] (carts w !! user) in
  let productId := RequestId.objectId (atc_productId req) in
  (statusCode result.1 ≠ 200%nat → carts result.2 = carts w)
  ∧ (statusCode result.1 = 200%nat →
       ∃ stored,
         carts result.2 !! user = Some stored
         ∧ (CartItem.product <$> stored)
           = (CartItem.product <$> before)
             ++ (if RequestId.canonical (atc_productId req)
                    && bool_decide (productId ∈ (CartItem.product <$> before))
                 then [] else [productId])).
Proof.
  intros result before productId. subst result.
  destruct (addToCart user req w) as [resp w'] eqn:Hrun. cbn [fst snd].
  apply addToCart_run in Hrun
    as [[Hcode Hsame]|(product & q & _ & _ & _ & Hcode & _ & _ & Hstored)]; [done|].
  split; [done|]. intros _. subst before.
  destruct (carts w !! user) as [items|]; cbn [default].
  - rewrite list_find_sameString in Hstored.
    destruct (RequestId.canonical (atc_productId req)) eqn:Hspelling; cbn [andb].
    + destruct (list_find _ items) as [[i existing]|] eqn:Hfind.
      * destruct Hstored as [_ ->]. eexists. split; [apply lookup_insert_eq|].
        apply list_find_Some in Hfind as (Hidx & Hpid & _).
        rewrite bool_decide_eq_true_2.
        2:{ apply list_elem_of_fmap. exists existing. split; [done|].
            by eapply list_elem_of_lookup_2. }
        rewrite app_nil_r, list_fmap_insert. cbn. apply list_insert_id.
        by rewrite list_lookup_fmap, Hidx.
      * destruct Hstored as [_ ->]. eexists. split; [apply lookup_insert_eq|].
        rewrite bool_decide_eq_false_2.
        2:{ intros (item & Hpid & Hin)%list_elem_of_fmap.
            apply list_find_None in Hfind. rewrite Forall_forall in Hfind.
            by apply (Hfind item). }
        by rewrite fmap_app.
    + destruct Hstored as [_ ->]. eexists. split; [apply lookup_insert_eq|].
      by rewrite fmap_app.
  - destruct Hstored as [_ ->]. eexists. split; [apply lookup_insert_eq|].
    rewrite bool_decide_eq_false_2; [|by intros ?%elem_of_nil].
    by rewrite andb_false_r.
Qed.

(** X8: removeFromCart undoes addToCart when it spells the id of the
    product as the stored ids read.  When the cart of the customer has no
    line of a product, adding the product (in any quantity, accepted or
    not, and however the request spells the id) and then removing it
    under the id so spelled leaves the stored carts exactly as they were
    before the two calls.  A removal that spells the id otherwise removes
    nothing: the stored carts stay as addToCart left them. *)
Theorem removeFromCart_undoes_addToCart (user : ObjectId) (req : AddToCartBody)
    (removal : RequestId.t) (w : World) (items : list CartItem.t) :
  carts w !! user = Some items →
  RequestId.objectId (atc_productId req) ∉ (CartItem.product <$> items) →
  RequestId.objectId removal = RequestId.objectId (atc_productId req) →
  let added := addToCart user req w in
  let removed := removeFromCart user removal added.2 in
  if RequestId.canonical removal
  then carts removed.2 = carts w
       ∧ (statusCode added.1 = 200%nat → statusCode removed.1 = 200%nat)
  else carts removed.2 = carts added.2.
Proof.
  intros Hcart Habsent Hsame added removed. subst removed added.
  destruct (addToCart user req w) as [resp w'] eqn:Hrun. cbn [fst snd].
  assert (∀ stored, carts w' !! user = Some stored →
            RequestId.canonical removal = false →
            carts (removeFromCart user removal w').2 = carts w') as Hrespelled.
  { intros stored Hcart' Hspelling.
    destruct (removeFromCart_existing user removal w' stored Hcart') as [Hok Hfail].
    rewrite filter_respelled in Hok, Hfail by done.
    rewrite (insert_id _ _ _ Hcart'), setCarts_same in Hok, Hfail.
    destruct (catalogReachable_dec w') as [Hreach|Hno].
    - rewrite Hok by (by left). by destruct stored.
    - destruct (decide (stored = [])) as [Hnil|Hne].
      + rewrite Hok by (by right). by rewrite Hnil.
      + by rewrite Hfail. }
  assert (list_find
            (λ item, RequestId.sameString (CartItem.product item) (atc_productId req)
                     = true) items = None)
    as Hfind.
  { apply list_find_None, Forall_forall. intros item Hin [_ Hpid]%sameString_true.
    apply Habsent. apply list_elem_of_fmap. by exists item. }
  apply addToCart_run in Hrun
    as [[Hcode Hkept]|(product & q & _ & _ & _ & Hcode & Hbound & _ & Hstored)].
  - assert (carts w' !! user = Some items) as Hcart' by (by rewrite Hkept).
    destruct (RequestId.canonical removal) eqn:Hspelling; [|by eapply Hrespelled].
    destruct (removeFromCart_existing user removal w' items Hcart') as [Hok Hfail].
    rewrite filter_absent in Hok, Hfail by (by rewrite Hsame).
    rewrite (insert_id _ _ _ Hcart'), setCarts_same in Hok, Hfail.
    split; [|done]. rewrite <- Hkept.
    destruct (catalogReachable_dec w') as [Hreach|Hno].
    + rewrite Hok by (by left). by destruct items.
    + destruct (decide (items = [])) as [Hnil|Hne].
      * rewrite Hok by (by right). by rewrite Hnil.
      * by rewrite Hfail.
  - rewrite Hcart, Hfind in Hstored. destruct Hstored as [_ Hcarts].
    set (line := {| CartItem.product := RequestId.objectId (atc_productId req);
                    CartItem.quantity := q |}) in Hcarts.
    assert (carts w' !! user = Some (items ++ [line])) as Hcart'.
    { rewrite Hcarts. apply lookup_insert_eq. }
    destruct (RequestId.canonical removal) eqn:Hspelling; [|by eapply Hrespelled].
    destruct (removeFromCart_existing user removal w' _ Hcart') as [Hok _].
    assert (List.filter
              (λ item, negb (RequestId.sameString (CartItem.product item) removal))
              (items ++ [line]) = items) as Hkept.
    { rewrite List.filter_app, filter_absent by (by rewrite Hsame). cbn.
      rewrite sameString_canonical, Hsame, N.eqb_refl by done. cbn. apply app_nil_r. }
    rewrite Hkept in Hok. rewrite Hok by (left; by left).
    split; [|done].
    assert (carts (setCarts (<[user := items]> (carts w')) w') = carts w) as Hback.
    { cbn. rewrite Hcarts, insert_insert_eq. by apply insert_id. }
    by destruct items.
Qed.

(** X8, on a concrete cart: two apples in the cart; a soap is added under
    its id in upper case and removed again under its id in lower case. *)
Lemma removeFromCart_undoes_addToCart_witness :
  let w := Fixture.world [Fixture.line 1%N 2%positive] in
  let req := {| atc_productId := RequestId.respelled 2%N; atc_quantity := Some 1 |} in
  let added := addToCart Fixture.customer req w in
  carts added.2 !! Fixture.customer
  = Some [Fixture.line 1%N 2%positive; Fixture.line 2%N 1%positive]
  ∧ carts (removeFromCart Fixture.customer (RequestId.ofObjectId 2%N) added.2).2 = carts w
  ∧ (statusCode added.1 = 200%nat →
       statusCode (removeFromCart Fixture.customer (RequestId.ofObjectId 2%N) added.2).1
       = 200%nat).
Proof.
  cbv zeta. split; [by vm_compute|].
  apply (removeFromCart_undoes_addToCart Fixture.customer
           {| atc_productId := RequestId.respelled 2%N; atc_quantity := Some 1 |}
           (RequestId.ofObjectId 2%N)
           (Fixture.world [Fixture.line 1%N 2%positive])
           [Fixture.line 1%N 2%positive]).
  - by vm_compute.
  - apply (bool_decide_unpack _). by vm_compute.
  - reflexivity.
Defined.

(** X9: removeFromCart stores the cart of the customer without the lines
    whose stored id reads as the request spells its id: without any line
    of the product when the request spells the id as the stored ids
    read, and with every line when it spells it otherwise.  Every line
    of another product stays in place, and no cart is created for a
    customer who has none (404, nothing changed).  The removal is stored
    before the cart is populated for the response: when the catalog
    cannot be reached and lines remain, the answer is 500 and the lines
    removed are gone all the same. *)
Theorem removeFromCart_stores_the_removal_whatever_it_answers (user : ObjectId)
    (productId : RequestId.t) (w : World) :
  let result := removeFromCart user productId w in
  let keep :=
    if RequestId.canonical productId
    then List.filter
           (λ item, negb (N.eqb (CartItem.product item) (RequestId.objectId productId)))
    else id in
  carts result.2 !! user = keep <$> carts w !! user
  ∧ (carts w !! user = None → result = (fail 404 "Cart not found", w))
  ∧ (∀ items, carts w !! user = Some items →
       (RequestId.canonical productId = true →
          RequestId.objectId productId ∉ (CartItem.product <$> keep items))
       ∧ (∀ other, other ≠ RequestId.objectId productId →
            Spec.lineOf other (keep items) = Spec.lineOf other items)
       ∧ (¬ Spec.catalogReachable w → keep items ≠ [] →
            statusCode result.1 = 500%nat)).
Proof.
  intros result keep. subst result.
  assert (carts w !! user = None →
          removeFromCart user productId w = (fail 404 "Cart not found", w)) as Hmissing.
  { intros Hcart. unfold removeFromCart, respond, tryCatch, removeFromCart_body.
    rewrite (bind_run (Cart.findOne user)), findOne_run. by rewrite Hcart. }
  assert (∀ items,
            List.filter
              (λ item, negb (RequestId.sameString (CartItem.product item) productId))
              items = keep items) as Hkeep.
  { intros items. subst keep. destruct (RequestId.canonical productId) eqn:Hspelling.
    - by apply filter_canonical.
    - by apply filter_respelled. }
  split; [|split; [done|]].
  - destruct (carts w !! user) as [items|] eqn:Hcart.
    + destruct (removeFromCart_existing user productId w items Hcart) as [Hok Hfail].
      rewrite Hkeep in Hok, Hfail. cbn [fmap option_fmap option_map].
      destruct (catalogReachable_dec w) as [Hreach|Hno].
      * rewrite Hok by (by left). destruct (keep items); apply lookup_insert_eq.
      * destruct (decide (keep items = [])) as [Hnil|Hne].
        -- rewrite Hok by (by right). rewrite Hnil. apply lookup_insert_eq.
        -- rewrite Hfail by done. apply lookup_insert_eq.
    + by rewrite Hmissing.
  - intros items Hcart. split; [|split].
    + intros Hspelling. subst keep. rewrite Hspelling.
      rewrite list_elem_of_fmap. intros (item & Hitem & Hin).
      apply list_elem_of_In, filter_In in Hin as [_ Hne].
      by rewrite <- Hitem, N.eqb_refl in Hne.
    + intros other Hother. subst keep.
      destruct (RequestId.canonical productId); [|done].
      unfold Spec.lineOf. clear Hcart Hkeep. induction items as [|item items IH]; [done|].
      cbn [List.filter].
      destruct (N.eqb_spec (CartItem.product item) (RequestId.objectId productId))
        as [Heq|Hne]; cbn [negb].
      * rewrite IH. cbn. rewrite decide_False by congruence.
        by destruct (list_find _ items) as [[? ?]|].
      * cbn. destruct (decide (CartItem.product item = other)); [done|].
        destruct (list_find _ (List.filter _ items)) as [[? ?]|] eqn:Hkept;
          destruct (list_find _ items) as [[? ?]|] eqn:Hall; cbn in *; congruence.
    + intros Hno Hne.
      destruct (removeFromCart_existing user productId w items Hcart) as [_ Hfail].
      rewrite Hkeep in Hfail. by rewrite Hfail.
Qed.

(** ** clearCart *)

Lemma clearCart_run (user : ObjectId) (w : World) :
  clearCart user w
  = match carts w !! user with
    | Some _ => (Answered 200 "Cart cleared", setCarts (<[user := []]> (carts w)) w)
    | None => (Answered 200 "Cart already empty", w)
    end.
Proof.
  unfold clearCart, answer, tryCatch, clearCart_body.
  rewrite (bind_run (Cart.findOne user)), findOne_run. cbv beta iota.
  destruct (carts w !! user) as [items|]; [|done].
  rewrite (bind_run (Cart.save user [])). by rewrite (save_valid user []).
Qed.

(** X10: clearCart always answers 200.  A stored cart is kept as a cart
    without lines; a customer without a cart gets "Cart already empty"
    and still has no cart afterwards (unlike after getCart).  A second
    call changes nothing more. *)
Theorem clearCart_empties_a_cart_and_creates_none (user : ObjectId) (w : World) :
  let first := clearCart user w in
  let second := clearCart user first.2 in
  first.1 = Answered 200 (if carts w !! user is Some _ then "Cart cleared"
                          else "Cart already empty")
  ∧ carts first.2 !! user = (λ _, []) <$> carts w !! user
  ∧ second.2 = first.2
  ∧ second.1 = first.1.
Proof.
  intros first second. subst second first.
  rewrite (clearCart_run user w).
  destruct (carts w !! user) as [items|] eqn:Hcart; cbn [fst snd].
  - rewrite clearCart_run. cbn [carts setCarts]. rewrite lookup_insert_eq.
    cbn [fst snd carts setCarts]. split; [done|]. split; [done|].
    split; [|done]. unfold setCarts. cbn. by rewrite insert_insert_eq.
  - rewrite clearCart_run, Hcart. done.
Qed.

(** ** createOrder and the cart *)

Section EmptyCart.

Context (env : Env) (user : ObjectId) (req : CreateOrderBody).

(** createOrder on a request that passes the checks on the body, for a
    customer without a cart or with a cart without lines. *)
Lemma createOrder_empty_cart (w : World) :
  Spec.requestAccepted req →
  carts w !! user = None ∨ carts w !! user = Some [] →
  createOrder env user req w = (fail 400 "Cart is empty", w).
Proof.
  intros ([id Hid] & method & Hmethod & Hne & Hrazorpay) Hcart.
  unfold createOrder, respond, tryCatch, createOrder_body.
  rewrite Hid, Hmethod.
  destruct (String.eqb_spec method "") as [->|_]; [done|].
  assert (String.eqb method "razorpay"
          && (missing (razorpayOrderId req) || missing (razorpayPaymentId req))
          = false) as ->.
  { destruct (String.eqb_spec method "razorpay") as [Heq|_]; [|done].
    destruct (Hrazorpay Heq) as [-> ->]. done. }
  rewrite (bind_run (Cart.findOne user)), findOne_run. cbv beta iota.
  by destruct Hcart as [-> | ->].
Qed.

(** A request that createOrder answers with 201 has passed the checks on
    the body. *)
Lemma createOrder_created_accepted (w : World) :
  statusCode (createOrder env user req w).1 = 201%nat → Spec.requestAccepted req.
Proof.
  unfold createOrder, respond, tryCatch, createOrder_body, Spec.requestAccepted.
  destruct (addressId req) as [id|]; [|done].
  destruct (paymentMethod req) as [method|]; [|done].
  destruct (String.eqb_spec method "") as [->|Hne]; [done|].
  destruct (String.eqb method "razorpay"
            && (missing (razorpayOrderId req) || missing (razorpayPaymentId req)))
    eqn:Hrazorpay; [done|].
  intros _. split; [done|]. exists method. split; [done|]. split; [done|].
  intros ->. cbn in Hrazorpay. by apply orb_false_iff in Hrazorpay.
Qed.

End EmptyCart.

(** X11: after clearCart, an order cannot be placed: createOrder answers
    every request that passes the checks on the body with 400 "Cart is
    empty", writes no order and changes nothing. *)
Theorem createOrder_after_clearCart_is_refused (env : Env) (user : ObjectId)
    (req : CreateOrderBody) (w : World) :
  Spec.requestAccepted req →
  createOrder env user req (clearCart user w).2
  = (fail 400 "Cart is empty", (clearCart user w).2).
Proof.
  intros Hreq. apply createOrder_empty_cart; [done|].
  rewrite clearCart_run.
  destruct (carts w !! user) as [items|] eqn:Hcart; cbn [snd].
  - right. apply lookup_insert_eq.
  - by left.
Qed.

(** X11, on a concrete cart of two apples. *)
Lemma createOrder_after_clearCart_is_refused_witness :
  Spec.requestAccepted Fixture.cod
  ∧ statusCode
      (createOrder Fixture.env Fixture.customer Fixture.cod
         (Fixture.world [Fixture.line 1%N 2%positive])).1 = 201%nat
  ∧ createOrder Fixture.env Fixture.customer Fixture.cod
      (clearCart Fixture.customer (Fixture.world [Fixture.line 1%N 2%positive])).2
    = (fail 400 "Cart is empty",
       (clearCart Fixture.customer (Fixture.world [Fixture.line 1%N 2%positive])).2).
Proof.
  assert (Spec.requestAccepted Fixture.cod) as Hreq.
  { split; [by eexists|]. exists "cod". by repeat split. }
  split; [exact Hreq|]. split; [by vm_compute|].
  exact (createOrder_after_clearCart_is_refused Fixture.env Fixture.customer Fixture.cod
           (Fixture.world [Fixture.line 1%N 2%positive]) Hreq).
Defined.

(** X12: an order is placed once.  After createOrder has answered 201,
    the same request again (at any later time, with any random draw) is
    answered 400 "Cart is empty" and writes no second order. *)
Theorem createOrder_again_places_no_second_order (env later : Env) (user : ObjectId)
    (req : CreateOrderBody) (w : World) :
  let first := createOrder env user req w in
  statusCode first.1 = 201%nat →
  createOrder later user req first.2 = (fail 400 "Cart is empty", first.2).
Proof.
  intros first Hcreated.
  apply createOrder_empty_cart; [by eapply createOrder_created_accepted|].
  destruct (createOrder_outcome env user req w) as [([Hcode _] & _)|Hplaced]; [done|].
  destruct Hplaced as (id & method & items & address & order & _ & _ & _ & _ & _ & _
                       & _ & _ & _ & _ & _ & _ & Hcarts).
  right. subst first. rewrite Hcarts. apply lookup_insert_eq.
Qed.

(** X12, on a concrete cart of two apples. *)
Lemma createOrder_again_places_no_second_order_witness :
  let first :=
    createOrder Fixture.env Fixture.customer Fixture.cod
      (Fixture.world [Fixture.line 1%N 2%positive]) in
  statusCode first.1 = 201%nat
  ∧ createOrder Fixture.envAgain Fixture.customer Fixture.cod first.2
    = (fail 400 "Cart is empty", first.2).
Proof.
  cbv zeta. split; [by vm_compute|].
  apply (createOrder_again_places_no_second_order Fixture.env Fixture.envAgain
           Fixture.customer Fixture.cod (Fixture.world [Fixture.line 1%N 2%positive])).
  by vm_compute.
Defined.

(** ** createOrder: the order that is stored *)

Section Created.

Context (env : Env) (user : ObjectId) (req : CreateOrderBody) (w : World).

Lemma createOrder_created_placed :
  statusCode (createOrder env user req w).1 = 201%nat →
  Spec.placed env user req w (createOrder env user req w).
Proof.
  intros Hcreated.
  by destruct (createOrder_outcome env user req w) as [([Hcode _] & _)|Hplaced].
Qed.

(** The entries pushed for accepted lines carry the references and the
    quantities of the lines. *)
Lemma pushedFor_lines (found : list Product.t) (items : list CartItem.t) :
  Forall (Spec.acceptedBy (buildProductMap found)) items →
  (λ oi, (oi_product oi, oi_quantity oi)) <$> Spec.pushedFor (buildProductMap found) items
  = (λ item, (CartItem.product item, Z.pos (CartItem.quantity item))) <$> items.
Proof.
  induction 1 as [|item items (p & Hp & Hstock) _ IH]; [done|].
  cbn [Spec.pushedFor omap list_omap]. rewrite Hp. cbn [mbind option_bind].
  rewrite fmap_cons. unfold Spec.pushedFor in IH. rewrite IH.
  apply buildProductMap_lookup in Hp as [_ Hid]. cbn. by rewrite Hid.
Qed.

(** The payment fields of a draft that passes the schema. *)
Lemma validated_payment_fields (method : string) (draft : AdminOrder.Draft)
    (order : AdminOrder.t) :
  AdminOrder.d_paymentMethod draft = Enum.paymentMethodToShared method →
  AdminOrder.d_paymentStatus draft = Enum.paymentStatusToShared method →
  AdminOrder.validate draft = Some order →
  (method ∉ JS.objectPrototypeKeys)
  ∧ AdminOrder.paymentMethod order
    = (if String.eqb method "cod" then "CASH"
       else if String.eqb method "razorpay" then "ONLINE" else "OTHER")
  ∧ AdminOrder.paymentStatus order
    = (if String.eqb method "cod" then "PENDING" else "PAID").
Proof.
  intros Hmethod Hstatus Hvalid.
  apply validate_fields in Hvalid as (_ & _ & _ & _ & _ & _ & _ & _ & Hpm & Hps).
  rewrite Hmethod in Hpm. rewrite Hstatus in Hps.
  assert (method ∉ JS.objectPrototypeKeys) as Hproto.
  { intros Hin. unfold JS.objectPrototypeKeys in Hin.
    repeat (apply elem_of_cons in Hin as [->|Hin]; [by vm_compute in Hpm|]).
    by apply elem_of_nil in Hin. }
  split; [done|]. split.
  - destruct (String.eqb_spec method "cod") as [->|Hcod].
    { by injection Hpm. }
    destruct (String.eqb_spec method "razorpay") as [->|Hrazorpay].
    { by injection Hpm. }
    rewrite paymentMethodToShared_unmapped in Hpm by done. by injection Hpm.
  - unfold Enum.paymentStatusToShared in Hps.
    destruct (String.eqb method "cod"); by injection Hps.
Qed.

End Created.

(** X13: the order that createOrder stores is the cart of the customer:
    one order line per cart line, in the order of the cart, with the
    product and the quantity of the line.  It is filed under the
    customer with status PLACED and the order number of this attempt,
    the cart is left without lines, and the response names the same
    order: number, customer, lines, amounts, status "placed". *)
Theorem createOrder_stores_the_cart_as_the_order (env : Env) (user : ObjectId)
    (req : CreateOrderBody) (w : World) :
  let result := createOrder env user req w in
  let cartLine := λ item, (CartItem.product item, Z.pos (CartItem.quantity item)) in
  statusCode result.1 = 201%nat →
  ∃ items order response,
    carts w !! user = Some items
    ∧ orders result.2 = orders w ++ [order]
    ∧ carts result.2 !! user = Some []
    ∧ body result.1 = OrderBody response
    ∧ AdminOrder.customer order = user
    ∧ AdminOrder.status order = "PLACED"
    ∧ AdminOrder.orderNumber order = orderNumberOf (now env) (random36 env)
    ∧ ((λ i, (AdminOrder.product i, AdminOrder.quantity i)) <$> AdminOrder.items order)
      = (cartLine <$> items)
    ∧ ((λ i, (ri_product i, ri_quantity i)) <$> r_items response) = (cartLine <$> items)
    ∧ r_orderNumber response = AdminOrder.orderNumber order
    ∧ r_customerId response = user
    ∧ r_orderStatus response = "placed"
    ∧ (r_subtotal response, r_tax response, r_deliveryFee response, r_total response)
      = (AdminOrder.subtotal order, AdminOrder.tax order, AdminOrder.shipping order,
         AdminOrder.total order).
Proof.
  intros result cartLine Hcreated. subst result.
  destruct (createOrder_created_placed env user req w Hcreated)
    as (id & method & items & address & order & _ & _ & Hcart & _ & _ & Hall & _ & _
        & Hvalid & _ & Hresp & Horders & Hcarts).
  apply validate_fields in Hvalid
    as (Hnumber & Hcustomer & Hitems & _ & _ & _ & _ & Hstatus & _ & _).
  cbn in Hnumber, Hcustomer, Hitems, Hstatus.
  assert ((λ i, (AdminOrder.product i, AdminOrder.quantity i)) <$> AdminOrder.items order
          = cartLine <$> items) as Hlines.
  { rewrite Hitems, <- list_fmap_compose. subst cartLine.
    etrans; [|exact (pushedFor_lines
                       (activeProducts (CartItem.product <$> items) (products w))
                       items Hall)].
    done. }
  exists items, order, (orderResponseOf order
                          (Spec.pushedFor (Spec.productMapOf w items) items)
                          address method).
  split; [done|]. split; [done|]. split; [by rewrite Hcarts, lookup_insert_eq|].
  split; [by rewrite Hresp|]. split; [done|]. split; [done|]. split; [done|].
  split; [done|]. split.
  { cbn [r_items orderResponseOf]. rewrite <- list_fmap_compose. exact Hlines. }
  split; [done|]. split; [done|]. split; [|done].
  cbn [r_orderStatus orderResponseOf]. by rewrite Hstatus.
Qed.

(** X13, on a concrete cart: two apples and one rice. *)
Lemma createOrder_stores_the_cart_as_the_order_witness :
  let w := Fixture.world [Fixture.line 1%N 2%positive; Fixture.line 4%N 1%positive] in
  let result := createOrder Fixture.env Fixture.customer Fixture.cod w in
  statusCode result.1 = 201%nat
  ∧ ((λ i, (AdminOrder.product i, AdminOrder.quantity i)) <$>
       (orders result.2 ≫= AdminOrder.items)) = [(1%N, 2); (4%N, 1)]
  ∧ ∃ items order response,
      carts w !! Fixture.customer = Some items
      ∧ orders result.2 = orders w ++ [order]
      ∧ carts result.2 !! Fixture.customer = Some []
      ∧ body result.1 = OrderBody response
      ∧ AdminOrder.customer order = Fixture.customer
      ∧ AdminOrder.status order = "PLACED"
      ∧ AdminOrder.orderNumber order
        = orderNumberOf (now Fixture.env) (random36 Fixture.env)
      ∧ ((λ i, (AdminOrder.product i, AdminOrder.quantity i)) <$> AdminOrder.items order)
        = ((λ item, (CartItem.product item, Z.pos (CartItem.quantity item))) <$> items)
      ∧ ((λ i, (ri_product i, ri_quantity i)) <$> r_items response)
        = ((λ item, (CartItem.product item, Z.pos (CartItem.quantity item))) <$> items)
      ∧ r_orderNumber response = AdminOrder.orderNumber order
      ∧ r_customerId response = Fixture.customer
      ∧ r_orderStatus response = "placed"
      ∧ (r_subtotal response, r_tax response, r_deliveryFee response, r_total response)
        = (AdminOrder.subtotal order, AdminOrder.tax order, AdminOrder.shipping order,
           AdminOrder.total order).
Proof.
  cbv zeta. split; [by vm_compute|]. split; [by vm_compute|].
  apply (createOrder_stores_the_cart_as_the_order Fixture.env Fixture.customer
           Fixture.cod
           (Fixture.world [Fixture.line 1%N 2%positive; Fixture.line 4%N 1%positive])).
  by vm_compute.
Defined.

(** X14: createOrder stores every order that is not paid on delivery as
    PAID: "cod" is stored as CASH and PENDING, "razorpay" as ONLINE and
    PAID, and every other method that creates an order as OTHER and PAID,
    while the response repeats the method of the request with "pending"
    or "paid".  No order is created for a method named like a member of
    Object.prototype. *)
Theorem createOrder_stores_every_method_but_cod_as_paid (env : Env) (user : ObjectId)
    (req : CreateOrderBody) (w : World) :
  let result := createOrder env user req w in
  statusCode result.1 = 201%nat →
  ∃ method order response,
    paymentMethod req = Some method
    ∧ orders result.2 = orders w ++ [order]
    ∧ body result.1 = OrderBody response
    ∧ (method ∉ JS.objectPrototypeKeys)
    ∧ AdminOrder.paymentMethod order
      = (if String.eqb method "cod" then "CASH"
         else if String.eqb method "razorpay" then "ONLINE" else "OTHER")
    ∧ AdminOrder.paymentStatus order
      = (if String.eqb method "cod" then "PENDING" else "PAID")
    ∧ r_paymentMethod response = method
    ∧ r_paymentStatus response = (if String.eqb method "cod" then "pending" else "paid").
Proof.
  intros result Hcreated. subst result.
  destruct (createOrder_created_placed env user req w Hcreated)
    as (id & method & items & address & order & _ & Hmethod & _ & _ & _ & _ & _ & _
        & Hvalid & _ & Hresp & Horders & _).
  apply (validated_payment_fields method) in Hvalid as (Hproto & Hpm & Hps); [|done..].
  exists method, order, (orderResponseOf order
                           (Spec.pushedFor (Spec.productMapOf w items) items)
                           address method).
  split; [done|]. split; [done|]. split; [by rewrite Hresp|]. by repeat split.
Qed.

(** X14, on a concrete request: paying by "upi", a method the backend
    has no gateway for, gives an order stored as OTHER and PAID. *)
Lemma createOrder_stores_every_method_but_cod_as_paid_witness :
  let req := {| addressId := Some 50%N; paymentMethod := Some "upi";
                razorpayOrderId := None; razorpayPaymentId := None |} in
  let w := Fixture.world [Fixture.line 1%N 2%positive] in
  let result := createOrder Fixture.env Fixture.customer req w in
  statusCode result.1 = 201%nat
  ∧ ((λ o, (AdminOrder.paymentMethod o, AdminOrder.paymentStatus o)) <$> orders result.2)
    = [("OTHER", "PAID")]
  ∧ ∃ method order response,
      paymentMethod req = Some method
      ∧ orders result.2 = orders w ++ [order]
      ∧ body result.1 = OrderBody response
      ∧ (method ∉ JS.objectPrototypeKeys)
      ∧ AdminOrder.paymentMethod order
        = (if String.eqb method "cod" then "CASH"
           else if String.eqb method "razorpay" then "ONLINE" else "OTHER")
      ∧ AdminOrder.paymentStatus order
        = (if String.eqb method "cod" then "PENDING" else "PAID")
      ∧ r_paymentMethod response = method
      ∧ r_paymentStatus response
        = (if String.eqb method "cod" then "pending" else "paid").
Proof.
  cbv zeta. split; [by vm_compute|]. split; [by vm_compute|].
  apply (createOrder_stores_every_method_but_cod_as_paid Fixture.env Fixture.customer
           {| addressId := Some 50%N; paymentMethod := Some "upi";
              razorpayOrderId := None; razorpayPaymentId := None |}
           (Fixture.world [Fixture.line 1%N 2%positive])).
  by vm_compute.
Defined.

(** X15: a payment method named like a member that every JavaScript
    object inherits ("constructor", "toString", ..) never gives an
    order: the table lookup yields the inherited member, not the
    fallback, the schema refuses it, and createOrder answers with an
    error and leaves carts and orders as they were. *)
Theorem createOrder_refuses_a_method_named_like_an_inherited_member (env : Env)
    (user : ObjectId) (req : CreateOrderBody) (w : World) (method : string) :
  paymentMethod req = Some method →
  method ∈ JS.objectPrototypeKeys →
  let result := createOrder env user req w in
  Spec.isError result.1 ∧ carts result.2 = carts w ∧ orders result.2 = orders w.
Proof.
  intros Hmethod Hproto result. subst result.
  destruct (createOrder_outcome env user req w) as [Herror|Hplaced]; [done|].
  destruct Hplaced as (id & method' & items & address & order & _ & Hmethod' & _ & _ & _
                       & _ & _ & _ & Hvalid & _).
  rewrite Hmethod in Hmethod'. injection Hmethod' as <-.
  by apply (validated_payment_fields method) in Hvalid as (Hno & _).
Qed.

(** X15, on a concrete request: the method is "constructor"; with "cod"
    the same cart gives an order. *)
Lemma createOrder_refuses_a_method_named_like_an_inherited_member_witness :
  let req := {| addressId := Some 50%N; paymentMethod := Some "constructor";
                razorpayOrderId := None; razorpayPaymentId := None |} in
  let w := Fixture.world [Fixture.line 1%N 2%positive] in
  statusCode (createOrder Fixture.env Fixture.customer Fixture.cod w).1 = 201%nat
  ∧ statusCode (createOrder Fixture.env Fixture.customer req w).1 = 500%nat
  ∧ Spec.isError (createOrder Fixture.env Fixture.customer req w).1
  ∧ carts (createOrder Fixture.env Fixture.customer req w).2 = carts w
  ∧ orders (createOrder Fixture.env Fixture.customer req w).2 = orders w.
Proof.
  cbv zeta. split; [by vm_compute|]. split; [by vm_compute|].
  apply (createOrder_refuses_a_method_named_like_an_inherited_member Fixture.env
           Fixture.customer
           {| addressId := Some 50%N; paymentMethod := Some "constructor";
              razorpayOrderId := None; razorpayPaymentId := None |}
           (Fixture.world [Fixture.line 1%N 2%positive]) "constructor").
  - done.
  - apply (bool_decide_unpack _). by vm_compute.
Defined.

(** ** syncGuestCart *)

Section ListFind.

Context {A : Type} (P : A → Prop) `{!∀ x, Decision (P x)}.

Lemma list_find_insert_same (l : list A) (i : nat) (x y : A) :
  list_find P l = Some (i, x) → P y → list_find P (<[i := y]> l) = Some (i, y).
Proof.
  intros (Hi & Hx & Hbefore)%list_find_Some Hy.
  apply list_find_Some. split; [|split; [done|]].
  - apply list_lookup_insert_eq. by eapply lookup_lt_Some.
  - intros j z Hj Hlt. rewrite list_lookup_insert_ne in Hj by lia. by eapply Hbefore.
Qed.

Lemma list_find_insert_other (l : list A) (j : nat) (x y : A) :
  l !! j = Some x → ¬ P x → ¬ P y → list_find P (<[j := y]> l) = list_find P l.
Proof.
  intros Hj Hx Hy.
  destruct (list_find P l) as [[i z]|] eqn:Hfind.
  - apply list_find_Some in Hfind as (Hi & Hz & Hbefore).
    assert (i ≠ j) as Hne by (intros ->; congruence).
    apply list_find_Some. split; [|split; [done|]].
    + by rewrite list_lookup_insert_ne.
    + intros k a Hk Hlt. destruct (decide (k = j)) as [->|Hkj].
      * rewrite list_lookup_insert_eq in Hk by (by eapply lookup_lt_Some). congruence.
      * rewrite list_lookup_insert_ne in Hk by done. by eapply Hbefore.
  - apply list_find_None. apply list_find_None in Hfind. by apply Forall_insert.
Qed.

Lemma list_find_push_other (l : list A) (y : A) :
  ¬ P y → list_find P (l ++ [y]) = list_find P l.
Proof.
  intros Hy. destruct (list_find P l) as [[i z]|] eqn:Hfind.
  - by apply list_find_app_l.
  - rewrite list_find_app_r by done. cbn. by rewrite decide_False.
Qed.

End ListFind.

Section Merge.

Context (catalog : list Product.t) (product : Product.t).
Hypothesis in_catalog :
  List.find (λ p, N.eqb (Product._id p) (Product._id product)) catalog = Some product.

(** One turn of the loop keeps a first line that is within the stock,
    and a guest line it takes leaves one when it spells the id of the
    product as the stored ids read. *)
Lemma mergedLine_withinStock (item : GuestItem) (lines : list Cart.Line) :
  (Guest.withinStock product lines →
     Guest.withinStock product (Guest.mergedLine catalog item lines))
  ∧ (RequestId.canonical (gi_productId item) = true →
     RequestId.objectId (gi_productId item) = Product._id product →
     ¬ Guest.skipped catalog item →
     Guest.withinStock product (Guest.mergedLine catalog item lines)).
Proof.
  unfold Guest.mergedLine, Guest.skipped.
  destruct (List.find
              (λ p, N.eqb (Product._id p) (RequestId.objectId (gi_productId item)))
              catalog)
    as [q|] eqn:Hq; [|split; [done|intros _ _ Hno; by destruct Hno]].
  destruct (availableStock q <? gi_quantity item) eqn:Hstock.
  { apply Z.ltb_lt in Hstock. split; [done|intros _ _ Hno; by destruct Hno]. }
  apply Z.ltb_ge in Hstock.
  rewrite list_find_sameString.
  destruct (RequestId.canonical (gi_productId item)) eqn:Hspelling.
  2:{ split; [|done]. unfold Guest.withinStock, Guest.lineOf.
      intros (line & Hline & Hcap).
      destruct (list_find (λ cartItem, Cart.product cartItem = Product._id product) lines)
        as [[i first]|] eqn:Hfind; [|done].
      erewrite list_find_app_l; [|exact Hfind]. by exists line. }
  destruct (decide (RequestId.objectId (gi_productId item) = Product._id product))
    as [Hsame|Hother].
  - rewrite Hsame in Hq. rewrite in_catalog in Hq. injection Hq as <-.
    rewrite Hsame.
    assert (Guest.withinStock product
              match list_find (λ cartItem, Cart.product cartItem = Product._id product)
                      lines with
              | Some (existingItemIndex, existing) =>
                  <[existingItemIndex :=
                      {| Cart.product := Cart.product existing;
                         Cart.quantity :=
                           Z.min (JS.addIntegers (Cart.quantity existing)
                                    (gi_quantity item))
                             (availableStock product) |}]> lines
              | None =>
                  lines ++ [ {| Cart.product := Product._id product;
                                Cart.quantity := gi_quantity item |} ]
              end) as Hafter; [|by split].
    unfold Guest.withinStock, Guest.lineOf.
    destruct (list_find _ lines) as [[i existing]|] eqn:Hfind; cbv beta iota.
    + pose proof Hfind as (_ & Hpid & _)%list_find_Some.
      erewrite list_find_insert_same; [|exact Hfind|done].
      eexists. split; [done|]. cbn. lia.
    + rewrite list_find_app_r by done. cbn. rewrite decide_True by done.
      eexists. split; [done|]. done.
  - split; [|done]. unfold Guest.withinStock, Guest.lineOf.
    destruct (list_find
                (λ cartItem, Cart.product cartItem
                             = RequestId.objectId (gi_productId item)) lines)
      as [[i existing]|] eqn:Hfind; cbv beta iota.
    + apply list_find_Some in Hfind as (Hi & Hpid & _).
      erewrite list_find_insert_other; [done|exact Hi|congruence|cbn; congruence].
    + by rewrite list_find_push_other.
Qed.

Lemma mergedLines_withinStock (items : list GuestItem) (lines : list Cart.Line) :
  Guest.withinStock product lines
  ∨ (∃ item, item ∈ items ∧ RequestId.canonical (gi_productId item) = true
             ∧ RequestId.objectId (gi_productId item) = Product._id product
             ∧ ¬ Guest.skipped catalog item) →
  Guest.withinStock product (Guest.mergedLines catalog items lines).
Proof.
  unfold Guest.mergedLines. revert lines.
  induction items as [|first items IH]; intros lines; cbn [foldl].
  - intros [Hlines|(item & []%elem_of_nil & _)]. done.
  - intros Hstart. apply IH.
    destruct (mergedLine_withinStock first lines) as [Hkept Htaken].
    destruct Hstart
      as [Hlines|(item & [->|Hin]%elem_of_cons & Hspelling & Hpid & Hno)].
    + left. by apply Hkept.
    + left. by apply Htaken.
    + right. by exists item.
Qed.

End Merge.

(** A guest line that is skipped leaves the lines as they are. *)
Lemma mergedLines_skipped (catalog : list Product.t) (items : list GuestItem)
    (lines : list Cart.Line) :
  Forall (Guest.skipped catalog) items → Guest.mergedLines catalog items lines = lines.
Proof.
  unfold Guest.mergedLines. induction 1 as [|item items Hitem _ IH]; [done|].
  cbn [foldl]. rewrite <- IH at 2. f_equal.
  unfold Guest.mergedLine, Guest.skipped in *.
  destruct (List.find
              (λ p, N.eqb (Product._id p) (RequestId.objectId (gi_productId item)))
              catalog)
    as [q|]; [|done].
  apply Z.ltb_lt in Hitem. by rewrite Hitem.
Qed.

Section SyncRuns.

Context (user : ObjectId).

Lemma mergeGuestItem_reachable (item : GuestItem) (lines : list Cart.Line) (w : World) :
  Spec.catalogReachable w →
  mergeGuestItem item lines w
  = (Done (Guest.mergedLine (products w) item lines), bindProductModel w).
Proof.
  intros Hreach. unfold mergeGuestItem, Guest.mergedLine.
  rewrite (bind_run (Product_findById _)).
  rewrite Product_findById_reachable by done. cbv beta iota zeta.
  destruct (List.find _ (products w)) as [product|]; [|done].
  destruct (availableStock product <? gi_quantity item); [done|].
  by destruct (list_find _ lines) as [[i existing]|].
Qed.

Lemma mergeGuestItems_reachable (items : list GuestItem) (lines : list Cart.Line)
    (w : World) :
  Spec.catalogReachable w →
  mergeGuestItems items lines w
  = (Done (Guest.mergedLines (products w) items lines),
     if items is [] then w else bindProductModel w).
Proof.
  revert lines w. induction items as [|item items IH]; intros lines w Hreach; [done|].
  cbn [mergeGuestItems]. rewrite (bind_run (mergeGuestItem _ _)).
  rewrite mergeGuestItem_reachable by done. cbv beta iota.
  rewrite IH by apply catalogReachable_bind.
  unfold Guest.mergedLines. cbn [foldl products bindProductModel].
  f_equal. by destruct items.
Qed.

Lemma mergeGuestItems_unreachable (items : list GuestItem) (lines : list Cart.Line)
    (w : World) :
  ¬ Spec.catalogReachable w → items ≠ [] →
  mergeGuestItems items lines w = (Throw ProductModelNotEstablished, w).
Proof.
  intros Hno Hitems. destruct items as [|item items]; [done|].
  cbn [mergeGuestItems]. rewrite (bind_run (mergeGuestItem _ _)).
  unfold mergeGuestItem. rewrite (bind_run (Product_findById _)).
  by rewrite Product_findById_unreachable.
Qed.

(** The merge, the save and the response of syncGuestCart, from the
    lines in memory. *)
Lemma sync_tail_reachable (guest : list GuestItem) (lines : list Cart.Line) (w : World) :
  Spec.catalogReachable w →
  ∃ w',
    (merged ← mergeGuestItems guest lines;
     saved ← Cart.save user merged;
     shown ← populateCartProducts saved;
     mret {| statusCode := 200; body := CartBody user shown |}) w
    = (match Cart.validate (Guest.mergedLines (products w) guest lines) with
       | Some saved =>
           Done {| statusCode := 200; body := CartBody user (populated w saved) |}
       | None => Throw CartValidationError
       end, w')
    ∧ carts w'
      = match Cart.validate (Guest.mergedLines (products w) guest lines) with
        | Some saved => <[user := saved]> (carts w)
        | None => carts w
        end.
Proof.
  intros Hreach.
  rewrite (bind_run (mergeGuestItems _ _)).
  rewrite mergeGuestItems_reachable by done. cbv beta iota.
  set (w1 := if guest is [] then w else bindProductModel w).
  assert (Spec.catalogReachable w1) as Hreach1.
  { subst w1. destruct guest; [done|apply catalogReachable_bind]. }
  assert (carts w1 = carts w ∧ products w1 = products w) as [Hcarts1 Hproducts1].
  { subst w1. by destruct guest. }
  rewrite (bind_run (Cart.save _ _)).
  destruct (Cart.validate _) as [saved|] eqn:Hsaved.
  - rewrite (save_Some _ _ saved _ Hsaved). cbv beta iota.
    set (w2 := setCarts _ w1).
    rewrite (bind_run (populateCartProducts _)).
    rewrite populateCartProducts_reachable by (by left). cbv beta iota.
    eexists. split.
    + unfold mret, handler_ret. do 3 f_equal. unfold populated. subst w2. cbn.
      by rewrite Hproducts1.
    + subst w2. destruct saved; cbn; by rewrite Hcarts1.
  - rewrite (save_None _ _ _ Hsaved). eexists. by split.
Qed.

Lemma syncGuestCart_reachable (guest : list GuestItem) (w : World) :
  Spec.catalogReachable w →
  let stored := default [] (carts w !! user) in
  let merged := Guest.mergedLines (products w) guest (Cart.ofItem <$> stored) in
  ∃ w',
    syncGuestCart user (Some guest) w
    = (match Cart.validate merged with
       | Some saved => {| statusCode := 200; body := CartBody user (populated w saved) |}
       | None => {| statusCode := 500; body := Failure (Message CartValidationError) |}
       end, w')
    ∧ carts w' = <[user := default stored (Cart.validate merged)]> (carts w).
Proof.
  intros Hreach stored merged.
  unfold syncGuestCart, respond, tryCatch, syncGuestCart_body.
  rewrite (bind_run (Cart.findOne user)), findOne_run. cbv beta iota.
  destruct (carts w !! user) as [items|] eqn:Hcart; cbn in stored; subst stored.
  - rewrite (bind_run (mret items)). unfold mret at 1, handler_ret at 1.
    cbv beta iota.
    destruct (sync_tail_reachable guest (Cart.ofItem <$> items) w Hreach)
      as (w' & -> & Hcarts).
    fold merged in Hcarts |- *. exists w'.
    destruct (Cart.validate merged) as [saved|]; cbn [default].
    + by split.
    + split; [done|]. rewrite Hcarts. symmetry. by apply insert_id.
  - rewrite (bind_run (Cart.save user [])), (save_valid user []). cbv beta iota.
    set (w1 := setCarts _ w).
    assert (Spec.catalogReachable w1) as Hreach1 by done.
    destruct (sync_tail_reachable guest (Cart.ofItem <$> []) w1 Hreach1)
      as (w' & -> & Hcarts).
    change (products w1) with (products w) in Hcarts |- *.
    fold merged in Hcarts |- *. exists w'.
    destruct (Cart.validate merged) as [saved|]; cbn [default].
    + split; [done|]. rewrite Hcarts. subst w1. cbn. apply insert_insert_eq.
    + by split.
Qed.

Lemma syncGuestCart_unreachable (guest : list GuestItem) (w : World) :
  ¬ Spec.catalogReachable w → guest ≠ [] →
  syncGuestCart user (Some guest) w
  = ({| statusCode := 500; body := Failure (Message ProductModelNotEstablished) |},
     setCarts (<[user := default [] (carts w !! user)]> (carts w)) w).
Proof.
  intros Hno Hguest.
  unfold syncGuestCart, respond, tryCatch, syncGuestCart_body.
  rewrite (bind_run (Cart.findOne user)), findOne_run. cbv beta iota.
  destruct (carts w !! user) as [items|] eqn:Hcart; cbn [default].
  - rewrite (bind_run (mret items)). unfold mret at 1, handler_ret at 1.
    cbv beta iota. rewrite (bind_run (mergeGuestItems _ _)).
    rewrite mergeGuestItems_unreachable by done. cbn.
    by rewrite (insert_id _ _ _ Hcart), setCarts_same.
  - rewrite (bind_run (Cart.save user [])), (save_valid user []). cbv beta iota.
    rewrite (bind_run (mergeGuestItems _ _)).
    by rewrite mergeGuestItems_unreachable.
Qed.

(** A cart in memory that passes the schema is the cart that is stored. *)
Lemma validate_Some_ofItem (lines : list Cart.Line) (saved : list CartItem.t) :
  Cart.validate lines = Some saved → lines = Cart.ofItem <$> saved.
Proof.
  unfold Cart.validate. intros Hsaved%mapM_Some.
  induction Hsaved as [|line item lines saved Hline _ IH]; [done|].
  cbn. rewrite <- IH. f_equal.
  apply validateLine_Some in Hline as [Hproduct Hquantity].
  destruct line. cbn in *. unfold Cart.ofItem. by rewrite Hproduct, Hquantity.
Qed.

Lemma lineOf_ofItem (productId : ObjectId) (saved : list CartItem.t) :
  Guest.lineOf productId (Cart.ofItem <$> saved)
  = Cart.ofItem <$> Spec.lineOf productId saved.
Proof.
  unfold Guest.lineOf, Spec.lineOf. rewrite list_find_fmap.
  unfold compose. cbn [Cart.product Cart.ofItem].
  by destruct (list_find _ saved) as [[i item]|].
Qed.

End SyncRuns.

(** X16: syncGuestCart refuses a body whose items is no array before it
    reads or creates anything.  A guest line whose product is not in the
    catalog, or asks for more than is in stock, is passed over without an
    error: when every line is of that kind, the answer is 200 and the
    stored lines are as before (an empty cart for a customer who had
    none).  While the catalog cannot be reached, a guest cart with lines
    is answered 500, and a customer without a cart has got an empty one
    all the same. *)
Theorem syncGuestCart_skips_what_it_cannot_take (user : ObjectId) (w : World) :
  let before := default [] (carts w !! user) in
  syncGuestCart user None w = (fail 400 "Invalid items format", w)
  ∧ (∀ guest,
       Spec.catalogReachable w → Forall (Guest.skipped (products w)) guest →
       statusCode (syncGuestCart user (Some guest) w).1 = 200%nat
       ∧ carts (syncGuestCart user (Some guest) w).2 !! user = Some before)
  ∧ (∀ guest,
       ¬ Spec.catalogReachable w → guest ≠ [] →
       statusCode (syncGuestCart user (Some guest) w).1 = 500%nat
       ∧ carts (syncGuestCart user (Some guest) w).2 !! user = Some before).
Proof.
  intros before. split; [done|]. split.
  - intros guest Hreach Hskipped.
    destruct (syncGuestCart_reachable user guest w Hreach) as (w' & -> & Hcarts).
    rewrite mergedLines_skipped in Hcarts |- * by done.
    rewrite validate_ofItem in Hcarts |- *. cbn [fst snd default] in *.
    split; [done|]. rewrite Hcarts. apply lookup_insert_eq.
  - intros guest Hno Hguest. rewrite syncGuestCart_unreachable by done.
    split; [done|]. apply lookup_insert_eq.
Qed.

(** X17: syncGuestCart never stores more than the stock for a guest line
    it takes under the id of the product as the stored ids read.  After
    an answer of 200, for every guest line that spells the id so and
    whose product the catalog holds with enough stock for the line, the
    first cart line of that product asks for no more than the stock:
    where addToCart would refuse the sum, the merge caps it. *)
Theorem syncGuestCart_caps_a_merged_line_at_the_stock (user : ObjectId)
    (guest : list GuestItem) (w : World) (item : GuestItem) (product : Product.t) :
  let result := syncGuestCart user (Some guest) w in
  let productId := RequestId.objectId (gi_productId item) in
  statusCode result.1 = 200%nat →
  item ∈ guest →
  RequestId.canonical (gi_productId item) = true →
  List.find (λ p, N.eqb (Product._id p) productId) (products w) = Some product →
  gi_quantity item ≤ availableStock product →
  ∃ line,
    carts result.2 !! user ≫= Spec.lineOf productId = Some line
    ∧ Z.pos (CartItem.quantity line) ≤ availableStock product.
Proof.
  intros result productId Hok Hin Hspelling Hproduct Hstock. subst result productId.
  assert (guest ≠ []) as Hguest by (intros ->; by apply elem_of_nil in Hin).
  destruct (catalogReachable_dec w) as [Hreach|Hno].
  2:{ by rewrite syncGuestCart_unreachable in Hok. }
  destruct (syncGuestCart_reachable user guest w Hreach) as (w' & Hrun & Hcarts).
  rewrite Hrun in Hok |- *. cbn [fst snd] in *.
  set (merged := Guest.mergedLines _ _ _) in *.
  destruct (Cart.validate merged) as [saved|] eqn:Hsaved; [|done].
  cbn [default] in Hcarts. unfold id in Hcarts.
  rewrite Hcarts, lookup_insert_eq. cbn [mbind option_bind].
  pose proof Hproduct as [_ Hid%N.eqb_eq]%find_some.
  rewrite <- Hid in Hproduct |- *.
  assert (Guest.withinStock product merged) as (l & Hl & Hcap).
  { apply mergedLines_withinStock; [done|]. right. exists item.
    split; [done|]. split; [done|]. split; [done|]. unfold Guest.skipped.
    rewrite <- Hid, Hproduct. lia. }
  apply validate_Some_ofItem in Hsaved. rewrite Hsaved, lineOf_ofItem in Hl.
  destruct (Spec.lineOf (Product._id product) saved) as [line|]; [|done].
  injection Hl as <-. exists line. split; [done|]. exact Hcap.
Qed.

(** X17, on a concrete cart: eight apples are in the cart and ten in
    stock; the guest cart brings five more.  addToCart refuses the five,
    syncGuestCart stores ten. *)
Lemma syncGuestCart_caps_a_merged_line_at_the_stock_witness :
  let w := Fixture.world [Fixture.line 1%N 8%positive] in
  let item := {| gi_productId := RequestId.ofObjectId 1%N; gi_quantity := 5 |} in
  let result := syncGuestCart Fixture.customer (Some [item]) w in
  (addToCart Fixture.customer
     {| atc_productId := RequestId.ofObjectId 1%N; atc_quantity := Some 5 |} w).1
  = fail 400 "Insufficient stock"
  ∧ carts result.2 !! Fixture.customer = Some [Fixture.line 1%N 10%positive]
  ∧ ∃ line,
      carts result.2 !! Fixture.customer ≫= Spec.lineOf 1%N = Some line
      ∧ Z.pos (CartItem.quantity line) ≤ availableStock Fixture.apple.
Proof.
  cbv zeta. split; [by vm_compute|]. split; [by vm_compute|].
  apply (syncGuestCart_caps_a_merged_line_at_the_stock Fixture.customer
           [ {| gi_productId := RequestId.ofObjectId 1%N; gi_quantity := 5 |} ]
           (Fixture.world [Fixture.line 1%N 8%positive])
           {| gi_productId := RequestId.ofObjectId 1%N; gi_quantity := 5 |} Fixture.apple).
  - by vm_compute.
  - apply list_elem_of_singleton. done.
  - reflexivity.
  - by vm_compute.
  - by vm_compute.
Defined.

(** ** Reading orders back *)

Section Reads.

Context (newestFirst : list AdminOrder.t → list AdminOrder.t)
        (idOf : AdminOrder.t → ObjectId) (missingSchema : string).

Lemma getOrders_run (user : ObjectId) (w : World) :
  adminReady w = true →
  productModelBound w = true ∨ ordersOf user (orders w) = [] →
  getOrders newestFirst missingSchema user w
  = (Answered 200
       (getOrders_view (products w) <$> newestFirst (ordersOf user (orders w))), w).
Proof.
  intros Hready Hbound.
  unfold getOrders, answer, tryCatch, getOrders_body.
  unfold mbind, handler_bind, getAdminOrderModel, getWorld, populateProducts,
    mret, handler_ret.
  rewrite Hready.
  destruct (ordersOf user (orders w)) as [|order found] eqn:Hfound; [done|].
  destruct Hbound as [-> | ?]; done.
Qed.

Lemma getOrder_run (user orderId : ObjectId) (w : World) :
  adminReady w = true → productModelBound w = true →
  getOrder idOf missingSchema user orderId w
  = (match List.find (λ o, N.eqb (idOf o) orderId && N.eqb (AdminOrder.customer o) user)
             (orders w) with
     | Some adminOrder => Answered 200 (getOrder_view (products w) adminOrder)
     | None => Refused (fail 404 "Order not found")
     end, w).
Proof.
  intros Hready Hbound.
  unfold getOrder, answer, tryCatch, getOrder_body.
  unfold mbind, handler_bind, getAdminOrderModel, getWorld, populateProducts,
    mret, handler_ret.
  rewrite Hready.
  destruct (List.find _ (orders w)) as [adminOrder|]; [|done].
  by rewrite Hbound.
Qed.

Lemma elem_of_ordersOf (user : ObjectId) (stored : list AdminOrder.t)
    (order : AdminOrder.t) :
  order ∈ ordersOf user stored ↔ order ∈ stored ∧ AdminOrder.customer order = user.
Proof.
  unfold ordersOf. rewrite list_elem_of_In, filter_In, <- list_elem_of_In.
  by rewrite N.eqb_eq.
Qed.

End Reads.

(** X18: getOrders returns the orders of the customer who calls and no
    others.  With the admin connection ready and the Product model
    registered, it answers 200 and changes nothing; every order returned
    is filed under the caller; and an order of the store is among the
    returned ones exactly when it is the caller's.  (The result order of
    the sort is any rearrangement of the documents found.) *)
Theorem getOrders_returns_the_orders_of_the_caller_only
    (newestFirst : list AdminOrder.t → list AdminOrder.t) (missingSchema : string)
    (user : ObjectId) (w : World) :
  (∀ found, newestFirst found ≡ₚ found) →
  adminReady w = true →
  productModelBound w = true →
  ∃ views,
    getOrders newestFirst missingSchema user w = (Answered 200 views, w)
    ∧ Forall (λ view, v_customerId view = user) views
    ∧ (v_orderNumber <$> views) ≡ₚ (AdminOrder.orderNumber <$> ordersOf user (orders w))
    ∧ ∀ order, order ∈ orders w →
        (AdminOrder.customer order = user
         ↔ getOrders_view (products w) order ∈ views).
Proof.
  intros Hsort Hready Hbound. eexists. split.
  { apply getOrders_run; [done|by left]. }
  split; [|split].
  - apply Forall_fmap, Forall_forall. intros order Hin. cbn.
    rewrite Hsort in Hin. by apply elem_of_ordersOf in Hin as [_ ?].
  - rewrite <- list_fmap_compose. by rewrite Hsort.
  - intros order Hin. split.
    + intros Hmine. apply list_elem_of_fmap. exists order. split; [done|].
      rewrite Hsort. by apply elem_of_ordersOf.
    + intros (other & Hview & Hother)%list_elem_of_fmap.
      rewrite Hsort in Hother. apply elem_of_ordersOf in Hother as [_ Hmine].
      apply (f_equal v_customerId) in Hview. cbn in Hview. congruence.
Qed.

(** X18, on a concrete store: two customers have placed an order each;
    the first customer gets one order back, their own. *)
Lemma getOrders_returns_the_orders_of_the_caller_only_witness :
  let first := createOrder Fixture.env Fixture.customer Fixture.cod Fixture.twoCustomers in
  let second :=
    createOrder {| now := 1700000000001%N; random36 := "0.4fzyo82mvyr";
                   orderWriteFault := None |}
      Fixture.neighbour (Fixture.codTo 51%N) first.2 in
  (AdminOrder.customer <$> orders second.2) = [Fixture.customer; Fixture.neighbour]
  ∧ ∃ views,
      getOrders reverse "" Fixture.customer second.2 = (Answered 200 views, second.2)
      ∧ Forall (λ view, v_customerId view = Fixture.customer) views
      ∧ (v_orderNumber <$> views)
        ≡ₚ (AdminOrder.orderNumber <$> ordersOf Fixture.customer (orders second.2))
      ∧ ∀ order, order ∈ orders second.2 →
          (AdminOrder.customer order = Fixture.customer
           ↔ getOrders_view (products second.2) order ∈ views).
Proof.
  cbv zeta. split; [by vm_compute|].
  apply (getOrders_returns_the_orders_of_the_caller_only reverse "" Fixture.customer).
  - intros found. apply reverse_Permutation.
  - by vm_compute.
  - by vm_compute.
Defined.

(** X19: getOrder answers with an order only if it is filed under the
    caller.  With the admin connection ready and the Product model
    registered, it either returns the view of a stored order that has
    the id asked for and belongs to the caller, or answers 404 "Order
    not found", and then no order of the caller has that id: the order
    of another customer is answered like one that does not exist.
    Nothing is changed either way. *)
Theorem getOrder_answers_for_the_orders_of_the_caller_only
    (idOf : AdminOrder.t → ObjectId) (missingSchema : string)
    (user orderId : ObjectId) (w : World) :
  adminReady w = true →
  productModelBound w = true →
  let result := getOrder idOf missingSchema user orderId w in
  result.2 = w
  ∧ ((∃ order, order ∈ orders w ∧ idOf order = orderId ∧ AdminOrder.customer order = user
               ∧ result.1 = Answered 200 (getOrder_view (products w) order))
     ∨ (result.1 = Refused (fail 404 "Order not found")
        ∧ ∀ order, order ∈ orders w → idOf order = orderId →
                   AdminOrder.customer order ≠ user)).
Proof.
  intros Hready Hbound result. subst result.
  rewrite (getOrder_run idOf missingSchema user orderId w Hready Hbound).
  cbn [fst snd]. split; [done|].
  destruct (List.find _ (orders w)) as [adminOrder|] eqn:Hfind.
  - left. apply find_some in Hfind as [Hin [Hid%N.eqb_eq Hmine%N.eqb_eq]%andb_true_iff].
    exists adminOrder. by rewrite list_elem_of_In.
  - right. split; [done|]. intros order Hin Hid Hmine.
    apply list_elem_of_In in Hin. eapply find_none in Hfind; [|exact Hin].
    cbn in Hfind. by rewrite Hid, Hmine, !N.eqb_refl in Hfind.
Qed.

(** X19, on a concrete store: the neighbour asks for the order of the
    first customer and gets 404; the first customer gets it. *)
Lemma getOrder_answers_for_the_orders_of_the_caller_only_witness :
  let w := (createOrder Fixture.env Fixture.customer Fixture.cod Fixture.twoCustomers).2 in
  let idOf := λ _ : AdminOrder.t, 900%N in
  (getOrder idOf "" Fixture.neighbour 900%N w).1 = Refused (fail 404 "Order not found")
  ∧ (∃ view, (getOrder idOf "" Fixture.customer 900%N w).1 = Answered 200 view
             ∧ v_orderNumber view = "ORD-1700000000000-4FZYO8")
  ∧ (getOrder idOf "" Fixture.neighbour 900%N w).2 = w
  ∧ ((∃ order, order ∈ orders w ∧ idOf order = 900%N
               ∧ AdminOrder.customer order = Fixture.neighbour
               ∧ (getOrder idOf "" Fixture.neighbour 900%N w).1
                 = Answered 200 (getOrder_view (products w) order))
     ∨ ((getOrder idOf "" Fixture.neighbour 900%N w).1
        = Refused (fail 404 "Order not found")
        ∧ ∀ order, order ∈ orders w → idOf order = 900%N →
                   AdminOrder.customer order ≠ Fixture.neighbour)).
Proof.
  cbv zeta. split; [by vm_compute|]. split.
  { eexists. split; [by vm_compute|]. by vm_compute. }
  apply (getOrder_answers_for_the_orders_of_the_caller_only (λ _, 900%N) ""
           Fixture.neighbour 900%N
           (createOrder Fixture.env Fixture.customer Fixture.cod Fixture.twoCustomers).2).
  - by vm_compute.
  - by vm_compute.
Defined.

(** X20: while the admin connection is not ready, both reads answer 500
    with the message of the model proxy, "Admin DB connection not
    established", and change nothing. *)
Theorem order_reads_fail_while_the_admin_connection_is_down
    (newestFirst : list AdminOrder.t → list AdminOrder.t)
    (idOf : AdminOrder.t → ObjectId) (missingSchema : string)
    (user orderId : ObjectId) (w : World) :
  adminReady w = false →
  let down :=
    {| statusCode := 500;
       body := Failure (Message (OrderStoreFault "Admin DB connection not established")) |}
  in
  getOrders newestFirst missingSchema user w = (Refused down, w)
  ∧ getOrder idOf missingSchema user orderId w = (Refused down, w).
Proof.
  intros Hready down. subst down.
  unfold getOrders, getOrder, answer, tryCatch, getOrders_body, getOrder_body.
  unfold mbind, handler_bind, getAdminOrderModel. by rewrite Hready.
Qed.

(** X20, on a concrete system whose admin connection is down; the
    readiness gate of createOrder answers the same state with 503. *)
Lemma order_reads_fail_while_the_admin_connection_is_down_witness :
  let w := Fixture.worldNotReady [Fixture.line 1%N 2%positive] in
  let down :=
    {| statusCode := 500;
       body := Failure (Message (OrderStoreFault "Admin DB connection not established")) |}
  in
  (createOrder Fixture.env Fixture.customer Fixture.cod w).1 = Spec.serviceUnavailable
  ∧ getOrders reverse "" Fixture.customer w = (Refused down, w)
  ∧ getOrder (λ _, 900%N) "" Fixture.customer 900%N w = (Refused down, w).
Proof.
  cbv zeta. split; [by vm_compute|].
  by apply (order_reads_fail_while_the_admin_connection_is_down reverse (λ _, 900%N) ""
              Fixture.customer 900%N (Fixture.worldNotReady [Fixture.line 1%N 2%positive])).
Defined.

(** The world after createOrder has placed an order. *)
Lemma createOrder_created_world (env : Env) (user : ObjectId) (req : CreateOrderBody)
    (w : World) :
  statusCode (createOrder env user req w).1 = 201%nat →
  ∃ order,
    (createOrder env user req w).2
    = setCarts (<[user := []]> (carts w))
        (setOrders (orders w ++ [order]) (bindProductModel w)).
Proof.
  intros Hcreated.
  pose proof (createOrder_created_accepted env user req w Hcreated)
    as (_ & method' & Hmethod' & Hne & Hrazorpay).
  destruct (createOrder_created_placed env user req w Hcreated)
    as (id & method & items & address & order & Hid & Hmethod & Hcart & Hitems
        & Haddress & Hall & Hready & Hfault & Hvalid & Hfresh & _).
  rewrite Hmethod in Hmethod'. injection Hmethod' as <-.
  exists order.
  rewrite (createOrder_reaches_place env user req w id method items address)
    by (done || by right).
  unfold respond, tryCatch.
  rewrite createOrder_place_ready by done.
  unfold AdminOrder_create. cbn [adminReady bindProductModel]. rewrite Hready, Hfault.
  cbn [negb]. fold (Spec.productMapOf w items). rewrite Hvalid.
  cbn [orders bindProductModel]. by rewrite bool_decide_eq_false_2 by done.
Qed.

(** X21: an order that createOrder has placed is read back by getOrders
    as the response described it: same order number, customer, amounts
    and lines, order status "placed", payment status "pending" for
    "cod" and "paid" otherwise.  The payment method comes back as sent
    for "cod" and "razorpay" only; every other method comes back as
    "other". *)
Theorem getOrders_reads_back_a_created_order (env : Env)
    (newestFirst : list AdminOrder.t → list AdminOrder.t) (missingSchema : string)
    (user : ObjectId) (req : CreateOrderBody) (w : World) :
  (∀ found, newestFirst found ≡ₚ found) →
  let created := createOrder env user req w in
  statusCode created.1 = 201%nat →
  ∃ method response views view,
    paymentMethod req = Some method
    ∧ body created.1 = OrderBody response
    ∧ getOrders newestFirst missingSchema user created.2 = (Answered 200 views, created.2)
    ∧ view ∈ views
    ∧ v_orderNumber view = r_orderNumber response
    ∧ v_customerId view = r_customerId response
    ∧ (v_subtotal view, v_tax view, v_deliveryFee view, v_total view)
      = (r_subtotal response, r_tax response, r_deliveryFee response, r_total response)
    ∧ ((λ i, (vi_name i, vi_price i, vi_quantity i)) <$> v_items view)
      = ((λ i, (ri_name i, ri_price i, ri_quantity i)) <$> r_items response)
    ∧ v_orderStatus view = JS.VStr (r_orderStatus response)
    ∧ v_paymentStatus view = JS.VStr (r_paymentStatus response)
    ∧ v_paymentMethod view
      = JS.VStr (if String.eqb method "cod" then "cod"
                 else if String.eqb method "razorpay" then "razorpay" else "other").
Proof.
  intros Hsort created Hcreated. subst created.
  destruct (createOrder_created_world env user req w Hcreated) as [stored Hworld].
  destruct (createOrder_created_placed env user req w Hcreated)
    as (id & method & items & address & order & _ & Hmethod & _ & _ & _ & _ & Hready & _
        & Hvalid & _ & Hresp & Horders & _).
  pose proof (validate_fields _ _ Hvalid)
    as (_ & Hcustomer & _ & _ & _ & _ & _ & Hstatus & _ & _).
  cbn in Hcustomer, Hstatus.
  apply (validated_payment_fields method) in Hvalid as (_ & Hpm & Hps); [|done..].
  set (r := createOrder env user req w) in *.
  assert (adminReady r.2 = true ∧ productModelBound r.2 = true) as [Hready' Hbound'].
  { rewrite Hworld. by cbn. }
  exists method, (orderResponseOf order
                    (Spec.pushedFor (Spec.productMapOf w items) items) address method).
  eexists. exists (getOrders_view (products r.2) order).
  split; [done|]. split; [by rewrite Hresp|]. split.
  { apply getOrders_run; [done|by left]. }
  split.
  { apply list_elem_of_fmap. exists order. split; [done|]. rewrite Hsort.
    apply elem_of_ordersOf. split; [|done]. rewrite Horders. set_solver. }
  split; [done|]. split; [done|]. split; [done|]. split.
  { cbn [v_items getOrders_view r_items orderResponseOf].
    by rewrite <- !list_fmap_compose. }
  cbn [v_orderStatus v_paymentStatus v_paymentMethod getOrders_view
       r_orderStatus r_paymentStatus orderResponseOf].
  rewrite Hstatus, Hpm, Hps. split; [done|].
  destruct (String.eqb method "cod"); [done|].
  by destruct (String.eqb method "razorpay").
Qed.

(** X21, on a concrete order paid by "card": it is read back with
    payment method "other". *)
Lemma getOrders_reads_back_a_created_order_witness :
  let req := {| addressId := Some 50%N; paymentMethod := Some "card";
                razorpayOrderId := None; razorpayPaymentId := None |} in
  let created :=
    createOrder Fixture.env Fixture.customer req
      (Fixture.world [Fixture.line 1%N 2%positive]) in
  statusCode created.1 = 201%nat
  ∧ ∃ method response views view,
      paymentMethod req = Some method
      ∧ body created.1 = OrderBody response
      ∧ getOrders reverse "" Fixture.customer created.2 = (Answered 200 views, created.2)
      ∧ view ∈ views
      ∧ v_orderNumber view = r_orderNumber response
      ∧ v_customerId view = r_customerId response
      ∧ (v_subtotal view, v_tax view, v_deliveryFee view, v_total view)
        = (r_subtotal response, r_tax response, r_deliveryFee response, r_total response)
      ∧ ((λ i, (vi_name i, vi_price i, vi_quantity i)) <$> v_items view)
        = ((λ i, (ri_name i, ri_price i, ri_quantity i)) <$> r_items response)
      ∧ v_orderStatus view = JS.VStr (r_orderStatus response)
      ∧ v_paymentStatus view = JS.VStr (r_paymentStatus response)
      ∧ v_paymentMethod view
        = JS.VStr (if String.eqb method "cod" then "cod"
                   else if String.eqb method "razorpay" then "razorpay" else "other").
Proof.
  cbv zeta. split; [by vm_compute|].
  apply (getOrders_reads_back_a_created_order Fixture.env reverse "" Fixture.customer
           {| addressId := Some 50%N; paymentMethod := Some "card";
              razorpayOrderId := None; razorpayPaymentId := None |}
           (Fixture.world [Fixture.line 1%N 2%positive])).
  - intros found. apply reverse_Permutation.
  - by vm_compute.
Defined.

(** ** When createOrder places an order *)

Section Accepting.

Lemma Qplus_nonneg (a b : Q) : (0 <= a)%Q → (0 <= b)%Q → (0 <= a + b)%Q.
Proof.
  intros Ha Hb. apply (Qle_trans _ (0 + 0)); [done|]. by apply Qplus_le_compat.
Qed.

Lemma addedUp_nonneg (pushed : list OrderItem) (subtotal : Q) :
  (0 <= subtotal)%Q →
  Forall (λ oi, (0 <= oi_price oi)%Q ∧ 0 ≤ oi_quantity oi) pushed →
  (0 <= Spec.addedUp subtotal pushed)%Q.
Proof.
  intros Hsubtotal Hpushed. revert subtotal Hsubtotal. unfold Spec.addedUp.
  induction Hpushed as [|oi pushed [Hprice Hquantity] _ IH]; intros subtotal Hsubtotal;
    [done|].
  cbn [foldl]. apply IH. apply Qplus_nonneg; [done|].
  apply Qmult_le_0_compat; [done|]. by rewrite <- (Zle_Qle 0).
Qed.

Lemma deliveryFeeOf_nonneg (subtotal : Q) : (0 <= deliveryFeeOf subtotal)%Q.
Proof. unfold deliveryFeeOf, DELIVERY_FEE. by destruct (Qle_bool 500 subtotal). Qed.

(** A line whose snapshot in the product map has stock for it, a name
    and a price that is not negative. *)
Lemma pushedFor_valid (productMap : gmap ObjectId Product.t) (items : list CartItem.t) :
  Forall (λ item,
            ∃ p, productMap !! CartItem.product item = Some p
                 ∧ Z.pos (CartItem.quantity item) ≤ availableStock p
                 ∧ Product.name p ≠ "" ∧ (0 <= Product.price p)%Q) items →
  Forall (Spec.acceptedBy productMap) items
  ∧ Forall (λ oi, oi_name oi ≠ "" ∧ (0 <= oi_price oi)%Q ∧ 1 ≤ oi_quantity oi)
      (Spec.pushedFor productMap items).
Proof.
  induction 1 as [|item items (p & Hp & Hstock & Hname & Hprice) _ [IHa IHv]];
    [by split|].
  split; [constructor; [by exists p|done]|].
  cbn [Spec.pushedFor omap list_omap]. rewrite Hp. cbn [mbind option_bind].
  constructor; [|done]. cbn. repeat split; try done. lia.
Qed.

(** The draft of a cart of such lines passes the schema when the payment
    method is not named like an inherited member. *)
Lemma draftFor_validates (env : Env) (user : ObjectId) (method : string)
    (address : Address.t) (productMap : gmap ObjectId Product.t)
    (items : list CartItem.t) :
  method ∉ JS.objectPrototypeKeys →
  Forall (λ oi, oi_name oi ≠ "" ∧ (0 <= oi_price oi)%Q ∧ 1 ≤ oi_quantity oi)
    (Spec.pushedFor productMap items) →
  is_Some (AdminOrder.validate (Spec.draftFor env user method address productMap items)).
Proof.
  intros Hproto Hpushed. unfold AdminOrder.validate, Spec.draftFor, orderDraft.
  cbv zeta. cbn [AdminOrder.d_orderNumber AdminOrder.d_items AdminOrder.d_subtotal
                 AdminOrder.d_tax AdminOrder.d_shipping AdminOrder.d_total
                 AdminOrder.d_status AdminOrder.d_paymentMethod
                 AdminOrder.d_paymentStatus AdminOrder.d_customer
                 AdminOrder.d_shippingAddress].
  set (pushed := Spec.pushedFor productMap items) in *.
  assert (0 <= Spec.addedUp 0 pushed)%Q as Hsubtotal.
  { apply addedUp_nonneg; [done|]. eapply Forall_impl; [exact Hpushed|].
    intros oi (_ & Hprice & Hquantity). split; [done|lia]. }
  assert (0 <= taxOf (Spec.addedUp 0 pushed))%Q as Htax.
  { unfold taxOf, TAX_RATE. by apply Qmult_le_0_compat. }
  pose proof (deliveryFeeOf_nonneg (Spec.addedUp 0 pushed)) as Hfee.
  assert (AdminOrder.requiredString (orderNumberOf (now env) (random36 env)) = true)
    as -> by done.
  assert (forallb AdminOrder.itemValid (adminOrderItem <$> pushed) = true) as ->.
  { apply forallb_forall. intros i Hin%list_elem_of_In.
    apply list_elem_of_fmap in Hin as (oi & -> & Hoi).
    rewrite Forall_forall in Hpushed.
    destruct (Hpushed oi Hoi) as (Hname & Hprice & Hquantity).
    unfold AdminOrder.itemValid, adminOrderItem, AdminOrder.requiredString,
      AdminOrder.nonNegative. cbn.
    destruct (String.eqb_spec (oi_name oi) "") as [?|_]; [done|].
    apply Z.leb_le in Hquantity. rewrite Hquantity. cbn.
    assert (Qle_bool 0 (oi_price oi) = true) as -> by (by apply Qle_bool_iff).
    cbn. apply Qle_bool_iff, Qmult_le_0_compat; [done|].
    rewrite <- (Zle_Qle 0). apply Z.leb_le in Hquantity. lia. }
  unfold AdminOrder.nonNegative.
  assert (Qle_bool 0 (Spec.addedUp 0 pushed) = true) as -> by (by apply Qle_bool_iff).
  assert (Qle_bool 0 (taxOf (Spec.addedUp 0 pushed)) = true) as ->
    by (by apply Qle_bool_iff).
  assert (Qle_bool 0 (deliveryFeeOf (Spec.addedUp 0 pushed)) = true) as ->
    by (by apply Qle_bool_iff).
  assert (Qle_bool 0 (Spec.addedUp 0 pushed + taxOf (Spec.addedUp 0 pushed)
                      + deliveryFeeOf (Spec.addedUp 0 pushed)) = true) as ->.
  { apply Qle_bool_iff. by repeat apply Qplus_nonneg. }
  cbn [andb]. rewrite bool_decide_eq_true_2 by (unfold AdminOrder.statusEnum; set_solver).
  assert (∃ pm, Enum.paymentMethodToShared method = JS.VStr pm
                ∧ pm ∈ AdminOrder.paymentMethodEnum) as (pm & -> & Hpm).
  { unfold AdminOrder.paymentMethodEnum.
    destruct (String.eqb_spec method "cod") as [->|Hcod].
    { exists "CASH". split; [done|set_solver]. }
    destruct (String.eqb_spec method "razorpay") as [->|Hrazorpay].
    { exists "ONLINE". split; [done|set_solver]. }
    exists "OTHER". split; [by apply paymentMethodToShared_unmapped|set_solver]. }
  assert (∃ ps, Enum.paymentStatusToShared method = JS.VStr ps
                ∧ ps ∈ AdminOrder.paymentStatusEnum) as (ps & -> & Hps).
  { unfold Enum.paymentStatusToShared, AdminOrder.paymentStatusEnum.
    destruct (String.eqb method "cod"); eexists; (split; [done|set_solver]). }
  cbn [AdminOrder.enumString]. rewrite !bool_decide_eq_true_2 by done. by eexists.
Qed.

End Accepting.

(** X22: createOrder places the order of a cart whenever nothing stands
    against it.  The request passes the checks on the body and names an
    address of the customer; the payment method is not named like an
    inherited object member; the cart has lines, and each resolves to an
    active product with a name, a price that is not negative and stock
    for the line; the admin connection is ready, the write meets no
    outside fault and the order number is not in the store: then the
    answer is 201. *)
Theorem createOrder_places_the_order_of_a_sound_cart (env : Env) (user : ObjectId)
    (req : CreateOrderBody) (w : World) (items : list CartItem.t) :
  Spec.requestAccepted req →
  (∀ method, paymentMethod req = Some method → method ∉ JS.objectPrototypeKeys) →
  Spec.addressFound w user req →
  carts w !! user = Some items → items ≠ [] →
  Forall (λ item,
            ∃ p, Spec.snapshot w items (CartItem.product item) = Some p
                 ∧ Z.pos (CartItem.quantity item) ≤ availableStock p
                 ∧ Product.name p ≠ "" ∧ (0 <= Product.price p)%Q) items →
  adminReady w = true →
  orderWriteFault env = None →
  orderNumberOf (now env) (random36 env) ∉ (AdminOrder.orderNumber <$> orders w) →
  statusCode (createOrder env user req w).1 = 201%nat.
Proof.
  intros (_ & method & Hmethod & Hne & Hrazorpay) Hproto (id & address & Hid & Haddress)
    Hcart Hitems Hlines Hready Hfault Hfresh.
  specialize (Hproto method Hmethod).
  apply pushedFor_valid in Hlines as [Hall Hpushed].
  destruct (draftFor_validates env user method address _ items Hproto Hpushed)
    as [order Hvalid].
  rewrite (createOrder_reaches_place env user req w id method items address)
    by (done || by right).
  unfold respond, tryCatch.
  rewrite createOrder_place_ready by done.
  unfold AdminOrder_create. cbn [adminReady bindProductModel]. rewrite Hready, Hfault.
  cbn [negb]. fold (Spec.productMapOf w items). rewrite Hvalid.
  cbn [orders bindProductModel].
  apply validate_fields in Hvalid as (Hnumber & _). cbn in Hnumber.
  rewrite Hnumber. by rewrite bool_decide_eq_false_2 by done.
Qed.

(** X22, on a concrete cart: two apples and one rice, paid on delivery. *)
Lemma createOrder_places_the_order_of_a_sound_cart_witness :
  statusCode
    (createOrder Fixture.env Fixture.customer Fixture.cod
       (Fixture.world [Fixture.line 1%N 2%positive; Fixture.line 4%N 1%positive])).1
  = 201%nat.
Proof.
  apply (createOrder_places_the_order_of_a_sound_cart Fixture.env Fixture.customer
           Fixture.cod _ [Fixture.line 1%N 2%positive; Fixture.line 4%N 1%positive]).
  - split; [by eexists|]. exists "cod". by repeat split.
  - intros method [= <-]. apply (bool_decide_unpack _). by vm_compute.
  - exists 50%N, Fixture.home. split; [done|]. by vm_compute.
  - by vm_compute.
  - done.
  - repeat constructor.
    + exists Fixture.apple. split; [by vm_compute|]. by repeat split.
    + exists Fixture.rice. split; [by vm_compute|]. by repeat split.
  - done.
  - done.
  - cbn. apply not_elem_of_nil.
Defined.

(** ** What addToCart answers *)

Section CartSchema.

Lemma validateLine_is_Some (l : Cart.Line) :
  is_Some (Cart.validateLine l) ↔ 1 ≤ Cart.quantity l.
Proof.
  unfold Cart.validateLine. destruct (Cart.quantity l); split; intros H;
    try done; try lia; by inversion H.
Qed.

Lemma validate_stored (items : list CartItem.t) :
  Forall (is_Some ∘ Cart.validateLine) (Cart.ofItem <$> items).
Proof.
  apply Forall_fmap, Forall_forall. intros item _. by eexists.
Qed.

Lemma validate_insert_is_Some (items : list CartItem.t) (i : nat) (l : Cart.Line) :
  (i < length items)%nat →
  is_Some (Cart.validate (<[i := l]> (Cart.ofItem <$> items))) ↔ 1 ≤ Cart.quantity l.
Proof.
  intros Hi. unfold Cart.validate. rewrite mapM_is_Some, <- validateLine_is_Some.
  split.
  - intros Hall. rewrite Forall_lookup in Hall. apply (Hall i).
    apply list_lookup_insert_eq. by rewrite length_fmap.
  - intros Hl. apply Forall_insert; [apply validate_stored|done].
Qed.

Lemma validate_push_is_Some (items : list CartItem.t) (l : Cart.Line) :
  is_Some (Cart.validate ((Cart.ofItem <$> items) ++ [l])) ↔ 1 ≤ Cart.quantity l.
Proof.
  unfold Cart.validate. rewrite mapM_is_Some, <- validateLine_is_Some, Forall_app.
  rewrite Forall_singleton. split; [by intros [_ ?]|].
  intros Hl. split; [apply validate_stored|done].
Qed.

(** The end of a cart handler from the save on, by the schema. *)
Lemma save_then_show_code (user : ObjectId) (lines : list Cart.Line) (w : World) :
  productModelBound w = true →
  statusCode
    (respond
       (tryCatch
          (saved ← Cart.save user lines;
           shown ← populateCartProducts saved;
           mret {| statusCode := 200; body := CartBody user shown |})
          cartCatch) w).1
  = (if Cart.validate lines is Some _ then 200 else 500)%nat.
Proof.
  intros Hbound. unfold respond, tryCatch.
  rewrite (bind_run (Cart.save user lines)).
  destruct (Cart.validate lines) as [saved|] eqn:Hsaved.
  - rewrite (save_Some _ _ saved _ Hsaved). cbv beta iota.
    by rewrite populate_then_respond.
  - by rewrite (save_None _ _ _ Hsaved).
Qed.

End CartSchema.

(** X23: what addToCart answers for a product of the catalog depends on
    three numbers only: the quantity added (1 when the request names
    none), the quantity held by the cart line the handler finds for the
    request, and the stock.  The line found is the first cart line of the
    product when the request spells the id of the product as the stored
    ids read, and none when it spells it otherwise or the cart has no
    such line.  The quantity asked of the line is the JavaScript sum of
    what the line found holds and the quantity added, or the quantity
    added alone when no line is found.  The answer is 400 when the
    quantity added or the quantity asked of the line exceeds the stock,
    500 when the quantity asked of the line is below 1 (the schema of
    the cart refuses the line), and 200 otherwise.  So a quantity below 1
    is taken as long as the line stays at 1 or more: the request is not
    checked for its sign. *)
Theorem addToCart_answers_by_the_quantities (user : ObjectId) (req : AddToCartBody)
    (w : World) (product : Product.t) :
  Spec.catalogReachable w →
  List.find (λ p, N.eqb (Product._id p) (RequestId.objectId (atc_productId req)))
    (products w)
  = Some product →
  let added := default 1 (atc_quantity req) in
  let found :=
    if RequestId.canonical (atc_productId req)
    then carts w !! user ≫= Spec.lineOf (RequestId.objectId (atc_productId req))
    else None in
  let asked :=
    match found with
    | Some line => JS.addIntegers (Z.pos (CartItem.quantity line)) added
    | None => added
    end in
  statusCode (addToCart user req w).1
  = if (availableStock product <? added) || (availableStock product <? asked)
    then 400%nat
    else if asked <? 1 then 500%nat else 200%nat.
Proof.
  intros Hreach Hproduct added found asked.
  unfold addToCart, addToCart_body. cbv zeta. fold added.
  assert (∀ lines,
            statusCode
              (respond
                 (tryCatch
                    (saved ← Cart.save user lines;
                     shown ← populateCartProducts saved;
                     mret {| statusCode := 200; body := CartBody user shown |})
                    cartCatch) (bindProductModel w)).1
            = (if Cart.validate lines is Some _ then 200 else 500)%nat) as Htail.
  { intros lines. by apply save_then_show_code. }
  assert (∀ items : list CartItem.t,
            statusCode
              (respond
                 (tryCatch
                    (saved ← Cart.save user
                               ((Cart.ofItem <$> items)
                                  ++ [ {| Cart.product :=
                                            RequestId.objectId (atc_productId req);
                                          Cart.quantity := added |} ]);
                     shown ← populateCartProducts saved;
                     mret {| statusCode := 200; body := CartBody user shown |})
                    cartCatch) (bindProductModel w)).1
            = if added <? 1 then 500%nat else 200%nat) as Hpush.
  { intros items. rewrite Htail.
    pose proof (validate_push_is_Some items
                  {| Cart.product := RequestId.objectId (atc_productId req);
                     Cart.quantity := added |})
      as Hvalid.
    cbn [Cart.quantity] in Hvalid.
    destruct (Cart.validate _) as [saved|].
    - destruct Hvalid as [Hvalid _]. specialize (Hvalid (mk_is_Some _ _ eq_refl)).
      apply Z.ltb_ge in Hvalid. by rewrite Hvalid.
    - destruct (Z.ltb_spec added 1) as [|Hle]; [done|].
      destruct Hvalid as [_ Hvalid]. by destruct (Hvalid Hle). }
  unfold respond, tryCatch in *.
  rewrite (bind_run (Product_findById _)).
  rewrite Product_findById_reachable by done. cbv beta iota. rewrite Hproduct.
  destruct (availableStock product <? added) eqn:Hadded; [done|]. cbn [orb].
  rewrite (bind_run (Cart.findOne user)), findOne_run. cbv beta iota.
  cbn [carts bindProductModel]. subst asked found.
  destruct (carts w !! user) as [items|] eqn:Hcart; cbn [mbind option_bind].
  - rewrite list_find_sameString.
    destruct (RequestId.canonical (atc_productId req)) eqn:Hspelling.
    + rewrite lineOf_find.
      destruct (list_find _ items) as [[i existing]|] eqn:Hfind;
        cbn [fmap option_fmap option_map snd].
      * destruct (availableStock product
                  <? JS.addIntegers (Z.pos (CartItem.quantity existing)) added)
          eqn:Hsum; [done|].
        rewrite Htail.
        apply list_find_Some in Hfind as (Hi%lookup_lt_Some & _ & _).
        pose proof (validate_insert_is_Some items i
                      {| Cart.product := CartItem.product existing;
                         Cart.quantity :=
                           JS.addIntegers (Z.pos (CartItem.quantity existing)) added |}
                      Hi) as Hvalid.
        cbn [Cart.quantity] in Hvalid.
        destruct (Cart.validate _) as [saved|].
        -- destruct Hvalid as [Hvalid _]. specialize (Hvalid (mk_is_Some _ _ eq_refl)).
           apply Z.ltb_ge in Hvalid. by rewrite Hvalid.
        -- destruct (Z.ltb_spec
                       (JS.addIntegers (Z.pos (CartItem.quantity existing)) added) 1)
             as [|Hle]; [done|].
           destruct Hvalid as [_ Hvalid]. by destruct (Hvalid Hle).
      * rewrite Hadded. apply Hpush.
    + cbv beta iota. rewrite Hadded. apply Hpush.
  - destruct (RequestId.canonical (atc_productId req)); cbv beta iota;
      rewrite Hadded; apply (Hpush []).
Qed.

(** X23, on a concrete cart of three apples with ten in stock: taking
    two away is answered 200 and leaves one; taking three away is
    answered 500 and leaves three; eight more are answered 400, and 200
    when the request spells the id in upper case. *)
Lemma addToCart_answers_by_the_quantities_witness :
  let w := Fixture.world [Fixture.line 1%N 3%positive] in
  let add := λ quantity,
    addToCart Fixture.customer
      {| atc_productId := RequestId.ofObjectId 1%N; atc_quantity := Some quantity |} w
  in
  let respelled :=
    addToCart Fixture.customer
      {| atc_productId := RequestId.respelled 1%N; atc_quantity := Some 8 |} w in
  carts (add (-2)).2 !! Fixture.customer = Some [Fixture.line 1%N 1%positive]
  ∧ carts (add (-3)).2 !! Fixture.customer = Some [Fixture.line 1%N 3%positive]
  ∧ statusCode (add (-2)).1 = 200%nat
  ∧ statusCode (add (-3)).1 = 500%nat
  ∧ statusCode (add 8).1 = 400%nat
  ∧ statusCode respelled.1 = 200%nat.
Proof.
  cbv zeta. split; [by vm_compute|]. split; [by vm_compute|].
  assert (Spec.catalogReachable (Fixture.world [Fixture.line 1%N 3%positive])) as Hreach
    by (by left).
  assert (List.find (λ p, N.eqb (Product._id p) 1%N)
            (products (Fixture.world [Fixture.line 1%N 3%positive]))
          = Some Fixture.apple) as Hproduct by done.
  split; [|split; [|split]].
  - exact (addToCart_answers_by_the_quantities Fixture.customer
             {| atc_productId := RequestId.ofObjectId 1%N; atc_quantity := Some (-2) |}
             _ _ Hreach Hproduct).
  - exact (addToCart_answers_by_the_quantities Fixture.customer
             {| atc_productId := RequestId.ofObjectId 1%N; atc_quantity := Some (-3) |}
             _ _ Hreach Hproduct).
  - exact (addToCart_answers_by_the_quantities Fixture.customer
             {| atc_productId := RequestId.ofObjectId 1%N; atc_quantity := Some 8 |}
             _ _ Hreach Hproduct).
  - exact (addToCart_answers_by_the_quantities Fixture.customer
             {| atc_productId := RequestId.respelled 1%N; atc_quantity := Some 8 |}
             _ _ Hreach Hproduct).
Defined.

(** ** populateCartProducts *)

Lemma elem_of_attachProducts (productMap : gmap ObjectId Product.t)
    (items : list CartItem.t) (line : PopulatedItem) :
  line ∈ attachProducts productMap items →
  ∃ item, item ∈ items
          ∧ productMap !! CartItem.product item = Some (pi_product line)
          ∧ pi_quantity line = CartItem.quantity item.
Proof.
  unfold attachProducts. intros (item & Hin & Hline)%list_elem_of_omap.
  exists item. split; [done|].
  destruct (productMap !! CartItem.product item) as [p|]; [|done].
  cbn in Hline. by injection Hline as <-.
Qed.

(** X24: a cart response never shows a product that is not active.
    Every line that populateCartProducts returns carries a catalog
    product with status ACTIVE whose id is the reference of a stored
    line, with the quantity of that line; the lines shown are the stored
    lines whose product is active, in their order; the stored carts are
    not touched. *)
Theorem populateCartProducts_shows_active_products_only (items : list CartItem.t)
    (w w' : World) (shown : list PopulatedItem) :
  populateCartProducts items w = (Done shown, w') →
  Forall (λ line,
            pi_product line ∈ products w
            ∧ Product.status (pi_product line) = Product.ACTIVE
            ∧ ∃ item, item ∈ items
                      ∧ CartItem.product item = Product._id (pi_product line)
                      ∧ CartItem.quantity item = pi_quantity line) shown
  ∧ Spec.shownLines shown
    = Spec.linesOf
        (List.filter (λ item, Spec.resolvesActiveb w (CartItem.product item)) items)
  ∧ carts w' = carts w.
Proof.
  intros Hrun.
  assert (shown = populated w items ∧ carts w' = carts w) as [-> Hcarts].
  { destruct (decide (items = [])) as [->|Hitems]; [by injection Hrun as <- <-|].
    destruct (catalogReachable_dec w) as [Hreach|Hno].
    - rewrite populateCartProducts_reachable in Hrun by (by left).
      injection Hrun as <- <-. by destruct items.
    - by rewrite populateCartProducts_unreachable in Hrun. }
  split; [|split; [apply populated_shows_resolving|done]].
  apply Forall_forall. intros line Hline.
  apply elem_of_attachProducts in Hline as (item & Hin & Hp & Hquantity).
  pose proof (snapshot_active w items _ _ Hp) as (Hcat & Hid & Hstatus).
  split; [done|]. split; [done|]. by exists item.
Qed.

(** X24, on a concrete cart: apples, tea (inactive) and a product the
    catalog does not hold; only the apples are shown. *)
Lemma populateCartProducts_shows_active_products_only_witness :
  let cart := [Fixture.line 1%N 2%positive; Fixture.line 5%N 1%positive;
               Fixture.line 9%N 1%positive] in
  let w := Fixture.world cart in
  let shown := [ {| pi_product := Fixture.apple; pi_quantity := 2%positive |} ] in
  populateCartProducts cart w = (Done shown, w)
  ∧ Forall (λ line,
              pi_product line ∈ products w
              ∧ Product.status (pi_product line) = Product.ACTIVE
              ∧ ∃ item, item ∈ cart
                        ∧ CartItem.product item = Product._id (pi_product line)
                        ∧ CartItem.quantity item = pi_quantity line) shown
  ∧ Spec.shownLines shown
    = Spec.linesOf
        (List.filter (λ item, Spec.resolvesActiveb w (CartItem.product item)) cart)
  ∧ carts w = carts w.
Proof.
  cbv zeta.
  assert (populateCartProducts
            [Fixture.line 1%N 2%positive; Fixture.line 5%N 1%positive;
             Fixture.line 9%N 1%positive]
            (Fixture.world [Fixture.line 1%N 2%positive; Fixture.line 5%N 1%positive;
                            Fixture.line 9%N 1%positive])
          = (Done [ {| pi_product := Fixture.apple; pi_quantity := 2%positive |} ],
             Fixture.world [Fixture.line 1%N 2%positive; Fixture.line 5%N 1%positive;
                            Fixture.line 9%N 1%positive])) as Hrun by (by vm_compute).
  split; [exact Hrun|].
  exact (populateCartProducts_shows_active_products_only _ _ _ _ Hrun).
Defined.

(** ** The tables of the order reads *)

(** X26: for an order whose three enumerated fields are within the
    enums of its schema, getOrders and getOrder show the same view, and
    each of the three fields is translated by an own entry of its table:
    no fallback and no inherited member.  The payment status comes back
    as the word that createOrder's table maps to it. *)
Theorem order_reads_translate_the_schema_enums_by_their_tables
    (catalog : list Product.t) (order : AdminOrder.t) :
  AdminOrder.status order ∈ AdminOrder.statusEnum →
  AdminOrder.paymentMethod order ∈ AdminOrder.paymentMethodEnum →
  AdminOrder.paymentStatus order ∈ AdminOrder.paymentStatusEnum →
  let view := getOrders_view catalog order in
  getOrder_view catalog order = view
  ∧ (∃ status, JS.ownProperty Enum.getOrders_statusMap (AdminOrder.status order)
               = Some status
               ∧ v_orderStatus view = JS.VStr status)
  ∧ (∃ method, JS.ownProperty Enum.getOrders_paymentMethodMap
                 (AdminOrder.paymentMethod order) = Some method
               ∧ v_paymentMethod view = JS.VStr method)
  ∧ (∃ paid, JS.ownProperty Enum.getOrders_paymentStatusMap
               (AdminOrder.paymentStatus order) = Some paid
             ∧ v_paymentStatus view = JS.VStr paid
             ∧ JS.get Enum.createOrder_paymentStatusMap paid
               = JS.VStr (AdminOrder.paymentStatus order)).
Proof.
  intros Hstatus Hmethod Hpaid view. subst view. split; [done|].
  cbn [v_orderStatus v_paymentMethod v_paymentStatus getOrders_view].
  unfold AdminOrder.statusEnum, AdminOrder.paymentMethodEnum,
    AdminOrder.paymentStatusEnum in *.
  split; [|split].
  - repeat (apply elem_of_cons in Hstatus as [->|Hstatus]; [by eexists|]).
    by apply elem_of_nil in Hstatus.
  - repeat (apply elem_of_cons in Hmethod as [->|Hmethod]; [by eexists|]).
    by apply elem_of_nil in Hmethod.
  - repeat (apply elem_of_cons in Hpaid as [->|Hpaid]; [by eexists|]).
    by apply elem_of_nil in Hpaid.
Qed.

(** X26, on a concrete order: packed, paid by card, refunded. *)
Lemma order_reads_translate_the_schema_enums_by_their_tables_witness :
  let order :=
    {| AdminOrder.orderNumber := "ORD-1700000000000-4FZYO8";
       AdminOrder.customer := Fixture.customer; AdminOrder.items := [];
       AdminOrder.subtotal := 0; AdminOrder.tax := 0; AdminOrder.shipping := 0;
       AdminOrder.total := 0; AdminOrder.status := "PACKED";
       AdminOrder.paymentMethod := "CARD"; AdminOrder.paymentStatus := "REFUNDED";
       AdminOrder.shippingAddress := shippingAddressOf Fixture.home |} in
  let view := getOrders_view [] order in
  (v_orderStatus view, v_paymentMethod view, v_paymentStatus view)
  = (JS.VStr "processing", JS.VStr "card", JS.VStr "refunded")
  ∧ getOrder_view [] order = view
  ∧ (∃ status, JS.ownProperty Enum.getOrders_statusMap (AdminOrder.status order)
               = Some status
               ∧ v_orderStatus view = JS.VStr status)
  ∧ (∃ method, JS.ownProperty Enum.getOrders_paymentMethodMap
                 (AdminOrder.paymentMethod order) = Some method
               ∧ v_paymentMethod view = JS.VStr method)
  ∧ (∃ paid, JS.ownProperty Enum.getOrders_paymentStatusMap
               (AdminOrder.paymentStatus order) = Some paid
             ∧ v_paymentStatus view = JS.VStr paid
             ∧ JS.get Enum.createOrder_paymentStatusMap paid
               = JS.VStr (AdminOrder.paymentStatus order)).
Proof.
  cbv zeta. split; [by vm_compute|].
  apply (order_reads_translate_the_schema_enums_by_their_tables []).
  - apply (bool_decide_unpack _). by vm_compute.
  - apply (bool_decide_unpack _). by vm_compute.
  - apply (bool_decide_unpack _). by vm_compute.
Defined.

(** ** syncGuestCart and addToCart *)

Lemma list_find_ofItem (productId : ObjectId) (items : list CartItem.t) :
  list_find (λ cartItem, Cart.product cartItem = productId) (Cart.ofItem <$> items)
  = prod_map id Cart.ofItem
      <$> list_find (λ item, CartItem.product item = productId) items.
Proof. by rewrite list_find_fmap. Qed.

(** X27: for one product, syncGuestCart stores what addToCart stores.
    Whenever addToCart answers 200 for a product and a quantity, a guest
    cart of that one line is answered 200 as well and leaves the same
    stored carts. *)
Theorem syncGuestCart_of_one_line_stores_what_addToCart_stores (user : ObjectId)
    (productId : RequestId.t) (quantity : Z) (w : World) :
  let added :=
    addToCart user {| atc_productId := productId; atc_quantity := Some quantity |} w in
  let synced :=
    syncGuestCart user (Some [ {| gi_productId := productId; gi_quantity := quantity |} ])
      w in
  statusCode added.1 = 200%nat →
  statusCode synced.1 = 200%nat ∧ carts synced.2 = carts added.2.
Proof.
  intros added synced Hok. subst added synced.
  destruct (addToCart user _ w) as [resp w'] eqn:Hrun. cbn [fst snd] in *.
  apply addToCart_run in Hrun
    as [[Hcode _]|(product & q & Hproduct & Hadded & Hq & _ & _ & Hreach & Hstored)];
    [done|].
  cbn [atc_productId atc_quantity default] in *. unfold id in *.
  destruct (syncGuestCart_reachable user
              [ {| gi_productId := productId; gi_quantity := quantity |} ] w Hreach)
    as (w'' & -> & Hcarts).
  cbn [fst snd]. revert Hcarts.
  unfold Guest.mergedLines. cbn [foldl]. unfold Guest.mergedLine.
  cbn [gi_productId gi_quantity]. rewrite Hproduct.
  apply Z.ltb_ge in Hadded. rewrite Hadded.
  assert (∀ expected : list CartItem.t,
            carts w' = <[user := expected]> (carts w) →
            ∀ merged, merged = Cart.ofItem <$> expected →
            carts w'' = <[user := default (default [] (carts w !! user))
                                       (Cart.validate merged)]> (carts w) →
            statusCode
              match Cart.validate merged with
              | Some saved =>
                  {| statusCode := 200; body := CartBody user (populated w saved) |}
              | None =>
                  {| statusCode := 500; body := Failure (Message CartValidationError) |}
              end = 200%nat
            ∧ carts w'' = carts w') as Hsame.
  { intros expected -> merged -> ->. by rewrite validate_ofItem. }
  destruct (carts w !! user) as [items|] eqn:Hcart; cbn [default]; unfold id.
  - rewrite list_find_sameString in Hstored. rewrite list_find_sameString.
    destruct (RequestId.canonical productId).
    + rewrite list_find_ofItem.
      destruct (list_find _ items) as [[i existing]|] eqn:Hfind;
        cbn [fmap option_fmap option_map prod_map]; destruct Hstored as [Hsum Hw'].
      * apply (Hsame _ Hw').
        rewrite list_fmap_insert. f_equal. unfold Cart.ofItem. cbn.
        f_equal. lia.
      * apply (Hsame _ Hw'). rewrite fmap_app. cbn. by rewrite Hsum.
    + destruct Hstored as [Hsum Hw']. apply (Hsame _ Hw'). rewrite fmap_app. cbn.
      by rewrite Hsum.
  - destruct Hstored as [Hsum Hw']. apply (Hsame _ Hw'). cbn. by rewrite Hsum.
Qed.

(** X27, on a concrete cart: three apples held, two more added. *)
Lemma syncGuestCart_of_one_line_stores_what_addToCart_stores_witness :
  let w := Fixture.world [Fixture.line 1%N 3%positive] in
  let added := addToCart Fixture.customer
      {| atc_productId := RequestId.ofObjectId 1%N; atc_quantity := Some 2 |} w in
  let synced :=
    syncGuestCart Fixture.customer
      (Some [ {| gi_productId := RequestId.ofObjectId 1%N; gi_quantity := 2 |} ]) w
  in
  carts added.2 !! Fixture.customer = Some [Fixture.line 1%N 5%positive]
  ∧ statusCode synced.1 = 200%nat
  ∧ carts synced.2 = carts added.2.
Proof.
  cbv zeta. split; [by vm_compute|].
  apply (syncGuestCart_of_one_line_stores_what_addToCart_stores Fixture.customer
           (RequestId.ofObjectId 1%N) 2
           (Fixture.world [Fixture.line 1%N 3%positive])).
  by vm_compute.
Defined.

(** ** One line per product *)

Section OneLine.

Context (user : ObjectId).

Lemma oneLinePerProduct_step (w w' : World) :
  Effect.cartAndOrders user w w' →
  (∀ items, carts w' !! user = Some items → NoDup (CartItem.product <$> items)) →
  Effect.oneLinePerProduct w → Effect.oneLinePerProduct w'.
Proof.
  intros (_ & _ & _ & Hothers) Hown Hw other items Hcart.
  destruct (decide (other = user)) as [->|Hne]; [by apply Hown|].
  rewrite Hothers in Hcart by done. by eapply Hw.
Qed.

Lemma insert_same_product (items : list CartItem.t) (i : nat) (existing : CartItem.t)
    (q : positive) :
  items !! i = Some existing →
  (CartItem.product <$>
     <[i := {| CartItem.product := CartItem.product existing;
               CartItem.quantity := q |}]> items)
  = (CartItem.product <$> items).
Proof.
  intros Hi. rewrite list_fmap_insert. cbn. apply list_insert_id.
  by rewrite list_lookup_fmap, Hi.
Qed.

Lemma push_new_product (items : list CartItem.t) (line : CartItem.t) :
  list_find (λ item, CartItem.product item = CartItem.product line) items = None →
  NoDup (CartItem.product <$> items) →
  NoDup (CartItem.product <$> items ++ [line]).
Proof.
  intros Hfind Hitems. rewrite fmap_app. apply NoDup_app. split; [done|]. split.
  - intros productId (item & -> & Hin)%list_elem_of_fmap Hline.
    apply list_elem_of_singleton in Hline.
    apply list_find_None in Hfind. rewrite Forall_forall in Hfind.
    by apply (Hfind item).
  - apply NoDup_singleton.
Qed.

Lemma mergedLine_NoDup (catalog : list Product.t) (item : GuestItem)
    (lines : list Cart.Line) :
  RequestId.canonical (gi_productId item) = true →
  NoDup (Cart.product <$> lines) →
  NoDup (Cart.product <$> Guest.mergedLine catalog item lines).
Proof.
  intros Hspelling Hlines. unfold Guest.mergedLine.
  destruct (List.find _ catalog) as [product|]; [|done].
  destruct (availableStock product <? gi_quantity item); [done|].
  rewrite list_find_sameString, Hspelling.
  destruct (list_find _ lines) as [[i existing]|] eqn:Hfind.
  - apply list_find_Some in Hfind as (Hi & _ & _).
    rewrite list_fmap_insert. cbn. rewrite list_insert_id; [done|].
    by rewrite list_lookup_fmap, Hi.
  - rewrite fmap_app. apply NoDup_app. split; [done|]. split; [|apply NoDup_singleton].
    intros productId (line & -> & Hin)%list_elem_of_fmap Hnew.
    apply list_elem_of_singleton in Hnew. cbn in Hnew.
    apply list_find_None in Hfind. rewrite Forall_forall in Hfind.
    by apply (Hfind line).
Qed.

Lemma mergedLines_NoDup (catalog : list Product.t) (items : list GuestItem)
    (lines : list Cart.Line) :
  Forall (λ item, RequestId.canonical (gi_productId item) = true) items →
  NoDup (Cart.product <$> lines) →
  NoDup (Cart.product <$> Guest.mergedLines catalog items lines).
Proof.
  unfold Guest.mergedLines. intros Hspelling. revert lines.
  induction Hspelling as [|item items Hitem _ IH]; intros lines Hlines; [done|].
  cbn [foldl]. by apply IH, mergedLine_NoDup.
Qed.

Lemma products_ofItem (items : list CartItem.t) :
  (Cart.product <$> (Cart.ofItem <$> items)) = (CartItem.product <$> items).
Proof. by rewrite <- list_fmap_compose. Qed.

(** The stored cart of the customer after getCart, removeFromCart and an
    empty guest cart. *)
Lemma getCart_stored (w : World) :
  carts (getCart user w).2 = <[user := default [] (carts w !! user)]> (carts w).
Proof.
  destruct (carts w !! user) as [items|] eqn:Hcart; cbn [default].
  - rewrite (insert_id _ _ _ Hcart).
    destruct (getCart_existing user w items Hcart) as [Hok Hfail].
    destruct (catalogReachable_dec w) as [Hreach|Hno].
    + rewrite Hok by (by left). by destruct items.
    + destruct (decide (items = [])) as [->|Hne].
      * by rewrite Hok by (by right).
      * by rewrite Hfail.
  - by rewrite getCart_missing.
Qed.

Lemma removeFromCart_stored (productId : RequestId.t) (w : World) :
  carts (removeFromCart user productId w).2 !! user
  = List.filter (λ item, negb (RequestId.sameString (CartItem.product item) productId))
      <$> carts w !! user.
Proof.
  destruct (carts w !! user) as [items|] eqn:Hcart.
  - destruct (removeFromCart_existing user productId w items Hcart) as [Hok Hfail].
    cbn [fmap option_fmap option_map].
    set (kept := List.filter _ items) in *.
    destruct (catalogReachable_dec w) as [Hreach|Hno].
    + rewrite Hok by (by left). destruct kept; apply lookup_insert_eq.
    + destruct (decide (kept = [])) as [Hnil|Hne].
      * rewrite Hok by (by right). rewrite Hnil. apply lookup_insert_eq.
      * rewrite Hfail by done. apply lookup_insert_eq.
  - unfold removeFromCart, respond, tryCatch, removeFromCart_body.
    rewrite (bind_run (Cart.findOne user)), findOne_run. by rewrite Hcart.
Qed.

Lemma syncGuestCart_nil (w : World) : syncGuestCart user (Some []) w = getCart user w.
Proof.
  unfold syncGuestCart, getCart, respond, tryCatch, syncGuestCart_body, getCart_body.
  rewrite !(bind_run (Cart.findOne user)), !findOne_run. cbv beta iota.
  destruct (carts w !! user) as [items|] eqn:Hcart.
  - rewrite !(bind_run (mret items)). unfold mret at 1 3, handler_ret at 1 3.
    cbv beta iota. cbn [mergeGuestItems].
    rewrite (bind_run (mret (Cart.ofItem <$> items))).
    unfold mret at 1, handler_ret at 1. cbv beta iota.
    rewrite (bind_run (Cart.save _ _)), save_valid. cbv beta iota.
    by rewrite (insert_id _ _ _ Hcart), setCarts_same.
  - rewrite !(bind_run (Cart.save user [])), !(save_valid user []). cbv beta iota.
    cbn [mergeGuestItems fmap list_fmap].
    rewrite (bind_run (mret [])). unfold mret at 1, handler_ret at 1. cbv beta iota.
    rewrite (bind_run (Cart.save user [])), (save_valid user []). cbv beta iota.
    cbn [carts setCarts]. rewrite insert_insert_eq. done.
Qed.

Lemma filter_NoDup (keep : CartItem.t → bool) (items : list CartItem.t) :
  NoDup (CartItem.product <$> items) →
  NoDup (CartItem.product <$> List.filter keep items).
Proof.
  induction items as [|item items IH]; [done|]. cbn [List.filter].
  rewrite fmap_cons. intros [Hnew Hrest]%NoDup_cons.
  destruct (keep item); [|by apply IH].
  rewrite fmap_cons. apply NoDup_cons. split; [|by apply IH].
  intros (other & Hproduct & Hin)%list_elem_of_fmap. apply Hnew.
  apply list_elem_of_fmap. exists other. split; [done|].
  by apply list_elem_of_In, filter_In in Hin as [Hin%list_elem_of_In _].
Qed.

End OneLine.

(** ** Invariants over sequences of calls *)

Section Calls.

Lemma after_cartOnly (c : Trace.Call) (w : World) :
  (∀ env user req, c ≠ Trace.CreateOrder env user req) →
  Effect.cartOnly (Trace.caller c) w (Trace.after c w).
Proof.
  intros Hcart.
  pose proof (cartOnly_preorder (Trace.caller c)) as Hpre.
  destruct c as [user|user req|user productId quantity|user productId|user|user items
                 |env user req]; cbn [Trace.caller Trace.after] in *.
  - apply (respects_respond (Effect.cartOnly user)).
    apply (respects_tryCatch (Effect.cartOnly user));
      [apply getCart_frame|apply cartCatch_frame].
  - apply (respects_respond (Effect.cartOnly user)).
    apply (respects_tryCatch (Effect.cartOnly user));
      [apply addToCart_frame|apply cartCatch_frame].
  - apply (respects_respond (Effect.cartOnly user)).
    apply (respects_tryCatch (Effect.cartOnly user));
      [apply updateCartItem_frame|apply cartCatch_frame].
  - apply (respects_respond (Effect.cartOnly user)).
    apply (respects_tryCatch (Effect.cartOnly user));
      [apply removeFromCart_frame|apply cartCatch_frame].
  - apply (respects_answer (Effect.cartOnly user)).
    apply (respects_tryCatch (Effect.cartOnly user)); [apply clearCart_frame|].
    intros e. apply (respects_reply (Effect.cartOnly user)).
  - apply (respects_respond (Effect.cartOnly user)).
    apply (respects_tryCatch (Effect.cartOnly user));
      [apply syncGuestCart_frame|apply cartCatch_frame].
  - by destruct (Hcart env user req).
Qed.

Lemma after_cartAndOrders (c : Trace.Call) (w : World) :
  Effect.cartAndOrders (Trace.caller c) w (Trace.after c w).
Proof.
  destruct c as [user|user req|user productId quantity|user productId|user|user items
                 |env user req];
    try (apply cartOnly_cartAndOrders; by apply after_cartOnly).
  pose proof (cartAndOrders_preorder user) as Hpre. cbn [Trace.caller Trace.after].
  unfold createOrder. apply (respects_respond (Effect.cartAndOrders user)).
  apply (respects_tryCatch (Effect.cartAndOrders user));
    [apply createOrder_frame|apply createOrderCatch_frame].
Qed.

(** The cart of the caller after a call. *)
Lemma after_own_cart (c : Trace.Call) (w : World) (items : list CartItem.t) :
  Trace.addsUnderStoredSpelling c →
  Effect.oneLinePerProduct w →
  carts (Trace.after c w) !! Trace.caller c = Some items →
  NoDup (CartItem.product <$> items).
Proof.
  intros Hspelling Hw.
  assert (∀ stored, default [] (carts w !! Trace.caller c) = stored →
                    NoDup (CartItem.product <$> stored)) as Hdefault.
  { intros stored <-. destruct (carts w !! Trace.caller c) as [stored|] eqn:Hcart.
    - by eapply Hw.
    - apply NoDup_nil_2. }
  destruct c as [user|user req|user productId quantity|user productId|user|user guest
                 |env user req];
    cbn [Trace.caller Trace.after Trace.addsUnderStoredSpelling] in *.
  - rewrite getCart_stored, lookup_insert_eq. intros [= <-]. by apply Hdefault.
  - destruct (addToCart user req w) as [resp w'] eqn:Hrun. cbn [snd].
    apply addToCart_run in Hrun
      as [[_ ->]|(product & q & _ & _ & _ & _ & _ & _ & Hstored)]; [by apply Hw|].
    destruct (carts w !! user) as [stored|] eqn:Hcart.
    + rewrite list_find_sameString, Hspelling in Hstored.
      destruct (list_find _ stored) as [[i existing]|] eqn:Hfind;
        destruct Hstored as [_ ->]; rewrite lookup_insert_eq; intros [= <-].
      * apply list_find_Some in Hfind as (Hi & _ & _).
        rewrite insert_same_product by done. by eapply Hw.
      * apply push_new_product; [done|by eapply Hw].
    + destruct Hstored as [_ ->]. rewrite lookup_insert_eq. intros [= <-].
      apply NoDup_singleton.
  - destruct (updateCartItem user productId quantity w) as [resp w'] eqn:Hrun.
    cbn [snd].
    apply updateCartItem_run in Hrun
      as [[_ ->]|(product & stored & i & existing & q & _ & _ & _ & _ & Hcart & _
                  & Hfind & -> & _)]; [by apply Hw|].
    rewrite lookup_insert_eq. intros [= <-].
    apply list_find_Some in Hfind as (Hi & _ & _).
    rewrite insert_same_product by done. by eapply Hw.
  - rewrite removeFromCart_stored.
    destruct (carts w !! user) as [stored|] eqn:Hcart; [|done].
    intros [= <-]. apply filter_NoDup. by eapply Hw.
  - rewrite clearCart_run.
    destruct (carts w !! user) as [stored|] eqn:Hcart; cbn [snd carts setCarts].
    + rewrite lookup_insert_eq. intros [= <-]. apply NoDup_nil_2.
    + by rewrite Hcart.
  - destruct guest as [guest|]; [|by apply Hw].
    destruct (decide (guest = [])) as [->|Hguest].
    { rewrite syncGuestCart_nil, getCart_stored, lookup_insert_eq. intros [= <-].
      by apply Hdefault. }
    destruct (catalogReachable_dec w) as [Hreach|Hno].
    + destruct (syncGuestCart_reachable user guest w Hreach) as (w' & -> & Hcarts).
      cbn [snd]. rewrite Hcarts, lookup_insert_eq. intros [= <-].
      destruct (Cart.validate _) as [saved|] eqn:Hsaved; cbn [default];
        [|by apply Hdefault].
      apply validate_Some_ofItem in Hsaved. unfold id.
      rewrite <- products_ofItem, <- Hsaved. apply mergedLines_NoDup; [done|].
      rewrite products_ofItem. by apply Hdefault.
    + rewrite syncGuestCart_unreachable by done. cbn [snd carts setCarts].
      rewrite lookup_insert_eq. intros [= <-]. by apply Hdefault.
  - destruct (createOrder_outcome env user req w) as [(_ & -> & _)|Hplaced];
      [by apply Hw|].
    destruct Hplaced as (id & method & stored & address & order & _ & _ & _ & _ & _ & _
                         & _ & _ & _ & _ & _ & _ & ->).
    rewrite lookup_insert_eq. intros [= <-]. apply NoDup_nil_2.
Qed.

(** What a call does to the orders. *)
Lemma after_orders (c : Trace.Call) (w : World) :
  orders w `prefix_of` orders (Trace.after c w)
  ∧ (NoDup (AdminOrder.orderNumber <$> orders w) →
     NoDup (AdminOrder.orderNumber <$> orders (Trace.after c w))).
Proof.
  destruct c as [user|user req|user productId quantity|user productId|user|user items
                 |env user req].
  7:{ cbn [Trace.after]. split; [|apply createOrder_keeps_order_numbers_unique].
      destruct (createOrder_outcome env user req w) as [(_ & _ & ->)|Hplaced]; [done|].
      destruct Hplaced as (id & method & stored & address & order & _ & _ & _ & _ & _
                           & _ & _ & _ & _ & _ & _ & -> & _).
      by apply prefix_app_r. }
  all: match goal with
       | |- context [Trace.after ?c ?w0] =>
           destruct (after_cartOnly c w0) as (-> & _); [done|by split]
       end.
Qed.

End Calls.

(** X25: no sequence of calls that spell the ids of the products they
    add as the stored ids read brings two lines of the same product into
    a cart.  When every stored cart has at most one line per product,
    then so it is after any number of calls of getCart, addToCart,
    updateCartItem, removeFromCart, clearCart, syncGuestCart and
    createOrder, by any customers, whatever the calls answer, as long as
    every addToCart and every line of a guest cart spells the id of its
    product in that way.  (An addToCart under another spelling stores a
    second line of a product the cart holds.) *)
Theorem carts_keep_one_line_per_product (calls : list Trace.Call) (w : World) :
  Forall Trace.addsUnderStoredSpelling calls →
  Effect.oneLinePerProduct w → Effect.oneLinePerProduct (Trace.afterAll calls w).
Proof.
  unfold Trace.afterAll. intros Hcalls. revert w.
  induction Hcalls as [|c calls Hc _ IH]; intros w Hw; [done|].
  cbn [foldl]. apply IH.
  apply (oneLinePerProduct_step (Trace.caller c) w); [apply after_cartAndOrders| |done].
  intros items. by apply after_own_cart.
Qed.

(** X25, on a concrete run: apples are added twice, merged from a guest
    cart and updated; the cart holds one line of apples.  With one more
    addToCart of apples under the id in upper case it holds two. *)
Lemma carts_keep_one_line_per_product_witness :
  let calls :=
    [ Trace.AddToCart Fixture.customer
        {| atc_productId := RequestId.ofObjectId 4%N; atc_quantity := Some 1 |};
      Trace.AddToCart Fixture.customer
        {| atc_productId := RequestId.ofObjectId 1%N; atc_quantity := Some 2 |};
      Trace.SyncGuestCart Fixture.customer
        (Some [ {| gi_productId := RequestId.ofObjectId 1%N; gi_quantity := 9 |};
                {| gi_productId := RequestId.ofObjectId 2%N; gi_quantity := 1 |} ]);
      Trace.UpdateCartItem Fixture.customer (RequestId.ofObjectId 4%N) 3;
      Trace.RemoveFromCart Fixture.customer (RequestId.respelled 2%N) ] in
  let respelled :=
    Trace.AddToCart Fixture.customer
      {| atc_productId := RequestId.respelled 1%N; atc_quantity := Some 1 |} in
  carts (Trace.afterAll calls Fixture.twoCustomers) !! Fixture.customer
  = Some [Fixture.line 1%N 10%positive; Fixture.line 4%N 3%positive;
          Fixture.line 2%N 1%positive]
  ∧ carts (Trace.afterAll (calls ++ [respelled]) Fixture.twoCustomers) !! Fixture.customer
    = Some [Fixture.line 1%N 10%positive; Fixture.line 4%N 3%positive;
            Fixture.line 2%N 1%positive; Fixture.line 1%N 1%positive]
  ∧ Effect.oneLinePerProduct (Trace.afterAll calls Fixture.twoCustomers).
Proof.
  cbv zeta. split; [by vm_compute|]. split; [by vm_compute|].
  apply carts_keep_one_line_per_product.
  { repeat constructor. }
  intros user items Hcart. unfold Fixture.twoCustomers in Hcart. cbn [carts] in Hcart.
  apply lookup_insert_Some in Hcart as [[_ <-]|[_ Hcart]].
  { apply (bool_decide_unpack _). by vm_compute. }
  apply lookup_singleton_Some in Hcart as [_ <-].
  apply (bool_decide_unpack _). by vm_compute.
Defined.

(** X28: the order store only grows, and its order numbers stay
    distinct.  After any sequence of calls the orders that were stored
    are still there, unchanged and in their order, at the front of the
    store; when their numbers were distinct, the numbers of all stored
    orders are distinct; and the catalog and the addresses are as they
    were: no call writes to them, so no order takes anything from the
    stock. *)
Theorem stored_orders_stay_and_keep_distinct_numbers (calls : list Trace.Call)
    (w : World) :
  NoDup (AdminOrder.orderNumber <$> orders w) →
  NoDup (AdminOrder.orderNumber <$> orders (Trace.afterAll calls w))
  ∧ orders w `prefix_of` orders (Trace.afterAll calls w)
  ∧ products (Trace.afterAll calls w) = products w
  ∧ addresses (Trace.afterAll calls w) = addresses w.
Proof.
  unfold Trace.afterAll. revert w.
  induction calls as [|c calls IH]; intros w Hw; [done|].
  cbn [foldl].
  destruct (after_orders c w) as [Hprefix Hunique].
  destruct (after_cartAndOrders c w) as (Hproducts & Haddresses & _).
  destruct (IH (Trace.after c w) (Hunique Hw)) as (Hnodup & Hkept & Hcatalog & Hbook).
  split; [done|]. split; [by etrans|]. split; congruence.
Qed.

(** X28, on a concrete run: two customers order in the same millisecond
    with draws that give the same order number; the second order is not
    stored. *)
Lemma stored_orders_stay_and_keep_distinct_numbers_witness :
  let calls :=
    [ Trace.CreateOrder Fixture.env Fixture.customer Fixture.cod;
      Trace.CreateOrder Fixture.envAgain Fixture.neighbour (Fixture.codTo 51%N);
      Trace.ClearCart Fixture.neighbour ] in
  (AdminOrder.orderNumber <$> orders (Trace.afterAll calls Fixture.twoCustomers))
  = ["ORD-1700000000000-4FZYO8"]
  ∧ NoDup (AdminOrder.orderNumber <$> orders (Trace.afterAll calls Fixture.twoCustomers))
  ∧ orders Fixture.twoCustomers `prefix_of` orders (Trace.afterAll calls Fixture.twoCustomers)
  ∧ products (Trace.afterAll calls Fixture.twoCustomers) = products Fixture.twoCustomers
  ∧ addresses (Trace.afterAll calls Fixture.twoCustomers) = addresses Fixture.twoCustomers.
Proof.
  cbv zeta. split; [by vm_compute|].
  apply stored_orders_stay_and_keep_distinct_numbers. cbn. apply NoDup_nil_2.
Defined.

(** X29: a guest cart without lines is a getCart.  syncGuestCart with an
    empty array answers what getCart answers and leaves the stores as
    getCart leaves them: the customer has a stored cart afterwards, with
    the lines it had. *)
Theorem syncGuestCart_of_no_lines_is_getCart (user : ObjectId) (w : World) :
  syncGuestCart user (Some []) w = getCart user w
  ∧ carts (syncGuestCart user (Some []) w).2 !! user
    = Some (default [] (carts w !! user)).
Proof.
  split; [apply syncGuestCart_nil|].
  rewrite syncGuestCart_nil, getCart_stored. apply lookup_insert_eq.
Qed.
